(** * IG Publisher: a shallow embedding of [main.py]

    The service authorises against the Graph API with the OAuth2
    authorization-code flow, keeps the obtained tokens in one process-wide
    dict, and publishes a remote video through the container protocol
    (create, poll, commit).

    Conventions of the embedding:
    - Python values that come from JSON (request payloads, upstream replies,
      the entries of [TOKENS]) are values of [json]; [None] is [JNull].
      Numbers are integers: the code only tests a number for truth, and a
      fraction tests like a non-zero integer.
    - Text is [string] and stands for ASCII text, on which [upper], [strip]
      and [isspace] are Python's.  Python's own methods also change
      characters beyond ASCII ([str.upper] maps them, [str.strip] removes
      the other Unicode spaces), which the embedding does not follow: a
      statement about the result of upper-casing or trimming a text takes
      as a hypothesis that the text is ASCII ([isascii]).
    - [time.sleep] is called with a duration that it accepts (the service
      passes 5 seconds).
    - Clock readings are exact rationals, in seconds.
    - The outside world (upstream replies, the wall clock) is a field of
      the state that the code threads; outbound calls and sleeps are logged
      there, so that "no upstream call is made" is a statement about the log.
    - A handler returns, raises, or (the polling loop only) runs out of
      fuel. *)

From Stdlib Require Import ZArith QArith Qround Ascii String Lqa.
From stdpp Require Import gmap strings list fin_maps.

Set Warnings "-register-all".

Open Scope Z_scope.
Open Scope string_scope.

(** ** Python values *)

Inductive json :=
| JNull
| JBool (b : bool)
| JNum (n : Z)
| JStr (s : string)
| JArr (l : list json)
| JObj (o : gmap string json).

(** [bool(v)], which is also what [if v], [not v] and [v or d] test. *)
Definition truthy (v : json) : bool :=
  match v with
  | JNull => false
  | JBool b => b
  | JNum n => negb (n =? 0)%Z
  | JStr s => negb (String.eqb s "")
  | JArr l => match l with [] => false | _ => true end
  | JObj o => negb (bool_decide (o = ∅))
  end.

(** [v or d] *)
Definition py_or (v d : json) : json := if truthy v then v else d.

(** [v == s] for a string literal [s] *)
Definition eq_str (v : json) (s : string) : bool :=
  match v with
  | JStr t => String.eqb t s
  | _ => false
  end.

(** ** Exceptions and results *)

(** The URLs the service calls.  The source builds them with f-strings
    from [GRAPH] and an identifier; the identifier is kept as the value that
    is interpolated. *)
Inductive endpoint :=
| OAuthAccessToken             (* f"{GRAPH}/oauth/access_token" *)
| MeAccounts                   (* f"{GRAPH}/me/accounts" *)
| Media (ig_user_id : json)    (* f"{GRAPH}/{ig_user_id}/media" *)
| Container (container_id : json)      (* f"{GRAPH}/{container_id}" *)
| MediaPublish (ig_user_id : json).    (* f"{GRAPH}/{ig_user_id}/media_publish" *)

(** The [detail] argument of [HTTPException]: a message, or one of the two
    dict shapes of the source. *)
Inductive detail :=
| Message (s : string)
| UrlResp (url : endpoint) (resp : json)     (* {"url": url, "resp": js} *)
| ErrorResp (error : string) (resp : json).  (* {"error": ..., "resp": js} *)

Inductive exn :=
| HTTPException (status_code : Z) (d : detail)
| AttributeError      (* [.get], [.upper], [.strip] on a value without it *)
| TypeError           (* iterating a value that is not iterable *)
| RequestException.   (* raised by [requests.request] itself *)

Inductive res (A : Type) :=
| Ret (a : A)
| Raise (e : exn)
| OutOfFuel.
Arguments Ret {A} a.
Arguments Raise {A} e.
Arguments OutOfFuel {A}.

(** ** Dict and str methods *)

(** [d.get(k)] on a dict: a missing key gives [None]. *)
Definition dict_get (k : string) (d : gmap string json) : json :=
  default JNull (d !! k).

(** [v.get(k)] on any value: only a dict has the method. *)
Definition py_get (k : string) (v : json) : res json :=
  match v with
  | JObj o => Ret (dict_get k o)
  | _ => Raise AttributeError
  end.

(** [v.get(k, d)] *)
Definition py_get_default (k : string) (d : json) (v : json) : res json :=
  match v with
  | JObj o => Ret (default d (o !! k))
  | _ => Raise AttributeError
  end.

(** [for p in v]: the items the loop visits.  A str yields its characters
    and a dict its keys, all of them strs. *)
Definition py_iter (v : json) : res (list json) :=
  match v with
  | JArr l => Ret l
  | JStr s => Ret ((λ c, JStr (String c EmptyString)) <$> list_ascii_of_string s)
  | JObj o => Ret (JStr <$> (map_to_list o).*1)
  | _ => Raise TypeError
  end.

(** [c.upper()] for an ASCII character: only [a]-[z] change. *)
Definition upper_ascii (c : ascii) : ascii :=
  let n := nat_of_ascii c in
  if ((97 <=? n) && (n <=? 122))%nat then ascii_of_nat (n - 32) else c.

(** [s.upper()] *)
Fixpoint upper (s : string) : string :=
  match s with
  | EmptyString => EmptyString
  | String c s' => String (upper_ascii c) (upper s')
  end.

(** [c.isspace()] for an ASCII character: tab, newline, vertical tab, form
    feed, carriage return, the four separators 0x1c-0x1f, and space. *)
Definition isspace (c : ascii) : bool :=
  let n := nat_of_ascii c in
  (((9 <=? n) && (n <=? 13)) || ((28 <=? n) && (n <=? 32)))%nat.

Fixpoint lstrip (s : string) : string :=
  match s with
  | EmptyString => EmptyString
  | String c s' => if isspace c then lstrip s' else s
  end.

Fixpoint rstrip (s : string) : string :=
  match s with
  | EmptyString => EmptyString
  | String c s' =>
      match rstrip s' with
      | EmptyString => if isspace c then EmptyString else String c EmptyString
      | r => String c r
      end
  end.

(** [s.strip()] *)
Definition strip (s : string) : string := rstrip (lstrip s).

(** [s.rstrip("/")] *)
Fixpoint rstrip_slash (s : string) : string :=
  match s with
  | EmptyString => EmptyString
  | String c s' =>
      match rstrip_slash s' with
      | EmptyString => if Ascii.eqb c "/" then EmptyString else String c EmptyString
      | r => String c r
      end
  end.

(** [s.startswith(p)] *)
Definition startswith (s p : string) : bool := String.prefix p s.

(** [sep.join(l)] *)
Fixpoint join (sep : string) (l : list string) : string :=
  match l with
  | [] => ""
  | [x] => x
  | x :: l' => x ++ sep ++ join sep l'
  end.

(** [v.upper()] and [v.strip()] on a value that may not be a str *)
Definition py_upper (v : json) : res string :=
  match v with
  | JStr s => Ret (upper s)
  | _ => Raise AttributeError
  end.

Definition py_strip (v : json) : res string :=
  match v with
  | JStr s => Ret (strip s)
  | _ => Raise AttributeError
  end.

(** ** Module constants *)

(** The values read from the environment when the module is imported, and
    the nonce drawn once at process start. *)
Record settings := Settings {
  META_APP_ID : string;
  META_APP_SECRET : string;
  META_REDIRECT_URI : string;
  META_SCOPES : string;
  PUBLIC_BASE_URL : string;
  STATE_NONCE : string;
}.

(** [os.getenv(k, d)] *)
Definition getenv (environ : gmap string string) (k d : string) : string :=
  default d (environ !! k).

(** Lines 14-32: the constants as computed from the process environment
    and the nonce from [secrets.token_urlsafe]. *)
Definition load_settings (environ : gmap string string) (nonce : string) : settings :=
  {| META_APP_ID := strip (getenv environ "META_APP_ID" "");
     META_APP_SECRET := strip (getenv environ "META_APP_SECRET" "");
     META_REDIRECT_URI := strip (getenv environ "META_REDIRECT_URI" "");
     META_SCOPES :=
       strip (getenv environ "META_SCOPES"
         "pages_show_list,pages_read_engagement,instagram_basic,instagram_content_publish");
     PUBLIC_BASE_URL :=
       rstrip_slash (strip (getenv environ "PUBLIC_BASE_URL"
         "https://enviarvideo-production.up.railway.app"));
     STATE_NONCE := nonce |}.

(** ** The session record and the world *)

(** The dict [TOKENS]: its five keys never change, only their values. *)
Record session := Session {
  user_access_token : json;
  page_access_token : json;
  ig_user_id : json;
  page_id : json;
  token_obtained_at : json;
}.

Definition TOKENS_init : session :=
  {| user_access_token := JNull;
     page_access_token := JNull;
     ig_user_id := JNull;
     page_id := JNull;
     token_obtained_at := JNull |}.

(** An outbound call: the arguments of [requests.request]. *)
Record request := Request {
  req_method : string;
  req_url : endpoint;
  req_params : option (gmap string json);
  req_data : option (gmap string json);
  req_timeout : Z;
}.

(** What comes back: [requests.request] raises, or there is a response
    with a status and a body that [r.json()] parses ([inl]) or not ([inr],
    holding [r.text]). *)
Inductive reply :=
| NoResponse
| Response (status_code : Z) (body : json + string).

(** The state threaded through the code.  [upstream k] answers the k-th
    outbound call of the process and [wall_clock k] is the k-th value
    returned by [time.time()], in seconds. *)
Record world := World {
  upstream : nat → reply;
  wall_clock : nat → Q;
  calls : list request;
  clock_reads : nat;
  sleeps : list Z;
  TOKENS : session;
}.

Definition M (A : Type) : Type := world → res A * world.

Definition ret {A} (a : A) : M A := λ w, (Ret a, w).
Definition raise {A} (e : exn) : M A := λ w, (Raise e, w).
Definition out_of_fuel {A} : M A := λ w, (OutOfFuel, w).

Definition bind {A B} (m : M A) (k : A → M B) : M B :=
  λ w, match m w with
       | (Ret a, w') => k a w'
       | (Raise e, w') => (Raise e, w')
       | (OutOfFuel, w') => (OutOfFuel, w')
       end.

(** A computation that does not touch the world. *)
Definition lift {A} (r : res A) : M A := λ w, (r, w).

Notation "x <- m ;; k" := (bind m (λ x, k))
  (at level 100, m at next level, right associativity).
Notation "m ;;; k" := (bind m (λ _, k))
  (at level 100, right associativity).

(** The four ways the code changes the world. *)
Definition log_call (rq : request) (w : world) : world :=
  {| upstream := upstream w; wall_clock := wall_clock w;
     calls := calls w ++ [rq]; clock_reads := clock_reads w;
     sleeps := sleeps w; TOKENS := TOKENS w |}.

Definition tick (w : world) : world :=
  {| upstream := upstream w; wall_clock := wall_clock w;
     calls := calls w; clock_reads := S (clock_reads w);
     sleeps := sleeps w; TOKENS := TOKENS w |}.

Definition log_sleep (secs : Z) (w : world) : world :=
  {| upstream := upstream w; wall_clock := wall_clock w;
     calls := calls w; clock_reads := clock_reads w;
     sleeps := sleeps w ++ [secs]; TOKENS := TOKENS w |}.

Definition put_TOKENS (t : session) (w : world) : world :=
  {| upstream := upstream w; wall_clock := wall_clock w;
     calls := calls w; clock_reads := clock_reads w;
     sleeps := sleeps w; TOKENS := t |}.

(** [requests.request(method, url, params=..., data=..., timeout=...)] *)
Definition requests_request (rq : request) : M (Z * (json + string)) :=
  λ w,
    match upstream w (length (calls w)) with
    | NoResponse => (Raise RequestException, log_call rq w)
    | Response st body => (Ret (st, body), log_call rq w)
    end.

(** [time.time()] *)
Definition time_time : M Q :=
  λ w, (Ret (wall_clock w (clock_reads w)), tick w).

(** [time.sleep(secs)] for a duration that [time.sleep] accepts; the
    service sleeps 5 seconds. *)
Definition time_sleep (secs : Z) : M unit :=
  λ w, (Ret tt, log_sleep secs w).

(** Reading [TOKENS] and assigning to one of its keys. *)
Definition get_TOKENS : M session := λ w, (Ret (TOKENS w), w).

Definition set_TOKENS (f : session → session) : M unit :=
  λ w, (Ret tt, put_TOKENS (f (TOKENS w)) w).

(** [int(t)] on a clock reading: truncation towards zero. *)
Definition py_int (t : Q) : Z := Z.quot (Qnum t) (Z.pos (Qden t)).

(** [a > b] on numbers *)
Definition Qgtb (a b : Q) : bool := negb (Qle_bool a b).

(** Sequencing for computations that do not touch the world. *)
Definition res_bind {A B} (r : res A) (k : A → res B) : res B :=
  match r with
  | Ret a => k a
  | Raise e => Raise e
  | OutOfFuel => OutOfFuel
  end.

Notation "x <~ r ;; k" := (res_bind r (λ x, k))
  (at level 100, r at next level, right associativity).

(** Truthiness of a str and of an [Optional[str]] query parameter. *)
Definition nonempty (s : string) : bool := negb (String.eqb s "").

Definition opt_truthy (o : option string) : bool :=
  match o with
  | Some s => nonempty s
  | None => false
  end.

Definition opt_json (o : option string) : json :=
  match o with
  | Some s => JStr s
  | None => JNull
  end.

(** [r.json()], with the fallback [{"_raw": r.text}] of [_req]. *)
Definition body_json (body : json + string) : json :=
  match body with
  | inl js => js
  | inr text => JObj {[ "_raw" := JStr text ]}
  end.

(** Lines 292-296 of [publish]: the five locals read from the payload. *)
Definition read_media_type (payload : gmap string json) : res string :=
  s <~ py_upper (py_or (dict_get "media_type" payload) (JStr "REELS"));;
  Ret (strip s).

Definition read_video_url (payload : gmap string json) : res string :=
  py_strip (py_or (dict_get "video_url" payload) (JStr "")).

Definition read_caption (payload : gmap string json) : res string :=
  py_strip (py_or (dict_get "caption" payload) (JStr "")).

Definition read_share_to_feed (payload : gmap string json) : bool :=
  truthy (default (JBool true) (payload !! "share_to_feed")).

Definition read_wait (payload : gmap string json) : bool :=
  truthy (default (JBool true) (payload !! "wait")).

(** [media_type in ("REELS", "VIDEO", "STORIES")] *)
Definition valid_media_type (media_type : string) : bool :=
  bool_decide (media_type ∈ ["REELS"; "VIDEO"; "STORIES"]).

(** ** What a route returns *)

Inductive html :=
| HomePage
| AuthorizedPage (page_id ig_user_id : json).

(** The query of the authorization dialog URL; [redirect_uri] and [scope]
    are the values that the source passes through [requests.utils.quote]. *)
Record dialog_url := DialogUrl {
  q_client_id : string;
  q_redirect_uri : string;
  q_state : string;
  q_scope : string;
  q_response_type : string;
}.

Inductive response :=
| Dict (content : gmap string json)           (* a returned dict *)
| JSONResponse (content : gmap string json) (status_code : Z)
| HTMLResponse (content : html)
| RedirectResponse (url : dialog_url).

(** The status line the client sees: FastAPI sends a returned dict or an
    [HTMLResponse] with 200, a [RedirectResponse] with 307, an
    [HTTPException] with its own status, and any other exception as 500. *)
Definition http_status (r : res response) : option Z :=
  match r with
  | Ret (Dict _) => Some 200
  | Ret (JSONResponse _ st) => Some st
  | Ret (HTMLResponse _) => Some 200
  | Ret (RedirectResponse _) => Some 307
  | Raise (HTTPException st _) => Some st
  | Raise _ => Some 500
  | OutOfFuel => None
  end.

(** ** The service *)

Section Service.

Variable cfg : settings.

Definition _get_redirect_uri : string :=
  if nonempty (META_REDIRECT_URI cfg) then META_REDIRECT_URI cfg
  else if nonempty (PUBLIC_BASE_URL cfg) then PUBLIC_BASE_URL cfg ++ "/oauth/callback"
  else "".

(** The list [missing] as [_require_env] builds it. *)
Definition missing_settings : list string :=
  let missing : list string := [] in
  let missing :=
    if negb (nonempty (META_APP_ID cfg)) then (missing ++ ["META_APP_ID"])%list else missing in
  let missing :=
    if negb (nonempty (META_APP_SECRET cfg)) then (missing ++ ["META_APP_SECRET"])%list else missing in
  let missing :=
    if negb (nonempty _get_redirect_uri)
    then (missing ++ ["META_REDIRECT_URI ou PUBLIC_BASE_URL"])%list else missing in
  let missing :=
    if negb (nonempty (PUBLIC_BASE_URL cfg)) then (missing ++ ["PUBLIC_BASE_URL"])%list else missing in
  missing.

Definition _require_env : res unit :=
  let missing := missing_settings in
  match missing with
  | [] => Ret tt
  | _ =>
      Raise (HTTPException 500
               (Message ("Faltando variaveis de ambiente: " ++ join ", " missing)))
  end.

Definition _req (method : string) (url : endpoint)
    (params data : option (gmap string json)) (timeout : Z) : M json :=
  r <- requests_request
         {| req_method := method; req_url := url; req_params := params;
            req_data := data; req_timeout := timeout |};;
  let js := body_json r.2 in
  if (400 <=? r.1)%Z then raise (HTTPException 400 (UrlResp url js))
  else ret js.

Definition _exchange_code_for_user_token (code : json) : M json :=
  let url := OAuthAccessToken in
  let params : gmap string json :=
    {[ "client_id" := JStr (META_APP_ID cfg);
       "client_secret" := JStr (META_APP_SECRET cfg);
       "redirect_uri" := JStr _get_redirect_uri;
       "code" := code ]} in
  js <- _req "GET" url (Some params) None 60;;
  token <- lift (py_get "access_token" js);;
  if negb (truthy token)
  then raise (HTTPException 400 (ErrorResp "Sem access_token" js))
  else ret token.

Definition _get_pages_and_ig (user_token : json) : M json :=
  let url := MeAccounts in
  let params : gmap string json :=
    {[ "fields" := JStr "name,access_token,tasks,instagram_business_account";
       "access_token" := user_token ]} in
  js <- _req "GET" url (Some params) None 60;;
  data <- lift (py_get_default "data" (JArr []) js);;
  if negb (truthy data)
  then raise (HTTPException 400
                (Message "Nao achei paginas. Verifique permissoes/roles e conexao Pagina<->IG."))
  else ret data.

(** The body of the [for] loop of [_pick_first_valid_page] on one item:
    [Ret true] when the item is returned, [Ret false] when the loop goes on. *)
Definition page_ok (p : json) : res bool :=
  acct <~ py_get "instagram_business_account" p;;
  ig <~ py_get "id" (py_or acct (JObj ∅));;
  if truthy ig
  then (tok <~ py_get "access_token" p;; Ret (truthy tok))
  else Ret false.

Fixpoint pick_loop (items : list json) : res json :=
  match items with
  | [] =>
      Raise (HTTPException 400
               (Message "Nenhuma pagina retornou instagram_business_account + access_token."))
  | p :: rest =>
      ok <~ page_ok p;;
      if ok then Ret p else pick_loop rest
  end.

Definition _pick_first_valid_page (pages : json) : res json :=
  items <~ py_iter pages;;
  pick_loop items.

Definition _create_container (ig_user_id page_token : json)
    (media_type video_url caption : string) (share_to_feed : bool) : M json :=
  let url := Media ig_user_id in
  let data : gmap string json :=
    {[ "media_type" := JStr media_type;
       "video_url" := JStr video_url;
       "access_token" := page_token ]} in
  let data := if nonempty caption then <["caption" := JStr caption]> data else data in
  let data :=
    if String.eqb media_type "REELS"
    then <["share_to_feed" := JStr (if share_to_feed then "true" else "false")]> data
    else data in
  js <- _req "POST" url None (Some data) 60;;
  cid <- lift (py_get "id" js);;
  if negb (truthy cid)
  then raise (HTTPException 400 (ErrorResp "Sem container id" js))
  else ret cid.

(** The [while True] loop of [_wait_container]; [fuel] bounds the number
    of polls. *)
Fixpoint wait_loop (fuel : nat) (url : endpoint) (params : gmap string json)
    (t0 : Q) (timeout_sec poll_sec : Z) : M unit :=
  match fuel with
  | O => out_of_fuel
  | S fuel' =>
      js <- _req "GET" url (Some params) None 60;;
      status_code <- lift (py_get "status_code" js);;
      if eq_str status_code "FINISHED" then ret tt
      else if eq_str status_code "ERROR" || eq_str status_code "EXPIRED"
      then raise (HTTPException 400 (ErrorResp "Processamento falhou" js))
      else
        now <- time_time;;
        if Qgtb (now - t0) (inject_Z timeout_sec)
        then raise (HTTPException 408
                      (Message "Timeout esperando processamento do video."))
        else
          time_sleep poll_sec;;;
          wait_loop fuel' url params t0 timeout_sec poll_sec
  end.

Definition _wait_container (fuel : nat) (container_id page_token : json)
    (timeout_sec poll_sec : Z) : M unit :=
  let url := Container container_id in
  let params : gmap string json :=
    {[ "fields" := JStr "status_code,status"; "access_token" := page_token ]} in
  t0 <- time_time;;
  wait_loop fuel url params t0 timeout_sec poll_sec.

(** The defaults of [timeout_sec] and [poll_sec]. *)
Definition default_timeout_sec : Z := 20 * 60.
Definition default_poll_sec : Z := 5.

Definition _publish_container (ig_user_id page_token container_id : json) : M json :=
  let url := MediaPublish ig_user_id in
  let data : gmap string json :=
    {[ "creation_id" := container_id; "access_token" := page_token ]} in
  js <- _req "POST" url None (Some data) 60;;
  mid <- lift (py_get "id" js);;
  if negb (truthy mid)
  then raise (HTTPException 400 (ErrorResp "Sem media id" js))
  else ret mid.

(** *** Routes *)

Definition health : M response :=
  t <- get_TOKENS;;
  ret (Dict {[ "ok" := JBool true;
               "has_token" := JBool (truthy (user_access_token t)) ]}).

Definition home : M response :=
  lift _require_env;;;
  ret (HTMLResponse HomePage).

Definition login : M response :=
  lift _require_env;;;
  let redirect_uri := _get_redirect_uri in
  let auth_url :=
    {| q_client_id := META_APP_ID cfg;
       q_redirect_uri := redirect_uri;
       q_state := STATE_NONCE cfg;
       q_scope := META_SCOPES cfg;
       q_response_type := "code" |} in
  ret (RedirectResponse auth_url).

Definition oauth_callback (code state error error_description : option string)
    : M response :=
  lift _require_env;;;
  if opt_truthy error
  then ret (JSONResponse {[ "error" := opt_json error;
                            "description" := opt_json error_description ]} 400)
  else if negb (opt_truthy code)
  then raise (HTTPException 400 (Message "Callback sem 'code'."))
  else if negb (bool_decide (state = Some (STATE_NONCE cfg)))
  then raise (HTTPException 400 (Message "State invalido (possivel CSRF)."))
  else
    user_token <- _exchange_code_for_user_token (opt_json code);;
    pages <- _get_pages_and_ig user_token;;
    chosen <- lift (_pick_first_valid_page pages);;
    set_TOKENS (λ t, {| user_access_token := user_token;
                        page_access_token := page_access_token t;
                        ig_user_id := ig_user_id t;
                        page_id := page_id t;
                        token_obtained_at := token_obtained_at t |});;;
    v <- lift (py_get "access_token" chosen);;
    set_TOKENS (λ t, {| user_access_token := user_access_token t;
                        page_access_token := v;
                        ig_user_id := ig_user_id t;
                        page_id := page_id t;
                        token_obtained_at := token_obtained_at t |});;;
    v <- lift (py_get "id" chosen);;
    set_TOKENS (λ t, {| user_access_token := user_access_token t;
                        page_access_token := page_access_token t;
                        ig_user_id := ig_user_id t;
                        page_id := v;
                        token_obtained_at := token_obtained_at t |});;;
    v <- lift (acct <~ py_get "instagram_business_account" chosen;;
               py_get "id" (py_or acct (JObj ∅)));;
    set_TOKENS (λ t, {| user_access_token := user_access_token t;
                        page_access_token := page_access_token t;
                        ig_user_id := v;
                        page_id := page_id t;
                        token_obtained_at := token_obtained_at t |});;;
    now <- time_time;;
    set_TOKENS (λ t, {| user_access_token := user_access_token t;
                        page_access_token := page_access_token t;
                        ig_user_id := ig_user_id t;
                        page_id := page_id t;
                        token_obtained_at := JNum (py_int now) |});;;
    t <- get_TOKENS;;
    ret (HTMLResponse (AuthorizedPage (page_id t) (ig_user_id t))).

Definition status : M response :=
  t <- get_TOKENS;;
  ret (Dict {[ "has_user_token" := JBool (truthy (user_access_token t));
               "has_page_token" := JBool (truthy (page_access_token t));
               "page_id" := page_id t;
               "ig_user_id" := ig_user_id t;
               "token_obtained_at" := token_obtained_at t;
               "scopes" := JStr (META_SCOPES cfg);
               "redirect_uri" := JStr _get_redirect_uri;
               "public_base_url" := JStr (PUBLIC_BASE_URL cfg) ]}).

(** Lines 303-322 of [publish]: the three upstream steps and the result. *)
Definition publish_steps (fuel : nat) (media_type video_url caption : string)
    (share_to_feed do_wait : bool) : M response :=
  t <- get_TOKENS;;
  container_id <- _create_container (ig_user_id t) (page_access_token t)
                    media_type video_url caption share_to_feed;;
  (if do_wait
   then t <- get_TOKENS;;
        _wait_container fuel container_id (page_access_token t)
          default_timeout_sec default_poll_sec
   else ret tt);;;
  t <- get_TOKENS;;
  media_id <- _publish_container (ig_user_id t) (page_access_token t) container_id;;
  ret (Dict {[ "ok" := JBool true;
               "media_type" := JStr media_type;
               "container_id" := container_id;
               "media_id" := media_id ]}).

Definition publish (fuel : nat) (payload : gmap string json) : M response :=
  t <- get_TOKENS;;
  if negb (truthy (page_access_token t)) || negb (truthy (ig_user_id t))
  then raise (HTTPException 401 (Message "Sem tokens. Acesse /login primeiro."))
  else
    media_type <- lift (read_media_type payload);;
    video_url <- lift (read_video_url payload);;
    caption <- lift (read_caption payload);;
    let share_to_feed := read_share_to_feed payload in
    let do_wait := read_wait payload in
    if negb (valid_media_type media_type)
    then raise (HTTPException 400
                  (Message "media_type invalido. Use REELS, VIDEO ou STORIES."))
    else if negb (startswith video_url "https://")
    then raise (HTTPException 400
                  (Message "video_url precisa ser https e publico (Meta tem que acessar)."))
    else publish_steps fuel media_type video_url caption share_to_feed do_wait.

End Service.

(** * Vocabulary of the statements *)

(** ** Worlds and sessions *)

(** The calls made between two worlds of one run. *)
Definition new_calls (w w' : world) : list request :=
  drop (length (calls w)) (calls w').

(** Between two worlds of one run the outside and the session are the
    same. *)
Definition frame (w w' : world) : Prop :=
  upstream w' = upstream w ∧ wall_clock w' = wall_clock w ∧ TOKENS w' = TOKENS w.

(** A process that has just started: nothing called, nothing stored. *)
Definition world_start (up : nat → reply) (clk : nat → Q) : world :=
  {| upstream := up; wall_clock := clk; calls := []; clock_reads := 0;
     sleeps := []; TOKENS := TOKENS_init |}.

(** The session lets [/publish] through. *)
Definition authorized (t : session) : Prop :=
  truthy (page_access_token t) = true ∧ truthy (ig_user_id t) = true.

(** Page token and publishing-account id: both absent or both present. *)
Definition session_inv (t : session) : Prop :=
  (page_access_token t = JNull ∧ ig_user_id t = JNull)
  ∨ (truthy (page_access_token t) = true ∧ truthy (ig_user_id t) = true).

(** The operations of the service: one per route, with its inputs. *)
Inductive operation :=
| GetHealth
| GetHome
| GetLogin
| GetOAuthCallback (code state error error_description : option string)
| GetStatus
| PostPublish (fuel : nat) (payload : gmap string json).

Definition run (cfg : settings) (op : operation) : M response :=
  match op with
  | GetHealth => health
  | GetHome => home cfg
  | GetLogin => login cfg
  | GetOAuthCallback code state error error_description =>
      oauth_callback cfg code state error error_description
  | GetStatus => status cfg
  | PostPublish fuel payload => publish fuel payload
  end.

(** The worlds a process can be in: it starts with the empty session, and
    every operation leaves it in the next one (a wait that runs out of fuel
    leaves the world it had reached). *)
Inductive reachable (cfg : settings) : world → Prop :=
| reachable_start up clk : reachable cfg (world_start up clk)
| reachable_step w op : reachable cfg w → reachable cfg (run cfg op w).2.

(** ** Calls and replies *)

(** What [_req] makes of the reply to a call on [url]. *)
Definition answer (url : endpoint) (r : reply) : res json :=
  match r with
  | NoResponse => Raise RequestException
  | Response st body =>
      if (400 <=? st)%Z
      then Raise (HTTPException 400 (UrlResp url (body_json body)))
      else Ret (body_json body)
  end.

(** The three kinds of pipeline call, told apart by their URL. *)
Definition is_create (rq : request) : bool :=
  match req_url rq with Media _ => true | _ => false end.
Definition is_poll (rq : request) : bool :=
  match req_url rq with Container _ => true | _ => false end.
Definition is_commit (rq : request) : bool :=
  match req_url rq with MediaPublish _ => true | _ => false end.

(** The requests of the token exchange, of the accounts query and of one
    poll. *)
Definition exchange_request (cfg : settings) (code : json) : request :=
  {| req_method := "GET"; req_url := OAuthAccessToken;
     req_params := Some {[ "client_id" := JStr (META_APP_ID cfg);
                           "client_secret" := JStr (META_APP_SECRET cfg);
                           "redirect_uri" := JStr (_get_redirect_uri cfg);
                           "code" := code ]};
     req_data := None; req_timeout := 60 |}.

Definition accounts_request (user_token : json) : request :=
  {| req_method := "GET"; req_url := MeAccounts;
     req_params :=
       Some {[ "fields" := JStr "name,access_token,tasks,instagram_business_account";
               "access_token" := user_token ]};
     req_data := None; req_timeout := 60 |}.

Definition poll_request (container_id page_token : json) : request :=
  {| req_method := "GET"; req_url := Container container_id;
     req_params := Some {[ "fields" := JStr "status_code,status";
                           "access_token" := page_token ]};
     req_data := None; req_timeout := 60 |}.

(** The reply is a success whose JSON object (or, for a body that is not
    JSON, the [_raw] wrapper) holds [sc] under "status_code". *)
Definition polled (r : reply) (sc : json) : Prop :=
  ∃ st body o,
    r = Response st body ∧ (st < 400)%Z ∧ body_json body = JObj o
    ∧ sc = dict_get "status_code" o.

(** A status that neither ends the wait nor fails it. *)
Definition nonterminal (sc : json) : Prop :=
  sc ≠ JStr "FINISHED" ∧ sc ≠ JStr "ERROR" ∧ sc ≠ JStr "EXPIRED".

(** The world after a poll that goes on to sleep. *)
Definition pass (rq : request) (secs : Z) (w : world) : world :=
  log_sleep secs (tick (log_call rq w)).

(** The exceptions that the three upstream steps can raise. *)
Definition step_exn (e : exn) : Prop :=
  match e with
  | HTTPException 400 (UrlResp _ _) => True
  | HTTPException 400 (ErrorResp _ _) => True
  | HTTPException 408 (Message _) => True
  | RequestException => True
  | AttributeError => True
  | _ => False
  end.

(** The request [r] ended with the failure of the step [s], in the world
    that [s] left: nothing ran after it. *)
Definition aborted_by {A} (r : res response * world) (s : res A * world) : Prop :=
  r.2 = s.2
  ∧ ((∃ e, s.1 = Raise e ∧ r.1 = Raise e) ∨ (s.1 = OutOfFuel ∧ r.1 = OutOfFuel)).

(** ** Messages *)

Definition msg_media_type : string :=
  "media_type invalido. Use REELS, VIDEO ou STORIES.".
Definition msg_video_url : string :=
  "video_url precisa ser https e publico (Meta tem que acessar).".
Definition msg_no_pages : string :=
  "Nao achei paginas. Verifique permissoes/roles e conexao Pagina<->IG.".
Definition msg_no_valid_page : string :=
  "Nenhuma pagina retornou instagram_business_account + access_token.".

(** What the token exchange and the accounts query make of their
    replies. *)
Definition exchange_result (r : reply) : res json :=
  js <~ answer OAuthAccessToken r;;
  token <~ py_get "access_token" js;;
  if truthy token then Ret token
  else Raise (HTTPException 400 (ErrorResp "Sem access_token" js)).

Definition accounts_result (r : reply) : res json :=
  js <~ answer MeAccounts r;;
  data <~ py_get_default "data" (JArr []) js;;
  if truthy data then Ret data
  else Raise (HTTPException 400 (Message msg_no_pages)).

(** ** Pages and payloads *)

(** An entry of the accounts listing: a dict whose
    "instagram_business_account", when present and not empty, is a dict. *)
Definition is_page (p : json) : Prop :=
  ∃ o, p = JObj o
       ∧ (truthy (dict_get "instagram_business_account" o) = false
          ∨ ∃ a, o !! "instagram_business_account" = Some (JObj a)).

(** The id of the publishing account linked to a page, the page access
    token and the page id; [None] when the page has none. *)
Definition linked_account_id (p : json) : json :=
  match p with
  | JObj o =>
      match o !! "instagram_business_account" with
      | Some (JObj a) => dict_get "id" a
      | _ => JNull
      end
  | _ => JNull
  end.

Definition page_token (p : json) : json :=
  match p with
  | JObj o => dict_get "access_token" o
  | _ => JNull
  end.

Definition page_id_of (p : json) : json :=
  match p with
  | JObj o => dict_get "id" o
  | _ => JNull
  end.

(** The page has both a linked account id and a token, non-empty. *)
Definition qualifies (p : json) : bool :=
  truthy (linked_account_id p) && truthy (page_token p).

(** A page that the selection passes over. *)
Definition skipped (p : json) : Prop := is_page p ∧ qualifies p = false.


(** [s.isascii()]: every character is below 128.  On such text [upper]
    and [strip] above are [str.upper] and [str.strip]. *)
Fixpoint isascii (s : string) : bool :=
  match s with
  | EmptyString => true
  | String c s' => (nat_of_ascii c <? 128)%nat && isascii s'
  end.

(** The payload entry under [k], when it is a str, is ASCII text; and the
    same of the three entries that [/publish] upper-cases or trims. *)
Definition ascii_entry (k : string) (payload : gmap string json) : bool :=
  match payload !! k with
  | Some (JStr s) => isascii s
  | _ => true
  end.

Definition ascii_texts (payload : gmap string json) : bool :=
  ascii_entry "media_type" payload && ascii_entry "video_url" payload
  && ascii_entry "caption" payload.

(** The five variables that the module trims hold ASCII text, where they
    are set. *)
Definition ascii_var (k : string) (environ : gmap string string) : bool :=
  match environ !! k with
  | Some v => isascii v
  | None => true
  end.

Definition ascii_environ (environ : gmap string string) : bool :=
  ascii_var "META_APP_ID" environ && ascii_var "META_APP_SECRET" environ
  && ascii_var "META_REDIRECT_URI" environ && ascii_var "META_SCOPES" environ
  && ascii_var "PUBLIC_BASE_URL" environ.

(** ** Sample inputs *)

(** Settings: nothing configured; an empty environment, where the
    defaults of the module apply and the client id and secret are missing;
    and an environment that sets the client id and secret. *)
Definition settings_none : settings :=
  {| META_APP_ID := ""; META_APP_SECRET := ""; META_REDIRECT_URI := "";
     META_SCOPES := ""; PUBLIC_BASE_URL := ""; STATE_NONCE := "nonce" |}.

Definition settings_unset : settings := load_settings ∅ "nonce".

Definition settings_demo : settings :=
  load_settings {[ "META_APP_ID" := "app"; "META_APP_SECRET" := "secret" ]} "nonce".

(** A clock that advances 7 seconds per reading. *)
Definition clock_7 (k : nat) : Q := inject_Z (7 * Z.of_nat k).

(** Worlds: a fresh process whose upstream never answers, and a process
    that holds the session of the end-to-end scenario. *)
Definition world_offline : world := world_start (λ _, NoResponse) clock_7.

Definition session_demo : session :=
  {| user_access_token := JStr "U1"; page_access_token := JStr "P1";
     ig_user_id := JStr "ig1"; page_id := JStr "pg1";
     token_obtained_at := JNum 1000 |}.

Definition world_authorized (up : nat → reply) (clk : nat → Q) : world :=
  put_TOKENS session_demo (world_start up clk).

(** Pages: one without a linked account, one with a linked account but no
    token, one with both. *)
Definition page_unlinked : json :=
  JObj {[ "id" := JStr "pg0"; "access_token" := JStr "P0" ]}.
Definition page_no_token : json :=
  JObj {[ "id" := JStr "pg2";
          "instagram_business_account" := JObj {[ "id" := JStr "ig2" ]} ]}.
Definition page_linked : json :=
  JObj {[ "id" := JStr "pg1"; "access_token" := JStr "P1";
          "instagram_business_account" := JObj {[ "id" := JStr "ig1" ]} ]}.

(** Upstreams: the token exchange followed by the accounts listing; the
    accounts listing at every call; an id at every call; a container id
    followed by "ERROR"; "IN_PROGRESS" followed by "ERROR". *)
Definition upstream_oauth (k : nat) : reply :=
  match k with
  | O => Response 200 (inl (JObj {[ "access_token" := JStr "U1" ]}))
  | _ => Response 200
           (inl (JObj {[ "data" := JArr [page_unlinked; page_no_token; page_linked] ]}))
  end.

Definition upstream_accounts (k : nat) : reply :=
  Response 200
    (inl (JObj {[ "data" := JArr [page_unlinked; page_no_token; page_linked] ]})).

Definition upstream_ids (k : nat) : reply :=
  Response 200 (inl (JObj {[ "id" := JStr "x1" ]})).

Definition upstream_create_then_error (k : nat) : reply :=
  match k with
  | O => Response 200 (inl (JObj {[ "id" := JStr "c1" ]}))
  | _ => Response 200 (inl (JObj {[ "status_code" := JStr "ERROR" ]}))
  end.

Definition upstream_error_after_one (k : nat) : reply :=
  match k with
  | O => Response 200 (inl (JObj {[ "status_code" := JStr "IN_PROGRESS" ]}))
  | _ => Response 200 (inl (JObj {[ "status_code" := JStr "ERROR" ]}))
  end.

(** Payloads: a short-form video at an https URL, and a request whose
    caption is a number rather than text. *)
Definition payload_reels_https : gmap string json :=
  {[ "media_type" := JStr "REELS"; "video_url" := JStr "https://x/v.mp4" ]}.


(** ** The dialog URL *)

(** [requests.utils.quote(s, safe='')] on ASCII text: letters, digits and
    the four characters [_.-~] are kept, every other character is written
    as [%] and its code in two upper-case hexadecimal digits. *)
Definition unreserved (c : ascii) : bool :=
  let n := nat_of_ascii c in
  (((65 <=? n) && (n <=? 90)) || ((97 <=? n) && (n <=? 122))
   || ((48 <=? n) && (n <=? 57))
   || (n =? 95) || (n =? 46) || (n =? 45) || (n =? 126))%nat.

Definition hex_digit (n : nat) : ascii :=
  if (n <? 10)%nat then ascii_of_nat (48 + n) else ascii_of_nat (55 + n).

Fixpoint quote (s : string) : string :=
  match s with
  | EmptyString => EmptyString
  | String c s' =>
      if unreserved c then String c (quote s')
      else
        let n := nat_of_ascii c in
        String "%" (String (hex_digit (n / 16))
                      (String (hex_digit (n mod 16)) (quote s')))
  end.

(** Lines 214-221 of [login]: the text of the URL that the redirect
    carries. *)
Definition auth_url (u : dialog_url) : string :=
  "https://www.facebook.com/dialog/oauth"
  ++ "?client_id=" ++ q_client_id u
  ++ "&redirect_uri=" ++ quote (q_redirect_uri u)
  ++ "&state=" ++ q_state u
  ++ "&scope=" ++ quote (q_scope u)
  ++ "&response_type=" ++ q_response_type u.

(** Reading a quoted text back: [%] followed by two hexadecimal digits is
    the character with that code. *)
Definition hex_value (c : ascii) : option nat :=
  let n := nat_of_ascii c in
  if ((48 <=? n) && (n <=? 57))%nat then Some (n - 48)%nat
  else if ((65 <=? n) && (n <=? 70))%nat then Some (n - 55)%nat
  else if ((97 <=? n) && (n <=? 102))%nat then Some (n - 87)%nat
  else None.

Fixpoint unquote (s : string) : string :=
  match s with
  | EmptyString => EmptyString
  | String c t =>
      match t with
      | String a (String b s') =>
          if Ascii.eqb c "%" then
            match hex_value a, hex_value b with
            | Some x, Some y => String (ascii_of_nat (16 * x + y)) (unquote s')
            | _, _ => String c (unquote t)
            end
          else String c (unquote t)
      | _ => String c (unquote t)
      end
  end.

(** Every character of the string passes the test. *)
Fixpoint all_chars (p : ascii → bool) (s : string) : bool :=
  match s with
  | EmptyString => true
  | String c s' => p c && all_chars p s'
  end.

(** ** Waits, sessions and calls *)

(** How a wait that started at [t0] ends on the poll answered by [reply]
    and followed by the clock reading [now]: it returns on "FINISHED",
    fails on "ERROR" and "EXPIRED", times out on any other status once the
    clock is past the bound, and otherwise raises what the poll raised. *)
Definition ends_wait (url : endpoint) (t0 : Q) (timeout_sec : Z)
    (reply : reply) (now : Q) (x : res unit) : Prop :=
  (x = Ret tt ∧ polled reply (JStr "FINISHED"))
  ∨ (∃ js sc,
       x = Raise (HTTPException 400 (ErrorResp "Processamento falhou" js))
       ∧ answer url reply = Ret js
       ∧ polled reply sc ∧ (sc = JStr "ERROR" ∨ sc = JStr "EXPIRED"))
  ∨ (x = Raise (HTTPException 408
                  (Message "Timeout esperando processamento do video."))
     ∧ ∃ sc, polled reply sc ∧ nonterminal sc
             ∧ (inject_Z timeout_sec < now - t0)%Q)
  ∨ (∃ e, x = Raise e
          ∧ (js <~ answer url reply;; py_get "status_code" js) = Raise e).

(** The session holds the three credentials. *)
Definition logged_in (t : session) : Prop :=
  truthy (user_access_token t) = true ∧ authorized t.

(** The world after a sequence of operations. *)
Definition run_all (cfg : settings) (ops : list operation) (w : world) : world :=
  foldl (λ w op, (run cfg op w).2) w ops.

(** The call sends a field named [k], in its query or in its form. *)
Definition sends (rq : request) (k : string) : Prop :=
  (∃ p, req_params rq = Some p ∧ is_Some (p !! k))
  ∨ (∃ d, req_data rq = Some d ∧ is_Some (d !! k)).

(** The shape of a call of the service: a timeout of 60 seconds; a GET
    with a query and no form on the token, accounts and container URLs; a
    POST with a form and no query on the media and media_publish URLs. *)
Definition call_shape (rq : request) : Prop :=
  req_timeout rq = 60%Z
  ∧ match req_url rq with
    | OAuthAccessToken | MeAccounts | Container _ =>
        req_method rq = "GET" ∧ req_data rq = None ∧ is_Some (req_params rq)
    | Media _ | MediaPublish _ =>
        req_method rq = "POST" ∧ req_params rq = None ∧ is_Some (req_data rq)
    end.

(** A call that is shaped as above, that sends the client secret only to
    the token URL, and that sends an access token to every other URL. *)
Definition call_ok (rq : request) : Prop :=
  call_shape rq
  ∧ (sends rq "client_secret" → req_url rq = OAuthAccessToken)
  ∧ (req_url rq ≠ OAuthAccessToken → sends rq "access_token").

(** ** Whitespace and last characters *)

(** The last character of a string, and a string of whitespace only. *)
Fixpoint last_char (s : string) : option ascii :=
  match s with
  | EmptyString => None
  | String c EmptyString => Some c
  | String _ s' => last_char s'
  end.

Fixpoint blank (s : string) : bool :=
  match s with
  | EmptyString => true
  | String c s' => isspace c && blank s'
  end.

(** ** Further sample inputs *)

(** An upstream that answers "IN_PROGRESS" once and then stops
    answering. *)
Definition upstream_drop_after_one (k : nat) : reply :=
  match k with
  | O => Response 200 (inl (JObj {[ "status_code" := JStr "IN_PROGRESS" ]}))
  | _ => NoResponse
  end.

(** A payload that turns the wait off. *)
Definition payload_no_wait : gmap string json :=
  {[ "media_type" := JStr "reels"; "video_url" := JStr "https://x/v.mp4";
     "wait" := JBool false ]}.

(** * Properties *)

(** ** Strings *)

Lemma nonempty_false (s : string) : nonempty s = false ↔ s = "".
Proof.
  unfold nonempty. destruct (String.eqb_spec s ""); simpl; split; congruence.
Qed.

Lemma nonempty_true (s : string) : nonempty s = true ↔ s ≠ "".
Proof.
  unfold nonempty. destruct (String.eqb_spec s ""); simpl; split; congruence.
Qed.

Lemma nonempty_app_r (s t : string) : nonempty t = true → nonempty (s ++ t) = true.
Proof.
  rewrite !nonempty_true. intros Ht Hst. apply Ht.
  destruct s; simpl in Hst; [assumption | discriminate].
Qed.

Example upper_video : strip (upper " video ") = "VIDEO".
Proof. reflexivity. Qed.

Example rstrip_slash_base : rstrip_slash "https://a.b//" = "https://a.b".
Proof. reflexivity. Qed.

Example join_two : join ", " ["A"; "B"] = "A, B".
Proof. reflexivity. Qed.

(** ** The primitives *)

Lemma _req_eq method url params data timeout w :
  _req method url params data timeout w =
  (answer url (upstream w (length (calls w))),
   log_call (Request method url params data timeout) w).
Proof.
  unfold _req, bind, requests_request, answer.
  destruct (upstream w (length (calls w))) as [|st body]; simpl; [reflexivity|].
  destruct (400 <=? st)%Z; reflexivity.
Qed.

Lemma bind_eq {A B} (m : M A) (k : A → M B) w :
  bind m k w =
  match m w with
  | (Ret a, w') => k a w'
  | (Raise e, w') => (Raise e, w')
  | (OutOfFuel, w') => (OutOfFuel, w')
  end.
Proof. reflexivity. Qed.

Lemma bind_lift {A B} (r : res A) (k : A → M B) w :
  bind (lift r) k w =
  match r with
  | Ret a => k a w
  | Raise e => (Raise e, w)
  | OutOfFuel => (OutOfFuel, w)
  end.
Proof. unfold bind, lift. destruct r; reflexivity. Qed.

Lemma py_get_obj k o : py_get k (JObj o) = Ret (dict_get k o).
Proof. reflexivity. Qed.

Lemma py_get_cases k v :
  (∃ o, v = JObj o ∧ py_get k v = Ret (dict_get k o))
  ∨ py_get k v = Raise AttributeError.
Proof. destruct v; simpl; eauto. Qed.

(** ** The configuration check *)

Lemma redirect_uri_empty (cfg : settings) :
  _get_redirect_uri cfg = "" ↔ META_REDIRECT_URI cfg = "" ∧ PUBLIC_BASE_URL cfg = "".
Proof.
  unfold _get_redirect_uri.
  destruct (nonempty (META_REDIRECT_URI cfg)) eqn:Hr.
  - apply nonempty_true in Hr. intuition congruence.
  - apply nonempty_false in Hr.
    destruct (nonempty (PUBLIC_BASE_URL cfg)) eqn:Hp.
    + assert (Hne : nonempty (PUBLIC_BASE_URL cfg ++ "/oauth/callback") = true)
        by (apply nonempty_app_r; reflexivity).
      apply nonempty_true in Hne. apply nonempty_true in Hp. intuition congruence.
    + apply nonempty_false in Hp. intuition congruence.
Qed.

Lemma missing_settings_spec (cfg : settings) :
  ("META_APP_ID" ∈ missing_settings cfg ↔ META_APP_ID cfg = "")
  ∧ ("META_APP_SECRET" ∈ missing_settings cfg ↔ META_APP_SECRET cfg = "")
  ∧ ("META_REDIRECT_URI ou PUBLIC_BASE_URL" ∈ missing_settings cfg
       ↔ _get_redirect_uri cfg = "")
  ∧ ("PUBLIC_BASE_URL" ∈ missing_settings cfg ↔ PUBLIC_BASE_URL cfg = "")
  ∧ (∀ name, name ∈ missing_settings cfg →
       name ∈ ["META_APP_ID"; "META_APP_SECRET";
               "META_REDIRECT_URI ou PUBLIC_BASE_URL"; "PUBLIC_BASE_URL"]).
Proof.
  unfold missing_settings.
  destruct (nonempty (META_APP_ID cfg)) eqn:H1;
  destruct (nonempty (META_APP_SECRET cfg)) eqn:H2;
  destruct (nonempty (_get_redirect_uri cfg)) eqn:H3;
  destruct (nonempty (PUBLIC_BASE_URL cfg)) eqn:H4;
  repeat match goal with
         | H : nonempty _ = true |- _ => apply nonempty_true in H
         | H : nonempty _ = false |- _ => apply nonempty_false in H
         end;
  simpl; repeat split; intros;
  repeat match goal with
         | H : _ ∈ _ :: _ |- _ => apply elem_of_cons in H; destruct H
         | H : _ ∈ [] |- _ => apply elem_of_nil in H; contradiction
         end;
  subst; try discriminate; try congruence;
  rewrite ?elem_of_cons; auto 10.
Qed.

Lemma require_env_ok (cfg : settings) :
  _require_env cfg = Ret tt ↔ missing_settings cfg = [].
Proof.
  unfold _require_env. destruct (missing_settings cfg); split; congruence.
Qed.

Lemma require_env_raise (cfg : settings) (e : exn) :
  _require_env cfg = Raise e →
  e = HTTPException 500
        (Message ("Faltando variaveis de ambiente: "
                  ++ join ", " (missing_settings cfg))).
Proof.
  unfold _require_env. destruct (missing_settings cfg); congruence.
Qed.

Lemma require_env_total (cfg : settings) :
  _require_env cfg = Ret tt ∨ ∃ e, _require_env cfg = Raise e.
Proof.
  unfold _require_env. destruct (missing_settings cfg); eauto.
Qed.

(** ** Configuration (C7) *)

Lemma require_env_guards_home cfg e w :
  _require_env cfg = Raise e → home cfg w = (Raise e, w).
Proof. intros H. unfold home. rewrite bind_lift, H. reflexivity. Qed.

Lemma require_env_guards_login cfg e w :
  _require_env cfg = Raise e → login cfg w = (Raise e, w).
Proof. intros H. unfold login. rewrite bind_lift, H. reflexivity. Qed.

Lemma require_env_guards_callback cfg e code state error ed w :
  _require_env cfg = Raise e →
  oauth_callback cfg code state error ed w = (Raise e, w).
Proof. intros H. unfold oauth_callback. rewrite bind_lift, H. reflexivity. Qed.

(** C7, as the spec words it, fails on [/status]: the route reports the
    redirect URI, the scopes and the base URL, so it depends on the
    configuration, and it answers 200 where the required-environment check
    raises 500. *)
Lemma status_skips_require_env :
  _require_env settings_none
  = Raise (HTTPException 500
             (Message "Faltando variaveis de ambiente: META_APP_ID, META_APP_SECRET, META_REDIRECT_URI ou PUBLIC_BASE_URL, PUBLIC_BASE_URL"))
  ∧ http_status (status settings_none world_offline).1 = Some 200
  ∧ (∃ content,
       (status settings_none world_offline).1 = Ret (Dict content)
       ∧ content !! "redirect_uri" = Some (JStr "")
       ∧ content !! "public_base_url" = Some (JStr ""))
  ∧ (∃ content,
       (status settings_demo world_offline).1 = Ret (Dict content)
       ∧ content !! "redirect_uri"
         = Some (JStr "https://enviarvideo-production.up.railway.app/oauth/callback"))
  ∧ ¬ (∀ cfg e w, _require_env cfg = Raise e → (status cfg w).1 = Raise e).
Proof.
  split; [reflexivity|]. split; [reflexivity|].
  split; [eexists; split; [reflexivity|]; split; reflexivity|].
  split; [eexists; split; [reflexivity|]; reflexivity|].
  intros H.
  specialize (H settings_none _ world_offline eq_refl). discriminate H.
Qed.

(** C7 (amended).  The effective redirect URI is the override when set,
    else the base URL followed by "/oauth/callback" when the base URL is
    set, else empty.  [_require_env] raises a 500 error whose message lists
    exactly the missing settings among the four names, and passes when none
    is missing.  The check runs first in [/], [/login] and
    [/oauth/callback]: when it raises, the route raises the same error and
    changes nothing. *)
Theorem require_env_and_redirect_uri (cfg : settings) :
  (META_REDIRECT_URI cfg ≠ "" → _get_redirect_uri cfg = META_REDIRECT_URI cfg)
  ∧ (META_REDIRECT_URI cfg = "" → PUBLIC_BASE_URL cfg ≠ "" →
       _get_redirect_uri cfg = PUBLIC_BASE_URL cfg ++ "/oauth/callback")
  ∧ (META_REDIRECT_URI cfg = "" → PUBLIC_BASE_URL cfg = "" →
       _get_redirect_uri cfg = "")
  ∧ (∃ missing : list string,
       ("META_APP_ID" ∈ missing ↔ META_APP_ID cfg = "")
       ∧ ("META_APP_SECRET" ∈ missing ↔ META_APP_SECRET cfg = "")
       ∧ ("META_REDIRECT_URI ou PUBLIC_BASE_URL" ∈ missing
            ↔ _get_redirect_uri cfg = "")
       ∧ ("PUBLIC_BASE_URL" ∈ missing ↔ PUBLIC_BASE_URL cfg = "")
       ∧ (∀ name, name ∈ missing →
            name ∈ ["META_APP_ID"; "META_APP_SECRET";
                    "META_REDIRECT_URI ou PUBLIC_BASE_URL"; "PUBLIC_BASE_URL"])
       ∧ (missing = [] → _require_env cfg = Ret tt)
       ∧ (missing ≠ [] →
            _require_env cfg
            = Raise (HTTPException 500
                       (Message ("Faltando variaveis de ambiente: "
                                 ++ join ", " missing)))))
  ∧ (∀ e w, _require_env cfg = Raise e →
       home cfg w = (Raise e, w)
       ∧ login cfg w = (Raise e, w)
       ∧ ∀ code state error error_description,
           oauth_callback cfg code state error error_description w = (Raise e, w)).
Proof.
  split.
  { intros H. unfold _get_redirect_uri.
    apply nonempty_true in H. rewrite H. reflexivity. }
  split.
  { intros Hr Hp. unfold _get_redirect_uri.
    apply nonempty_false in Hr. apply nonempty_true in Hp.
    rewrite Hr, Hp. reflexivity. }
  split.
  { intros Hr Hp. apply redirect_uri_empty. auto. }
  split.
  { exists (missing_settings cfg).
    destruct (missing_settings_spec cfg) as (H1 & H2 & H3 & H4 & H5).
    repeat (split; [assumption|]).
    split.
    - intros H. apply require_env_ok. assumption.
    - intros H. unfold _require_env.
      destruct (missing_settings cfg); [contradiction | reflexivity]. }
  intros e w He.
  split; [apply require_env_guards_home; assumption|].
  split; [apply require_env_guards_login; assumption|].
  intros. apply require_env_guards_callback; assumption.
Qed.

Lemma require_env_and_redirect_uri_witness :
  _require_env settings_none
  = Raise (HTTPException 500
             (Message "Faltando variaveis de ambiente: META_APP_ID, META_APP_SECRET, META_REDIRECT_URI ou PUBLIC_BASE_URL, PUBLIC_BASE_URL"))
  ∧ login settings_none world_offline
    = (Raise (HTTPException 500
                (Message "Faltando variaveis de ambiente: META_APP_ID, META_APP_SECRET, META_REDIRECT_URI ou PUBLIC_BASE_URL, PUBLIC_BASE_URL")),
       world_offline)
  ∧ _get_redirect_uri settings_demo
    = PUBLIC_BASE_URL settings_demo ++ "/oauth/callback".
Proof.
  pose proof (require_env_and_redirect_uri settings_none) as (_ & _ & _ & _ & Hg).
  pose proof (require_env_and_redirect_uri settings_demo) as (_ & Hu & _).
  split; [reflexivity|].
  split.
  - apply (Hg _ world_offline). reflexivity.
  - apply Hu; [reflexivity | vm_compute; discriminate].
Defined.

(** ** Frames *)

Lemma frame_refl w : frame w w.
Proof. repeat split. Qed.

Lemma frame_trans w1 w2 w3 : frame w1 w2 → frame w2 w3 → frame w1 w3.
Proof.
  intros (a & b & c) (a' & b' & c'). repeat split; congruence.
Qed.

Lemma frame_log_call rq w : frame w (log_call rq w).
Proof. repeat split. Qed.

Lemma frame_tick w : frame w (tick w).
Proof. repeat split. Qed.

Lemma frame_log_sleep secs w : frame w (log_sleep secs w).
Proof. repeat split. Qed.

Lemma frame_pass rq secs w : frame w (pass rq secs w).
Proof. repeat split. Qed.

Lemma new_calls_app w w' l : calls w' = (calls w ++ l)%list → new_calls w w' = l.
Proof. intros H. unfold new_calls. rewrite H. apply drop_app_length. Qed.

Lemma new_calls_same w : new_calls w w = [].
Proof. unfold new_calls. apply drop_all. Qed.

(** ** Answers *)

Lemma answer_exn url r e : answer url r = Raise e → step_exn e.
Proof.
  destruct r as [|st body]; simpl.
  - intros H. inversion H. exact I.
  - destruct (400 <=? st)%Z; intros H; inversion H. exact I.
Qed.

Lemma answer_never_out_of_fuel url r : answer url r ≠ OutOfFuel.
Proof.
  destruct r as [|st body]; simpl; [discriminate|].
  destruct (400 <=? st)%Z; discriminate.
Qed.

Lemma answer_polled url r sc :
  polled r sc → ∃ js, answer url r = Ret js ∧ py_get "status_code" js = Ret sc.
Proof.
  intros (st & body & o & -> & Hst & Hb & ->). simpl.
  destruct (Z.leb_spec 400 st); [lia|].
  exists (JObj o). rewrite Hb. split; reflexivity.
Qed.

Lemma eq_str_true v s : eq_str v s = true ↔ v = JStr s.
Proof.
  destruct v; simpl; try (split; [discriminate | congruence]).
  destruct (String.eqb_spec s0 s); split; congruence.
Qed.

Lemma eq_str_false v s : eq_str v s = false ↔ v ≠ JStr s.
Proof.
  rewrite <- eq_str_true. destruct (eq_str v s); split; congruence.
Qed.

Lemma Qgtb_true a b : Qgtb a b = true ↔ (b < a)%Q.
Proof.
  unfold Qgtb. rewrite negb_true_iff.
  split.
  - intros H. apply Qnot_le_lt. intros Hle.
    apply Qle_bool_iff in Hle. congruence.
  - intros H. destruct (Qle_bool a b) eqn:E; [|reflexivity].
    apply Qle_bool_iff in E. exfalso. exact (Qlt_not_le _ _ H E).
Qed.

Lemma Qgtb_false a b : Qgtb a b = false ↔ (a <= b)%Q.
Proof.
  unfold Qgtb. rewrite negb_false_iff. apply Qle_bool_iff.
Qed.

(** ** Account resolution (C3) *)

Lemma truthy_obj_false a : truthy (JObj a) = false → a = ∅.
Proof.
  simpl. rewrite negb_false_iff, bool_decide_eq_true. auto.
Qed.

Lemma page_ok_page p : is_page p → page_ok p = Ret (qualifies p).
Proof.
  intros (o & -> & Hacct). unfold page_ok, qualifies, linked_account_id, page_token.
  rewrite py_get_obj. cbn [res_bind].
  unfold dict_get at 1. unfold dict_get in Hacct.
  destruct (o !! "instagram_business_account") as [acct|] eqn:Ho;
    cbn [default from_option id] in *.
  - destruct Hacct as [Hf | (a & Ha)].
    + unfold py_or. rewrite Hf. rewrite py_get_obj. cbn [res_bind].
      unfold dict_get at 1. rewrite lookup_empty. cbn [default truthy].
      destruct acct; try reflexivity.
      apply truthy_obj_false in Hf. subst. unfold dict_get at 1.
      rewrite lookup_empty. reflexivity.
    + inversion Ha. subst acct. unfold py_or.
      destruct (truthy (JObj a)) eqn:Ht.
      * rewrite py_get_obj. cbn [res_bind].
        destruct (truthy (dict_get "id" a)); [|reflexivity].
        rewrite py_get_obj. reflexivity.
      * apply truthy_obj_false in Ht. subst a. rewrite py_get_obj. cbn [res_bind].
        unfold dict_get at 1 2. rewrite lookup_empty. reflexivity.
  - unfold py_or. cbn [truthy]. rewrite py_get_obj. cbn [res_bind].
    unfold dict_get at 1. rewrite lookup_empty. reflexivity.
Qed.

Lemma qualifies_is_page p : qualifies p = true → is_page p.
Proof.
  unfold qualifies, linked_account_id. intros H.
  apply andb_true_iff in H as [H _].
  destruct p as [| | | | |o]; try discriminate.
  exists o. split; [reflexivity|].
  destruct (o !! "instagram_business_account") as [[| | | | |a]|] eqn:Ho;
    try discriminate.
  right. eauto.
Qed.

Lemma pick_loop_first pre p post :
  Forall skipped pre → qualifies p = true → pick_loop (pre ++ p :: post) = Ret p.
Proof.
  intros Hpre Hp. induction Hpre as [|q pre [Hq Hnq] _ IH]; simpl.
  - rewrite (page_ok_page p (qualifies_is_page p Hp)), Hp. reflexivity.
  - rewrite (page_ok_page q Hq), Hnq. simpl. exact IH.
Qed.

Lemma pick_loop_none pages :
  Forall skipped pages →
  pick_loop pages = Raise (HTTPException 400 (Message msg_no_valid_page)).
Proof.
  intros H. induction H as [|q pages [Hq Hnq] _ IH]; simpl; [reflexivity|].
  rewrite (page_ok_page q Hq), Hnq. simpl. exact IH.
Qed.

Lemma _get_pages_and_ig_eq user_token w :
  _get_pages_and_ig user_token w
  = (match answer MeAccounts (upstream w (length (calls w))) with
     | Ret js =>
         match py_get_default "data" (JArr []) js with
         | Ret data =>
             if truthy data then Ret data
             else Raise (HTTPException 400 (Message msg_no_pages))
         | Raise e => Raise e
         | OutOfFuel => OutOfFuel
         end
     | Raise e => Raise e
     | OutOfFuel => OutOfFuel
     end,
     log_call (Request "GET" MeAccounts
                 (Some {[ "fields" := JStr "name,access_token,tasks,instagram_business_account";
                          "access_token" := user_token ]}) None 60) w).
Proof.
  unfold _get_pages_and_ig. cbv zeta. rewrite bind_eq, _req_eq.
  destruct (answer MeAccounts (upstream w (length (calls w)))) as [js| |];
    try reflexivity.
  rewrite bind_lift. destruct (py_get_default "data" (JArr []) js) as [data| |];
    try reflexivity.
  destruct (truthy data); reflexivity.
Qed.

(** C3.  When the accounts query is answered with the page list [pages]:
    [_get_pages_and_ig] raises the 400 error if the list is empty and
    returns the list otherwise; [_pick_first_valid_page] returns the first
    page, in list order, that has both a non-empty linked account id and a
    non-empty page token, passing over the earlier pages that lack either,
    and raises the 400 error when every page lacks one. *)
Theorem account_resolution
    (user_token : json) (w : world) (st : Z) (body : json + string)
    (o : gmap string json) (pages : list json) :
  upstream w (length (calls w)) = Response st body →
  (st < 400)%Z →
  body_json body = JObj o →
  o !! "data" = Some (JArr pages) →
  (pages = [] →
     (_get_pages_and_ig user_token w).1
     = Raise (HTTPException 400 (Message msg_no_pages)))
  ∧ (pages ≠ [] → (_get_pages_and_ig user_token w).1 = Ret (JArr pages))
  ∧ (∀ pre p post,
       pages = (pre ++ p :: post)%list →
       Forall skipped pre →
       qualifies p = true →
       _pick_first_valid_page (JArr pages) = Ret p)
  ∧ (Forall skipped pages →
       _pick_first_valid_page (JArr pages)
       = Raise (HTTPException 400 (Message msg_no_valid_page))).
Proof.
  intros Hup Hst Hb Hdata.
  assert (E : (_get_pages_and_ig user_token w).1
              = if truthy (JArr pages) then Ret (JArr pages)
                else Raise (HTTPException 400 (Message msg_no_pages))).
  { rewrite _get_pages_and_ig_eq, Hup. cbn [fst answer].
    destruct (Z.leb_spec 400 st); [lia|].
    rewrite Hb. unfold py_get_default. rewrite Hdata. reflexivity. }
  split; [intros ->; exact E|].
  split; [intros Hne; rewrite E; destruct pages; [contradiction | reflexivity]|].
  split.
  - intros pre p post -> Hpre Hp. unfold _pick_first_valid_page. simpl.
    apply pick_loop_first; assumption.
  - intros Hall. unfold _pick_first_valid_page. simpl.
    apply pick_loop_none. assumption.
Qed.

Lemma account_resolution_witness :
  skipped page_unlinked
  ∧ skipped page_no_token
  ∧ qualifies page_linked = true
  ∧ (_get_pages_and_ig (JStr "U1") (world_start upstream_accounts clock_7)).1
    = Ret (JArr [page_unlinked; page_no_token; page_linked])
  ∧ _pick_first_valid_page (JArr [page_unlinked; page_no_token; page_linked])
    = Ret page_linked.
Proof.
  assert (H0 : skipped page_unlinked).
  { split; [|reflexivity]. eexists. split; [reflexivity|]. left. reflexivity. }
  assert (H2 : skipped page_no_token).
  { split; [|reflexivity]. eexists. split; [reflexivity|]. right.
    eexists. reflexivity. }
  split; [exact H0|]. split; [exact H2|]. split; [reflexivity|].
  destruct (account_resolution (JStr "U1") (world_start upstream_accounts clock_7)
              200 (inl (JObj {[ "data" := JArr [page_unlinked; page_no_token; page_linked] ]}))
              {[ "data" := JArr [page_unlinked; page_no_token; page_linked] ]}
              [page_unlinked; page_no_token; page_linked])
    as (_ & Hget & Hpick & _); try reflexivity.
  split.
  - apply Hget. discriminate.
  - apply (Hpick [page_unlinked; page_no_token] page_linked []).
    + reflexivity.
    + constructor; [exact H0|]. constructor; [exact H2 | constructor].
    + reflexivity.
Defined.

(** ** The callback *)

Lemma page_ok_true p :
  page_ok p = Ret true →
  ∃ o a, p = JObj o
         ∧ o !! "instagram_business_account" = Some (JObj a)
         ∧ truthy (JObj a) = true
         ∧ truthy (dict_get "id" a) = true
         ∧ truthy (dict_get "access_token" o) = true.
Proof.
  unfold page_ok. destruct p as [| | | | |o]; try discriminate.
  rewrite py_get_obj. cbn [res_bind]. unfold py_or.
  destruct (truthy (dict_get "instagram_business_account" o)) eqn:Ht.
  - unfold dict_get in Ht |- * at 1.
    destruct (o !! "instagram_business_account") as [acct|] eqn:Ho;
      cbn [default from_option id] in *; [|discriminate].
    destruct acct as [| | | | |a]; try discriminate.
    rewrite py_get_obj. cbn [res_bind].
    destruct (truthy (dict_get "id" a)) eqn:Hid; [|discriminate].
    rewrite py_get_obj. cbn [res_bind]. intros [= H].
    exists o, a. repeat split; auto.
  - rewrite py_get_obj. cbn [res_bind]. unfold dict_get at 1.
    rewrite lookup_empty. discriminate.
Qed.

Lemma pick_loop_ret items chosen :
  pick_loop items = Ret chosen → page_ok chosen = Ret true.
Proof.
  induction items as [|p rest IH]; simpl; [discriminate|].
  destruct (page_ok p) as [[|]| |] eqn:Hp; simpl; try discriminate.
  - intros H. inversion H. subst. exact Hp.
  - exact IH.
Qed.

Lemma pick_ret pages chosen :
  _pick_first_valid_page pages = Ret chosen → page_ok chosen = Ret true.
Proof.
  unfold _pick_first_valid_page.
  destruct (py_iter pages) as [items| |]; simpl; try discriminate.
  apply pick_loop_ret.
Qed.

Lemma page_ok_qualifies p : page_ok p = Ret true → qualifies p = true.
Proof.
  intros H. destruct (page_ok_true p H) as (o & a & -> & Ho & _ & Hid & Htok).
  unfold qualifies, linked_account_id, page_token. rewrite Ho, Hid, Htok.
  reflexivity.
Qed.

Lemma _exchange_code_for_user_token_eq cfg code w :
  _exchange_code_for_user_token cfg code w
  = (exchange_result (upstream w (length (calls w))),
     log_call (exchange_request cfg code) w).
Proof.
  unfold _exchange_code_for_user_token, exchange_result. cbv zeta.
  rewrite bind_eq, _req_eq.
  destruct (answer OAuthAccessToken (upstream w (length (calls w)))) as [js| |];
    try reflexivity.
  rewrite bind_lift. cbn [res_bind].
  destruct (py_get "access_token" js) as [token| |]; try reflexivity.
  cbn [res_bind]. destruct (truthy token); reflexivity.
Qed.

Lemma _get_pages_and_ig_result user_token w :
  _get_pages_and_ig user_token w
  = (accounts_result (upstream w (length (calls w))),
     log_call (accounts_request user_token) w).
Proof.
  rewrite _get_pages_and_ig_eq. unfold accounts_result.
  destruct (answer MeAccounts (upstream w (length (calls w)))) as [js| |];
    try reflexivity.
Qed.

(** The callback, step by step: the three rejections that touch nothing,
    the two upstream calls, the selection, and the five assignments. *)
Lemma oauth_callback_eq cfg code state error error_description w :
  oauth_callback cfg code state error error_description w =
  match _require_env cfg with
  | Ret _ =>
      if opt_truthy error
      then (Ret (JSONResponse {[ "error" := opt_json error;
                                 "description" := opt_json error_description ]} 400), w)
      else if negb (opt_truthy code)
      then (Raise (HTTPException 400 (Message "Callback sem 'code'.")), w)
      else if negb (bool_decide (state = Some (STATE_NONCE cfg)))
      then (Raise (HTTPException 400 (Message "State invalido (possivel CSRF).")), w)
      else
        let w1 := log_call (exchange_request cfg (opt_json code)) w in
        match exchange_result (upstream w (length (calls w))) with
        | Ret user_token =>
            let w2 := log_call (accounts_request user_token) w1 in
            match accounts_result (upstream w (S (length (calls w)))) with
            | Ret pages =>
                match _pick_first_valid_page pages with
                | Ret chosen =>
                    (Ret (HTMLResponse (AuthorizedPage (page_id_of chosen)
                                          (linked_account_id chosen))),
                     put_TOKENS
                       {| user_access_token := user_token;
                          page_access_token := page_token chosen;
                          ig_user_id := linked_account_id chosen;
                          page_id := page_id_of chosen;
                          token_obtained_at :=
                            JNum (py_int (wall_clock w (clock_reads w))) |}
                       (tick w2))
                | Raise e => (Raise e, w2)
                | OutOfFuel => (OutOfFuel, w2)
                end
            | Raise e => (Raise e, w2)
            | OutOfFuel => (OutOfFuel, w2)
            end
        | Raise e => (Raise e, w1)
        | OutOfFuel => (OutOfFuel, w1)
        end
  | Raise e => (Raise e, w)
  | OutOfFuel => (OutOfFuel, w)
  end.
Proof.
  unfold oauth_callback. rewrite bind_lift.
  destruct (_require_env cfg) as [[]| |]; try reflexivity.
  destruct (opt_truthy error); [reflexivity|].
  destruct (negb (opt_truthy code)); [reflexivity|].
  destruct (negb (bool_decide (state = Some (STATE_NONCE cfg)))); [reflexivity|].
  cbv zeta. rewrite bind_eq, _exchange_code_for_user_token_eq.
  destruct (exchange_result (upstream w (length (calls w)))) as [user_token| |];
    try reflexivity.
  rewrite bind_eq, _get_pages_and_ig_result.
  cbn [upstream calls log_call]. rewrite length_app, Nat.add_1_r. cbn [length].
  destruct (accounts_result (upstream w (S (length (calls w))))) as [pages| |];
    try reflexivity.
  rewrite bind_lift.
  destruct (_pick_first_valid_page pages) as [chosen| |] eqn:Hpick; try reflexivity.
  destruct (page_ok_true chosen (pick_ret _ _ Hpick))
    as (o & a & -> & Ho & Ha & Hid & Htok).
  unfold bind, set_TOKENS, lift, time_time, get_TOKENS, ret.
  cbn [py_get res_bind].
  unfold linked_account_id, page_token, page_id_of, dict_get. rewrite Ho.
  cbn [default from_option id]. unfold py_or. rewrite Ha. cbn [py_get].
  reflexivity.
Qed.

(** ** A mismatched state (C1) *)

(** C1, as the spec words it, fails in a process whose required settings
    are incomplete, as they are with an empty environment: the handler
    then raises the 500 error of [_require_env] before it looks at
    [state]. *)
Lemma callback_wrong_state_not_400 :
  Some "wrong" ≠ Some (STATE_NONCE settings_unset)
  ∧ (oauth_callback settings_unset (Some "abc") (Some "wrong") None None
       world_offline).1
    = Raise (HTTPException 500
               (Message "Faltando variaveis de ambiente: META_APP_ID, META_APP_SECRET"))
  ∧ http_status (oauth_callback settings_unset (Some "abc") (Some "wrong") None None
                   world_offline).1 = Some 500
  ∧ ¬ (∀ cfg code state error error_description w,
         state ≠ Some (STATE_NONCE cfg) →
         http_status (oauth_callback cfg code state error error_description w).1
         = Some 400
         ∧ TOKENS (oauth_callback cfg code state error error_description w).2
           = TOKENS w).
Proof.
  split; [discriminate|]. split; [reflexivity|]. split; [reflexivity|].
  intros H.
  destruct (H settings_unset (Some "abc") (Some "wrong") None None world_offline)
    as [Hs _]; [discriminate|].
  discriminate Hs.
Qed.

(** C1 (amended).  When [state] is not exactly the anti-forgery token, the
    callback leaves the world as it was: the five entries of the session
    are unchanged and no upstream call is made, whether [code] is present
    or not.  With the required settings complete the answer is a 400
    error; otherwise it is the 500 error of the configuration check. *)
Theorem callback_state_mismatch
    (cfg : settings) (code state error error_description : option string) (w : world) :
  state ≠ Some (STATE_NONCE cfg) →
  (oauth_callback cfg code state error error_description w).2 = w
  ∧ TOKENS (oauth_callback cfg code state error error_description w).2 = TOKENS w
  ∧ new_calls w (oauth_callback cfg code state error error_description w).2 = []
  ∧ (_require_env cfg = Ret tt →
       http_status (oauth_callback cfg code state error error_description w).1
       = Some 400)
  ∧ (∀ e, _require_env cfg = Raise e →
       (oauth_callback cfg code state error error_description w).1 = Raise e
       ∧ http_status (oauth_callback cfg code state error error_description w).1
         = Some 500).
Proof.
  intros Hstate. rewrite oauth_callback_eq.
  assert (Hdec : negb (bool_decide (state = Some (STATE_NONCE cfg))) = true).
  { rewrite negb_true_iff, bool_decide_eq_false. exact Hstate. }
  rewrite Hdec.
  destruct (_require_env cfg) as [[]|e|] eqn:Henv.
  - destruct (opt_truthy error); [|destruct (negb (opt_truthy code))];
      cbn [fst snd];
      (split; [reflexivity|]); (split; [reflexivity|]);
      (split; [apply new_calls_same|]); (split; [reflexivity|]);
      intros e He; discriminate He.
  - cbn [fst snd]. split; [reflexivity|]. split; [reflexivity|].
    split; [apply new_calls_same|]. split; [discriminate|].
    intros e' [= <-]. split; [reflexivity|].
    rewrite (require_env_raise cfg e Henv). reflexivity.
  - destruct (require_env_total cfg) as [H | [e H]]; congruence.
Qed.

Lemma callback_state_mismatch_witness :
  Some "wrong" ≠ Some (STATE_NONCE settings_demo)
  ∧ (oauth_callback settings_demo (Some "abc") (Some "wrong") None None
       (world_authorized upstream_oauth clock_7)).2
    = world_authorized upstream_oauth clock_7
  ∧ http_status (oauth_callback settings_demo (Some "abc") (Some "wrong") None None
                   (world_authorized upstream_oauth clock_7)).1 = Some 400.
Proof.
  assert (Hne : Some "wrong" ≠ Some (STATE_NONCE settings_demo)) by discriminate.
  split; [exact Hne|].
  destruct (callback_state_mismatch settings_demo (Some "abc") (Some "wrong") None None
              (world_authorized upstream_oauth clock_7) Hne)
    as (Hw & _ & _ & H400 & _).
  split; [exact Hw | apply H400; reflexivity].
Defined.

(** ** [/publish]: the checks before the pipeline *)

Lemma authorized_guard t :
  authorized t →
  negb (truthy (page_access_token t)) || negb (truthy (ig_user_id t)) = false.
Proof. intros [-> ->]. reflexivity. Qed.

Lemma unauthorized_guard t :
  truthy (page_access_token t) = false ∨ truthy (ig_user_id t) = false →
  negb (truthy (page_access_token t)) || negb (truthy (ig_user_id t)) = true.
Proof.
  intros [-> | ->]; [reflexivity|].
  destruct (truthy (page_access_token t)); reflexivity.
Qed.

(** [publish] once the session check has passed. *)
Lemma publish_authorized fuel payload w :
  authorized (TOKENS w) →
  publish fuel payload w =
  match read_media_type payload with
  | Ret media_type =>
      match read_video_url payload with
      | Ret video_url =>
          match read_caption payload with
          | Ret caption =>
              if negb (valid_media_type media_type)
              then (Raise (HTTPException 400 (Message msg_media_type)), w)
              else if negb (startswith video_url "https://")
              then (Raise (HTTPException 400 (Message msg_video_url)), w)
              else publish_steps fuel media_type video_url caption
                     (read_share_to_feed payload) (read_wait payload) w
          | Raise e => (Raise e, w)
          | OutOfFuel => (OutOfFuel, w)
          end
      | Raise e => (Raise e, w)
      | OutOfFuel => (OutOfFuel, w)
      end
  | Raise e => (Raise e, w)
  | OutOfFuel => (OutOfFuel, w)
  end.
Proof.
  intros Hauth. unfold publish. rewrite bind_eq. unfold get_TOKENS at 1.
  rewrite (authorized_guard _ Hauth).
  rewrite bind_lift. destruct (read_media_type payload); try reflexivity.
  rewrite bind_lift. destruct (read_video_url payload); try reflexivity.
  rewrite bind_lift. destruct (read_caption payload); try reflexivity.
  destruct (negb (valid_media_type _)); [reflexivity|].
  destruct (negb (startswith _ _)); reflexivity.
Qed.

Lemma py_strip_cases v :
  (∃ s, v = JStr s ∧ py_strip v = Ret (strip s)) ∨ py_strip v = Raise AttributeError.
Proof. destruct v; simpl; eauto. Qed.


Lemma read_media_type_cases payload :
  (∃ m, read_media_type payload = Ret m)
  ∨ read_media_type payload = Raise AttributeError.
Proof.
  unfold read_media_type.
  destruct (py_or (dict_get "media_type" payload) (JStr "REELS")); simpl; eauto.
Qed.


Lemma publish_unauthorized fuel payload w :
  truthy (page_access_token (TOKENS w)) = false
  ∨ truthy (ig_user_id (TOKENS w)) = false →
  publish fuel payload w
  = (Raise (HTTPException 401 (Message "Sem tokens. Acesse /login primeiro.")), w).
Proof.
  intros H. unfold publish. rewrite bind_eq. unfold get_TOKENS.
  rewrite (unauthorized_guard _ H). reflexivity.
Qed.

(** ** No session, no publish (C6) *)

(** C6.  While the session lacks the page access token or the
    publishing-account id, as it does from process start until a callback
    succeeds, [/publish] raises the 401 error and leaves the world as it
    was: no upstream call, whatever the payload. *)
Theorem publish_without_session (fuel : nat) (payload : gmap string json) (w : world) :
  truthy (page_access_token (TOKENS w)) = false
  ∨ truthy (ig_user_id (TOKENS w)) = false →
  publish fuel payload w
  = (Raise (HTTPException 401 (Message "Sem tokens. Acesse /login primeiro.")), w)
  ∧ http_status (publish fuel payload w).1 = Some 401
  ∧ new_calls w (publish fuel payload w).2 = [].
Proof.
  intros H. rewrite (publish_unauthorized fuel payload w H). simpl. split; [reflexivity|]. split; [reflexivity|].
  unfold new_calls. apply drop_all.
Qed.

Lemma publish_without_session_witness :
  truthy (page_access_token (TOKENS world_offline)) = false
  ∧ publish 3 {[ "video_url" := JStr "https://x/v.mp4" ]} world_offline
    = (Raise (HTTPException 401 (Message "Sem tokens. Acesse /login primeiro.")),
       world_offline).
Proof.
  split; [reflexivity|].
  apply (publish_without_session 3 _ world_offline). left. reflexivity.
Defined.

(** ** The URL check (C5) *)




(** ** The polling loop *)

Lemma wait_loop_unfold fuel url params t0 timeout_sec poll_sec w :
  wait_loop (S fuel) url params t0 timeout_sec poll_sec w =
  let w1 := log_call (Request "GET" url (Some params) None 60) w in
  match answer url (upstream w (length (calls w))) with
  | Ret js =>
      match py_get "status_code" js with
      | Ret sc =>
          if eq_str sc "FINISHED" then (Ret tt, w1)
          else if eq_str sc "ERROR" || eq_str sc "EXPIRED"
          then (Raise (HTTPException 400 (ErrorResp "Processamento falhou" js)), w1)
          else if Qgtb (wall_clock w (clock_reads w) - t0) (inject_Z timeout_sec)
          then (Raise (HTTPException 408
                         (Message "Timeout esperando processamento do video.")),
                tick w1)
          else wait_loop fuel url params t0 timeout_sec poll_sec
                 (log_sleep poll_sec (tick w1))
      | Raise e => (Raise e, w1)
      | OutOfFuel => (OutOfFuel, w1)
      end
  | Raise e => (Raise e, w1)
  | OutOfFuel => (OutOfFuel, w1)
  end.
Proof.
  cbn [wait_loop]. rewrite bind_eq, _req_eq.
  destruct (answer url (upstream w (length (calls w)))) as [js| |]; try reflexivity.
  rewrite bind_lift.
  destruct (py_get "status_code" js) as [sc| |]; try reflexivity.
  cbv zeta.
  destruct (eq_str sc "FINISHED"); [reflexivity|].
  destruct (eq_str sc "ERROR" || eq_str sc "EXPIRED"); [reflexivity|].
  rewrite bind_eq. unfold time_time at 1. cbn [clock_reads wall_clock log_call].
  destruct (Qgtb _ _); reflexivity.
Qed.

Lemma nonterminal_tests sc :
  nonterminal sc →
  eq_str sc "FINISHED" = false ∧ eq_str sc "ERROR" || eq_str sc "EXPIRED" = false.
Proof.
  intros (H1 & H2 & H3). rewrite <- eq_str_false in H1, H2, H3.
  rewrite H1, H2, H3. split; reflexivity.
Qed.

(** A poll that sees a non-terminal status within the time bound sleeps
    and polls again. *)
Lemma wait_loop_pass fuel url params t0 timeout_sec poll_sec w sc :
  polled (upstream w (length (calls w))) sc →
  nonterminal sc →
  (wall_clock w (clock_reads w) - t0 <= inject_Z timeout_sec)%Q →
  wait_loop (S fuel) url params t0 timeout_sec poll_sec w
  = wait_loop fuel url params t0 timeout_sec poll_sec
      (pass (Request "GET" url (Some params) None 60) poll_sec w).
Proof.
  intros Hp Hn Ht. rewrite wait_loop_unfold. cbv zeta.
  destruct (answer_polled url _ _ Hp) as (js & -> & ->).
  destruct (nonterminal_tests _ Hn) as [-> ->].
  apply Qgtb_false in Ht. rewrite Ht. reflexivity.
Qed.

Lemma iter_pass_calls n rq secs w :
  calls (Nat.iter n (pass rq secs) w) = (calls w ++ replicate n rq)%list.
Proof.
  induction n as [|n IH]; simpl.
  - symmetry. apply app_nil_r.
  - rewrite IH, <- app_assoc. f_equal.
    change [rq] with (replicate 1 rq). rewrite <- replicate_add.
    replace (n + 1)%nat with (S n) by lia. reflexivity.
Qed.

Lemma iter_pass_sleeps n rq secs w :
  sleeps (Nat.iter n (pass rq secs) w) = (sleeps w ++ replicate n secs)%list.
Proof.
  induction n as [|n IH]; simpl.
  - symmetry. apply app_nil_r.
  - rewrite IH, <- app_assoc. f_equal.
    change [secs] with (replicate 1 secs). rewrite <- replicate_add.
    replace (n + 1)%nat with (S n) by lia. reflexivity.
Qed.

Lemma iter_pass_clock_reads n rq secs w :
  clock_reads (Nat.iter n (pass rq secs) w) = (clock_reads w + n)%nat.
Proof. induction n as [|n IH]; simpl; [lia | rewrite IH; lia]. Qed.

Lemma iter_pass_frame n rq secs w : frame w (Nat.iter n (pass rq secs) w).
Proof.
  induction n as [|n IH]; simpl; [apply frame_refl|].
  eapply frame_trans; [exact IH | apply frame_pass].
Qed.

Lemma iter_pass_length n rq secs w :
  length (calls (Nat.iter n (pass rq secs) w)) = (length (calls w) + n)%nat.
Proof. rewrite iter_pass_calls, length_app, length_replicate. reflexivity. Qed.

(** [n] polls that all see a non-terminal status within the time bound
    leave the loop where it started, [n] polls and [n] sleeps later. *)
Lemma wait_loop_skip n fuel url params t0 timeout_sec poll_sec w :
  (n ≤ fuel)%nat →
  (∀ k, (k < n)%nat →
     ∃ sc, polled (upstream w (length (calls w) + k)) sc
           ∧ nonterminal sc
           ∧ (wall_clock w (clock_reads w + k) - t0 <= inject_Z timeout_sec)%Q) →
  wait_loop fuel url params t0 timeout_sec poll_sec w
  = wait_loop (fuel - n) url params t0 timeout_sec poll_sec
      (Nat.iter n (pass (Request "GET" url (Some params) None 60) poll_sec) w).
Proof.
  induction n as [|n IH]; intros Hle Hpend.
  - simpl. rewrite Nat.sub_0_r. reflexivity.
  - rewrite IH; [|lia|intros k Hk; apply Hpend; lia].
    destruct (Hpend n) as (sc & Hp & Hn & Ht); [lia|].
    set (rq := Request "GET" url (Some params) None 60) in *.
    set (wn := Nat.iter n (pass rq poll_sec) w).
    destruct (iter_pass_frame n rq poll_sec w) as (Hup & Hclk & _).
    replace (fuel - n)%nat with (S (fuel - S n)) by lia.
    rewrite (wait_loop_pass _ _ _ _ _ _ wn sc); [reflexivity| | assumption |].
    + subst wn. rewrite Hup, iter_pass_length. assumption.
    + subst wn. rewrite Hclk, iter_pass_clock_reads. assumption.
Qed.

Lemma _wait_container_eq fuel container_id page_token timeout_sec poll_sec w :
  _wait_container fuel container_id page_token timeout_sec poll_sec w
  = wait_loop fuel (Container container_id)
      {[ "fields" := JStr "status_code,status"; "access_token" := page_token ]}
      (wall_clock w (clock_reads w)) timeout_sec poll_sec (tick w).
Proof. reflexivity. Qed.

(** The run up to the decisive poll: after [n] polls that see a
    non-terminal status within the time bound, poll [n] sees [sc] and the
    wait goes the way the source tests it. *)
Lemma wait_container_decisive fuel n container_id page_token w sc :
  (n < fuel)%nat →
  (∀ k, (k < n)%nat →
     ∃ sck, polled (upstream w (length (calls w) + k)) sck
            ∧ nonterminal sck
            ∧ (wall_clock w (clock_reads w + 1 + k) - wall_clock w (clock_reads w)
               <= 1200)%Q) →
  polled (upstream w (length (calls w) + n)) sc →
  ∃ js wn,
    calls wn = (calls w ++ replicate (S n) (poll_request container_id page_token))%list
    ∧ sleeps wn = (sleeps w ++ replicate n 5%Z)%list
    ∧ _wait_container fuel container_id page_token
        default_timeout_sec default_poll_sec w
      = if eq_str sc "FINISHED" then (Ret tt, wn)
        else if eq_str sc "ERROR" || eq_str sc "EXPIRED"
        then (Raise (HTTPException 400 (ErrorResp "Processamento falhou" js)), wn)
        else if Qgtb (wall_clock w (clock_reads w + 1 + n)
                      - wall_clock w (clock_reads w)) 1200
        then (Raise (HTTPException 408
                       (Message "Timeout esperando processamento do video.")),
              tick wn)
        else wait_loop (fuel - S n) (Container container_id)
               {[ "fields" := JStr "status_code,status";
                  "access_token" := page_token ]}
               (wall_clock w (clock_reads w)) 1200 5 (log_sleep 5 (tick wn)).
Proof.
  intros Hfuel Hpend Hp.
  set (t0 := wall_clock w (clock_reads w)).
  set (rq := poll_request container_id page_token).
  set (wn := Nat.iter n (pass rq 5%Z) (tick w)).
  assert (Hr : _wait_container fuel container_id page_token
                 default_timeout_sec default_poll_sec w
               = wait_loop (fuel - n) (Container container_id)
                   {[ "fields" := JStr "status_code,status";
                      "access_token" := page_token ]}
                   t0 1200%Z 5%Z wn).
  { rewrite _wait_container_eq.
    apply (wait_loop_skip n); [lia|].
    intros k Hk. destruct (Hpend k Hk) as (sck & H1 & H2 & H3).
    exists sck. cbn [upstream calls clock_reads wall_clock tick].
    split; [assumption|]. split; [assumption|].
    replace (S (clock_reads w) + k)%nat with (clock_reads w + 1 + k)%nat by lia.
    exact H3. }
  assert (Hfr : frame (tick w) wn) by apply iter_pass_frame.
  destruct Hfr as (Hup & Hclk & _).
  assert (Hlen : length (calls wn) = (length (calls w) + n)%nat)
    by (subst wn; rewrite iter_pass_length; reflexivity).
  assert (Hreads : clock_reads wn = (clock_reads w + 1 + n)%nat)
    by (subst wn; rewrite iter_pass_clock_reads; simpl; lia).
  assert (Hcalls : calls (log_call rq wn) = (calls w ++ replicate (S n) rq)%list).
  { subst wn. cbn [calls log_call]. rewrite iter_pass_calls. cbn [calls tick].
    rewrite <- app_assoc. f_equal.
    change [rq] with (replicate 1 rq). rewrite <- replicate_add.
    replace (n + 1)%nat with (S n) by lia. reflexivity. }
  assert (Hsleeps : sleeps (log_call rq wn) = (sleeps w ++ replicate n 5%Z)%list)
    by (subst wn; cbn [sleeps log_call]; rewrite iter_pass_sleeps; reflexivity).
  replace (fuel - n)%nat with (S (fuel - S n)) in Hr by lia.
  rewrite wait_loop_unfold in Hr. cbv zeta in Hr.
  rewrite Hup, Hlen, Hclk, Hreads in Hr. cbn [upstream wall_clock tick] in Hr.
  destruct (answer_polled (Container container_id) _ _ Hp) as (js & Ha & Hg).
  rewrite Ha, Hg in Hr.
  exists js, (log_call rq wn).
  split; [exact Hcalls|]. split; [exact Hsleeps|]. exact Hr.
Qed.

(** ** The processing wait (C4) *)

(** C4.  [_wait_container] with its defaults (a timeout of 1200 seconds
    and 5 seconds between polls), on a run whose first [n] polls see a
    non-terminal status within the time bound, given fuel for more than
    [n] polls: if poll [n] sees "FINISHED" the wait returns; if it sees
    "ERROR" or "EXPIRED" the wait raises the 400 error; if it sees a
    non-terminal status and the clock then reads more than 1200 seconds
    past the start, the wait raises the 408 error.  In the three cases the
    run made exactly [n + 1] polls, none after the decisive one, and slept
    5 seconds after each of the first [n]. *)
Theorem wait_container_outcome
    (fuel n : nat) (container_id page_token : json) (w : world) (sc : json) :
  let t0 := wall_clock w (clock_reads w) in
  let r := _wait_container fuel container_id page_token
             default_timeout_sec default_poll_sec w in
  let stopped :=
    calls r.2 = (calls w ++ replicate (S n) (poll_request container_id page_token))%list
    ∧ sleeps r.2 = (sleeps w ++ replicate n 5%Z)%list in
  (n < fuel)%nat →
  (∀ k, (k < n)%nat →
     ∃ sck, polled (upstream w (length (calls w) + k)) sck
            ∧ nonterminal sck
            ∧ (wall_clock w (clock_reads w + 1 + k) - t0 <= 1200)%Q) →
  polled (upstream w (length (calls w) + n)) sc →
  default_timeout_sec = 1200%Z
  ∧ default_poll_sec = 5%Z
  ∧ (sc = JStr "FINISHED" → r.1 = Ret tt ∧ stopped)
  ∧ (sc = JStr "ERROR" ∨ sc = JStr "EXPIRED" →
       (∃ js, r.1 = Raise (HTTPException 400 (ErrorResp "Processamento falhou" js)))
       ∧ stopped)
  ∧ (nonterminal sc →
     (1200 < wall_clock w (clock_reads w + 1 + n) - t0)%Q →
       r.1 = Raise (HTTPException 408
                      (Message "Timeout esperando processamento do video."))
       ∧ stopped).
Proof.
  intros t0 r stopped Hfuel Hpend Hp.
  split; [reflexivity|]. split; [reflexivity|].
  destruct (wait_container_decisive fuel n container_id page_token w sc
              Hfuel Hpend Hp) as (js & wn & Hcalls & Hsleeps & Hr).
  fold r in Hr. subst stopped. rewrite Hr.
  split; [|split].
  - intros ->. cbn [eq_str String.eqb Ascii.eqb Bool.eqb fst snd]. auto.
  - intros Hsc.
    assert (Hf : eq_str sc "FINISHED" = false)
      by (destruct Hsc as [-> | ->]; reflexivity).
    assert (He : eq_str sc "ERROR" || eq_str sc "EXPIRED" = true)
      by (destruct Hsc as [-> | ->]; reflexivity).
    rewrite Hf, He. cbn [fst snd]. eauto.
  - intros Hn Hlate.
    destruct (nonterminal_tests _ Hn) as [Hf He]. rewrite Hf, He.
    apply Qgtb_true in Hlate. fold t0. rewrite Hlate. cbn [fst snd].
    split; [reflexivity|]. split; assumption.
Qed.

Lemma wait_container_outcome_witness :
  (1 < 5)%nat
  ∧ polled (upstream_error_after_one 1) (JStr "ERROR")
  ∧ (∃ js,
       (_wait_container 5 (JStr "c1") (JStr "P1") default_timeout_sec default_poll_sec
          (world_authorized upstream_error_after_one clock_7)).1
       = Raise (HTTPException 400 (ErrorResp "Processamento falhou" js)))
  ∧ sleeps (_wait_container 5 (JStr "c1") (JStr "P1") default_timeout_sec
              default_poll_sec
              (world_authorized upstream_error_after_one clock_7)).2 = [5%Z].
Proof.
  assert (Hp : polled (upstream_error_after_one 1) (JStr "ERROR")).
  { exists 200%Z, (inl (JObj {[ "status_code" := JStr "ERROR" ]})),
      {[ "status_code" := JStr "ERROR" ]}.
    repeat split. }
  split; [lia|]. split; [exact Hp|].
  destruct (wait_container_outcome 5 1 (JStr "c1") (JStr "P1")
              (world_authorized upstream_error_after_one clock_7) (JStr "ERROR"))
    as (_ & _ & _ & He & _).
  - lia.
  - intros k Hk. assert (k = 0)%nat as -> by lia.
    exists (JStr "IN_PROGRESS"). split; [|split].
    + exists 200%Z, (inl (JObj {[ "status_code" := JStr "IN_PROGRESS" ]})),
        {[ "status_code" := JStr "IN_PROGRESS" ]}.
      repeat split.
    + repeat split; discriminate.
    + vm_compute. discriminate.
  - exact Hp.
  - destruct He as (Hr & _ & Hs); [left; reflexivity|].
    split; [exact Hr | exact Hs].
Defined.

(** ** The container-create and publish-commit steps *)

(** The form that [_create_container] posts. *)
Lemma _create_container_eq ig tok mt url cap stf w :
  ∃ data : gmap string json,
    _create_container ig tok mt url cap stf w
    = (match answer (Media ig) (upstream w (length (calls w))) with
       | Ret js =>
           match py_get "id" js with
           | Ret cid =>
               if truthy cid then Ret cid
               else Raise (HTTPException 400 (ErrorResp "Sem container id" js))
           | Raise e => Raise e
           | OutOfFuel => OutOfFuel
           end
       | Raise e => Raise e
       | OutOfFuel => OutOfFuel
       end,
       log_call (Request "POST" (Media ig) None (Some data) 60) w)
    ∧ data !! "media_type" = Some (JStr mt)
    ∧ data !! "video_url" = Some (JStr url)
    ∧ data !! "access_token" = Some tok
    ∧ data !! "caption" = (if nonempty cap then Some (JStr cap) else None)
    ∧ data !! "share_to_feed"
      = (if String.eqb mt "REELS"
         then Some (JStr (if stf then "true" else "false")) else None).
Proof.
  unfold _create_container. cbv zeta.
  match goal with
  | |- context [_req "POST" (Media ig) None (Some ?d) 60] => exists d
  end.
  split.
  - rewrite bind_eq, _req_eq.
    destruct (answer (Media ig) (upstream w (length (calls w)))) as [js| |];
      try reflexivity.
    rewrite bind_lift. destruct (py_get "id" js) as [cid| |]; try reflexivity.
    destruct (truthy cid); reflexivity.
  - destruct (nonempty cap), (String.eqb mt "REELS");
      repeat split; by simplify_map_eq.
Qed.

Lemma _publish_container_eq ig tok cid w :
  _publish_container ig tok cid w
  = (match answer (MediaPublish ig) (upstream w (length (calls w))) with
     | Ret js =>
         match py_get "id" js with
         | Ret mid =>
             if truthy mid then Ret mid
             else Raise (HTTPException 400 (ErrorResp "Sem media id" js))
         | Raise e => Raise e
         | OutOfFuel => OutOfFuel
         end
     | Raise e => Raise e
     | OutOfFuel => OutOfFuel
     end,
     log_call (Request "POST" (MediaPublish ig) None
                 (Some {[ "creation_id" := cid; "access_token" := tok ]}) 60) w).
Proof.
  unfold _publish_container. cbv zeta.
  rewrite bind_eq, _req_eq.
  destruct (answer (MediaPublish ig) (upstream w (length (calls w)))) as [js| |];
    try reflexivity.
  rewrite bind_lift. destruct (py_get "id" js) as [mid| |]; try reflexivity.
  destruct (truthy mid); reflexivity.
Qed.

Lemma create_container_world ig tok mt url cap stf w :
  ∃ data, (_create_container ig tok mt url cap stf w).2
          = log_call (Request "POST" (Media ig) None (Some data) 60) w.
Proof.
  destruct (_create_container_eq ig tok mt url cap stf w) as (data & E & _).
  exists data. rewrite E. reflexivity.
Qed.

Lemma create_container_result ig tok mt url cap stf w :
  (∀ cid, (_create_container ig tok mt url cap stf w).1 = Ret cid → truthy cid = true)
  ∧ (∀ e, (_create_container ig tok mt url cap stf w).1 = Raise e → step_exn e)
  ∧ (_create_container ig tok mt url cap stf w).1 ≠ OutOfFuel.
Proof.
  destruct (_create_container_eq ig tok mt url cap stf w) as (data & E & _).
  rewrite E. cbn [fst].
  destruct (answer (Media ig) (upstream w (length (calls w)))) as [js|e|] eqn:Ha.
  - destruct (py_get_cases "id" js) as [(o & -> & Hg) | Hg]; rewrite Hg.
    + destruct (truthy (dict_get "id" o)) eqn:Ht.
      * repeat split; try discriminate. intros cid H. congruence.
      * repeat split; try discriminate. intros e H. inversion H. exact I.
    + repeat split; try discriminate. intros e H. inversion H. exact I.
  - repeat split; try discriminate. intros e' H. inversion H. subst.
    eapply answer_exn; eassumption.
  - exfalso. eapply answer_never_out_of_fuel; eassumption.
Qed.

Lemma publish_container_result ig tok cid w :
  (∀ mid, (_publish_container ig tok cid w).1 = Ret mid → truthy mid = true)
  ∧ (∀ e, (_publish_container ig tok cid w).1 = Raise e → step_exn e)
  ∧ (_publish_container ig tok cid w).1 ≠ OutOfFuel.
Proof.
  rewrite _publish_container_eq. cbn [fst].
  destruct (answer (MediaPublish ig) (upstream w (length (calls w)))) as [js|e|] eqn:Ha.
  - destruct (py_get_cases "id" js) as [(o & -> & Hg) | Hg]; rewrite Hg.
    + destruct (truthy (dict_get "id" o)) eqn:Ht.
      * repeat split; try discriminate. intros mid H. congruence.
      * repeat split; try discriminate. intros e H. inversion H. exact I.
    + repeat split; try discriminate. intros e H. inversion H. exact I.
  - repeat split; try discriminate. intros e' H. inversion H. subst.
    eapply answer_exn; eassumption.
  - exfalso. eapply answer_never_out_of_fuel; eassumption.
Qed.

(** Whatever the loop does, it only polls: the calls it adds all go to the
    container URL, and the session stays as it was. *)
Lemma wait_loop_only_polls fuel url params t0 timeout_sec poll_sec :
  ∀ w,
    let r := wait_loop fuel url params t0 timeout_sec poll_sec w in
    frame w r.2
    ∧ (∃ polls, calls r.2 = (calls w ++ polls)%list
                ∧ Forall (λ rq, req_url rq = url) polls
                ∧ (r.1 = Ret tt → polls ≠ []))
    ∧ (∀ e, r.1 = Raise e → step_exn e).
Proof.
  induction fuel as [|fuel IH]; intros w r.
  - subst r. simpl. split; [apply frame_refl|]. split.
    + exists []. rewrite app_nil_r. repeat split; [constructor | discriminate].
    + discriminate.
  - subst r. rewrite wait_loop_unfold. cbv zeta.
    set (rq := Request "GET" url (Some params) None 60).
    assert (Hone : ∀ (x : res unit),
               frame w (x, log_call rq w).2
               ∧ (∃ polls, calls (x, log_call rq w).2 = (calls w ++ polls)%list
                           ∧ Forall (λ rq, req_url rq = url) polls
                           ∧ ((x, log_call rq w).1 = Ret tt → polls ≠ []))).
    { intros x. split; [apply frame_log_call|].
      exists [rq]. repeat split; [repeat constructor | discriminate]. }
    destruct (answer url (upstream w (length (calls w)))) as [js|e|] eqn:Ha.
    + destruct (py_get_cases "status_code" js) as [(o & -> & Hg) | Hg]; rewrite Hg.
      * destruct (eq_str _ "FINISHED").
        { split; [apply Hone|]. split; [apply Hone|]. discriminate. }
        destruct (eq_str _ "ERROR" || eq_str _ "EXPIRED").
        { split; [apply Hone|]. split; [apply Hone|].
          intros e H. inversion H. exact I. }
        destruct (Qgtb _ _).
        { split; [repeat split|]. split.
          - exists [rq]. repeat split; [repeat constructor | discriminate].
          - intros e H. inversion H. exact I. }
        destruct (IH (log_sleep poll_sec (tick (log_call rq w))))
          as (Hf & (polls & Hc & Hall & _) & He).
        split; [eapply frame_trans; [|exact Hf]; repeat split|].
        split; [|exact He].
        exists (rq :: polls). split; [|split].
        -- rewrite Hc. cbn [calls log_sleep tick log_call].
           rewrite <- app_assoc. reflexivity.
        -- constructor; [reflexivity | assumption].
        -- discriminate.
      * split; [apply Hone|]. split; [apply Hone|].
        intros e H. inversion H. exact I.
    + split; [apply Hone|]. split; [apply Hone|].
      intros e' H. inversion H. subst. eapply answer_exn; eassumption.
    + exfalso. eapply answer_never_out_of_fuel; eassumption.
Qed.

Lemma wait_container_only_polls fuel cid tok timeout_sec poll_sec w :
  let r := _wait_container fuel cid tok timeout_sec poll_sec w in
  frame w r.2
  ∧ (∃ polls, calls r.2 = (calls w ++ polls)%list
              ∧ Forall (λ rq, req_url rq = Container cid) polls
              ∧ (r.1 = Ret tt → polls ≠ []))
  ∧ (∀ e, r.1 = Raise e → step_exn e).
Proof.
  intros r. subst r. rewrite _wait_container_eq.
  destruct (wait_loop_only_polls fuel (Container cid)
              {[ "fields" := JStr "status_code,status"; "access_token" := tok ]}
              (wall_clock w (clock_reads w)) timeout_sec poll_sec (tick w))
    as (Hf & Hp & He).
  split; [eapply frame_trans; [apply frame_tick | exact Hf]|].
  split; [exact Hp | exact He].
Qed.

(** ** The pipeline (C8) *)

Lemma publish_steps_eq fuel mt url cap stf dw w :
  publish_steps fuel mt url cap stf dw w =
  let t := TOKENS w in
  let c := _create_container (ig_user_id t) (page_access_token t) mt url cap stf w in
  match c.1 with
  | Ret cid =>
      let v := if dw
               then _wait_container fuel cid (page_access_token t)
                      default_timeout_sec default_poll_sec c.2
               else (Ret tt, c.2) in
      match v.1 with
      | Ret _ =>
          let p := _publish_container (ig_user_id t) (page_access_token t) cid v.2 in
          match p.1 with
          | Ret mid =>
              (Ret (Dict {[ "ok" := JBool true;
                            "media_type" := JStr mt;
                            "container_id" := cid;
                            "media_id" := mid ]}), p.2)
          | Raise e => (Raise e, p.2)
          | OutOfFuel => (OutOfFuel, p.2)
          end
      | Raise e => (Raise e, v.2)
      | OutOfFuel => (OutOfFuel, v.2)
      end
  | Raise e => (Raise e, c.2)
  | OutOfFuel => (OutOfFuel, c.2)
  end.
Proof.
  cbv zeta. unfold publish_steps. rewrite bind_eq. unfold get_TOKENS at 1.
  rewrite bind_eq.
  destruct (create_container_world (ig_user_id (TOKENS w)) (page_access_token (TOKENS w))
              mt url cap stf w) as (data & Hw).
  destruct (_create_container (ig_user_id (TOKENS w)) (page_access_token (TOKENS w))
              mt url cap stf w) as [[cid|e|] wc]; try reflexivity.
  cbn [fst snd] in *. subst wc. rewrite bind_eq.
  set (wc := log_call _ w).
  assert (Htc : TOKENS wc = TOKENS w) by reflexivity.
  destruct dw.
  - rewrite bind_eq. unfold get_TOKENS at 1. rewrite Htc.
    pose proof (wait_container_only_polls fuel cid (page_access_token (TOKENS w))
                  default_timeout_sec default_poll_sec wc) as ((_ & _ & Htv) & _).
    destruct (_wait_container fuel cid (page_access_token (TOKENS w))
                default_timeout_sec default_poll_sec wc) as [[[]|e|] wv];
      try reflexivity.
    cbn [fst snd] in *. rewrite bind_eq. unfold get_TOKENS at 1.
    rewrite Htv, Htc. rewrite bind_eq.
    destruct (_publish_container _ _ cid wv) as [[mid|e|] wp]; reflexivity.
  - unfold ret at 1. cbn [fst snd]. rewrite bind_eq. unfold get_TOKENS at 1.
    rewrite Htc. rewrite bind_eq.
    destruct (_publish_container _ _ cid wc) as [[mid|e|] wp]; reflexivity.
Qed.

Lemma aborted_by_raise {A} (s : res A * world) e :
  s.1 = Raise e → aborted_by (Raise e, s.2) s.
Proof. intros H. split; [reflexivity|]. left. eauto. Qed.

Lemma aborted_by_out_of_fuel {A} (s : res A * world) :
  s.1 = OutOfFuel → aborted_by (OutOfFuel, s.2) s.
Proof. intros H. split; [reflexivity|]. right. auto. Qed.

(** A publish whose container is created and whose wait then sees
    "ERROR" or "EXPIRED" at poll [n], after [n] polls that go on: the
    request raises the 400 error of the wait, and its [n + 2] calls are the
    create and the polls. *)
Lemma publish_wait_fails fuel payload w mt url cap st body o n sc :
  authorized (TOKENS w) →
  read_media_type payload = Ret mt → valid_media_type mt = true →
  read_video_url payload = Ret url → startswith url "https://" = true →
  read_caption payload = Ret cap →
  read_wait payload = true →
  upstream w (length (calls w)) = Response st body →
  (st < 400)%Z →
  body_json body = JObj o →
  truthy (dict_get "id" o) = true →
  (n < fuel)%nat →
  (∀ k, (k < n)%nat →
     ∃ sck, polled (upstream w (length (calls w) + 1 + k)) sck
            ∧ nonterminal sck
            ∧ (wall_clock w (clock_reads w + 1 + k) - wall_clock w (clock_reads w)
               <= 1200)%Q) →
  polled (upstream w (length (calls w) + 1 + n)) sc →
  sc = JStr "ERROR" ∨ sc = JStr "EXPIRED" →
  ∃ js,
    (publish fuel payload w).1
    = Raise (HTTPException 400 (ErrorResp "Processamento falhou" js))
    ∧ Forall (λ rq, is_commit rq = false) (new_calls w (publish fuel payload w).2)
    ∧ length (new_calls w (publish fuel payload w).2) = (n + 2)%nat.
Proof.
  intros Hauth Hm Hv Hu Hs Hc Hw Hup Hst Hb Hid Hfuel Hpend Hp Hsc.
  rewrite (publish_authorized fuel payload w Hauth), Hm, Hu, Hc, Hv, Hs, Hw.
  cbn [negb]. rewrite publish_steps_eq. cbv zeta.
  set (ig := ig_user_id (TOKENS w)). set (tok := page_access_token (TOKENS w)).
  destruct (_create_container_eq ig tok mt url cap (read_share_to_feed payload) w)
    as (data & E & _).
  rewrite E, Hup. cbn [fst snd answer].
  destruct (Z.leb_spec 400 st); [lia|].
  rewrite Hb, py_get_obj, Hid.
  set (rq := Request "POST" (Media ig) None (Some data) 60).
  set (cid := dict_get "id" o).
  destruct (wait_container_decisive fuel n cid tok (log_call rq w) sc)
    as (js & wn & Hcalls & _ & Hr).
  - exact Hfuel.
  - intros k Hk. destruct (Hpend k Hk) as (sck & H1 & H2 & H3).
    exists sck. cbn [upstream calls clock_reads wall_clock log_call].
    rewrite length_app. cbn [length]. auto.
  - cbn [upstream calls log_call]. rewrite length_app. cbn [length]. exact Hp.
  - assert (Hf : eq_str sc "FINISHED" = false)
      by (destruct Hsc as [-> | ->]; reflexivity).
    assert (He : eq_str sc "ERROR" || eq_str sc "EXPIRED" = true)
      by (destruct Hsc as [-> | ->]; reflexivity).
    rewrite Hf, He in Hr. rewrite Hr. cbn [fst snd].
    assert (Hnew : new_calls w wn = rq :: replicate (S n) (poll_request cid tok)).
    { apply new_calls_app. rewrite Hcalls. cbn [calls log_call].
      rewrite <- app_assoc. reflexivity. }
    exists js. split; [reflexivity|]. rewrite Hnew. split.
    + constructor; [reflexivity|]. apply Forall_replicate. reflexivity.
    + cbn [length]. rewrite length_replicate. lia.
Qed.

(** C8.  A [/publish] request either is rejected before the pipeline,
    with no upstream call; or its container create fails and the request
    ends there, after that one call; or the create returns a container id
    and the processing wait (when requested) fails or never ends, and the
    request ends there with no publish-commit call among the calls made; or
    the wait (if any) succeeds and the commit fails, and the request ends
    with that failure; or all steps succeed and the response carries the
    container id and the media id, both non-empty.  A failing step ends the
    request with its own error in the world it left.  In particular, when
    the container is created and a poll of the wait sees "ERROR" or
    "EXPIRED", the request raises the 400 error of the wait and no
    publish-commit call is made. *)
Theorem publish_all_or_abort (fuel : nat) (payload : gmap string json) (w : world) :
  let r := publish fuel payload w in
  let t := TOKENS w in
  (((∃ e, r.1 = Raise e) ∧ r.2 = w)
   ∨ ∃ mt url cap,
       read_media_type payload = Ret mt
       ∧ read_video_url payload = Ret url
       ∧ read_caption payload = Ret cap
       ∧ let c := _create_container (ig_user_id t) (page_access_token t)
                    mt url cap (read_share_to_feed payload) w in
         (aborted_by r c
          ∧ length (new_calls w r.2) = 1%nat
          ∧ Forall (λ rq, is_create rq = true) (new_calls w r.2))
         ∨ ∃ cid,
             c.1 = Ret cid ∧ truthy cid = true
             ∧ let v := if read_wait payload
                        then _wait_container fuel cid (page_access_token t)
                               default_timeout_sec default_poll_sec c.2
                        else (Ret tt, c.2) in
               (aborted_by r v
                ∧ Forall (λ rq, is_commit rq = false) (new_calls w r.2))
               ∨ (v.1 = Ret tt
                  ∧ let p := _publish_container (ig_user_id t) (page_access_token t)
                               cid v.2 in
                    aborted_by r p
                    ∨ ∃ mid content,
                        p.1 = Ret mid ∧ truthy mid = true
                        ∧ r = (Ret (Dict content), p.2)
                        ∧ content !! "ok" = Some (JBool true)
                        ∧ content !! "media_type" = Some (JStr mt)
                        ∧ content !! "container_id" = Some cid
                        ∧ content !! "media_id" = Some mid))
  ∧ (∀ mt url cap st body o n sc,
       authorized t →
       read_media_type payload = Ret mt → valid_media_type mt = true →
       read_video_url payload = Ret url → startswith url "https://" = true →
       read_caption payload = Ret cap →
       read_wait payload = true →
       upstream w (length (calls w)) = Response st body →
       (st < 400)%Z →
       body_json body = JObj o →
       truthy (dict_get "id" o) = true →
       (n < fuel)%nat →
       (∀ k, (k < n)%nat →
          ∃ sck, polled (upstream w (length (calls w) + 1 + k)) sck
                 ∧ nonterminal sck
                 ∧ (wall_clock w (clock_reads w + 1 + k)
                    - wall_clock w (clock_reads w) <= 1200)%Q) →
       polled (upstream w (length (calls w) + 1 + n)) sc →
       sc = JStr "ERROR" ∨ sc = JStr "EXPIRED" →
       ∃ js,
         r.1 = Raise (HTTPException 400 (ErrorResp "Processamento falhou" js))
         ∧ Forall (λ rq, is_commit rq = false) (new_calls w r.2)
         ∧ length (new_calls w r.2) = (n + 2)%nat).
Proof.
  intros r t. subst r t.
  split; [|intros; eapply publish_wait_fails; eassumption].
  destruct (truthy (page_access_token (TOKENS w))) eqn:Hp;
    [destruct (truthy (ig_user_id (TOKENS w))) eqn:Hi|].
  2: { left. rewrite (publish_unauthorized fuel payload w); [|auto].
       split; [eexists|]; reflexivity. }
  2: { left. rewrite (publish_unauthorized fuel payload w); [|auto].
       split; [eexists|]; reflexivity. }
  rewrite (publish_authorized fuel payload w (conj Hp Hi)).
  destruct (read_media_type_cases payload) as [[mt Hm] | Hm]; rewrite Hm;
    [|left; split; [eexists|]; reflexivity].
  destruct (py_strip_cases (py_or (dict_get "video_url" payload) (JStr "")))
    as [(s1 & _ & Hu) | Hu];
    change (py_strip _) with (read_video_url payload) in Hu; rewrite Hu;
    [|left; split; [eexists|]; reflexivity].
  destruct (py_strip_cases (py_or (dict_get "caption" payload) (JStr "")))
    as [(s2 & _ & Hc) | Hc];
    change (py_strip _) with (read_caption payload) in Hc; rewrite Hc;
    [|left; split; [eexists|]; reflexivity].
  destruct (valid_media_type mt); simpl negb; cbv iota;
    [|left; split; [eexists|]; reflexivity].
  destruct (startswith (strip s1) "https://"); simpl negb; cbv iota;
    [|left; split; [eexists|]; reflexivity].
  right. exists mt, (strip s1), (strip s2).
  split; [reflexivity|]. split; [reflexivity|]. split; [reflexivity|].
  rewrite publish_steps_eq. cbv zeta.
  set (ig := ig_user_id (TOKENS w)). set (tok := page_access_token (TOKENS w)).
  set (stf := read_share_to_feed payload).
  destruct (create_container_world ig tok mt (strip s1) (strip s2) stf w)
    as (data & Hcw).
  destruct (create_container_result ig tok mt (strip s1) (strip s2) stf w)
    as (Hcid & _ & Hcf).
  set (c := _create_container ig tok mt (strip s1) (strip s2) stf w) in *.
  assert (Hnew1 : new_calls w c.2 = [Request "POST" (Media ig) None (Some data) 60]).
  { apply new_calls_app. rewrite Hcw. reflexivity. }
  destruct (c.1) as [cid|e|] eqn:Hc1.
  2: { left. split; [apply aborted_by_raise; exact Hc1|]. cbn [snd].
       rewrite Hnew1. split; [reflexivity | repeat constructor]. }
  2: { contradiction. }
  right. exists cid. split; [reflexivity|]. split; [apply Hcid; reflexivity|].
  destruct (read_wait payload).
  - pose proof (wait_container_only_polls fuel cid tok
                  default_timeout_sec default_poll_sec c.2)
      as (_ & (polls & Hcalls & Hall & _) & _).
    set (v := _wait_container fuel cid tok default_timeout_sec default_poll_sec c.2) in *.
    assert (Hnewv : new_calls w v.2
                    = Request "POST" (Media ig) None (Some data) 60 :: polls).
    { apply new_calls_app. rewrite Hcalls, Hcw. cbn [calls log_call].
      rewrite <- app_assoc. reflexivity. }
    assert (Hnc : Forall (λ rq, is_commit rq = false) (new_calls w v.2)).
    { rewrite Hnewv. constructor; [reflexivity|].
      eapply Forall_impl; [exact Hall|].
      intros rq Hrq. unfold is_commit. rewrite Hrq. reflexivity. }
    destruct (v.1) as [[]|e|] eqn:Hv1.
    + right. split; [reflexivity|].
      destruct (publish_container_result ig tok cid v.2) as (Hmid & _ & Hpf).
      set (p := _publish_container ig tok cid v.2) in *.
      destruct (p.1) as [mid|e|] eqn:Hp1.
      * right. eexists mid, _. split; [reflexivity|].
        split; [apply Hmid; reflexivity|]. split; [reflexivity|].
        repeat split; by simplify_map_eq.
      * left. apply aborted_by_raise. exact Hp1.
      * contradiction.
    + left. split; [apply aborted_by_raise; exact Hv1 | exact Hnc].
    + left. split; [apply aborted_by_out_of_fuel; exact Hv1 | exact Hnc].
  - cbn [fst snd]. right. split; [reflexivity|].
    destruct (publish_container_result ig tok cid c.2) as (Hmid & _ & Hpf).
    set (p := _publish_container ig tok cid c.2) in *.
    destruct (p.1) as [mid|e|] eqn:Hp1.
    + right. eexists mid, _. split; [reflexivity|].
      split; [apply Hmid; reflexivity|]. split; [reflexivity|].
      repeat split; by simplify_map_eq.
    + left. apply aborted_by_raise. exact Hp1.
    + contradiction.
Qed.

(** The scenario of the spec: the create call is answered with a
    container id, the first poll reports "ERROR"; the request fails with
    the 400 error of the wait after those two calls, neither of them a
    publish-commit. *)
Lemma publish_all_or_abort_witness :
  authorized (TOKENS (world_authorized upstream_create_then_error clock_7))
  ∧ polled (upstream_create_then_error 1) (JStr "ERROR")
  ∧ ∃ js,
      (publish 5 payload_reels_https
         (world_authorized upstream_create_then_error clock_7)).1
      = Raise (HTTPException 400 (ErrorResp "Processamento falhou" js))
      ∧ Forall (λ rq, is_commit rq = false)
          (new_calls (world_authorized upstream_create_then_error clock_7)
             (publish 5 payload_reels_https
                (world_authorized upstream_create_then_error clock_7)).2)
      ∧ length (new_calls (world_authorized upstream_create_then_error clock_7)
                  (publish 5 payload_reels_https
                     (world_authorized upstream_create_then_error clock_7)).2)
        = 2%nat.
Proof.
  assert (Hauth : authorized
                    (TOKENS (world_authorized upstream_create_then_error clock_7)))
    by (split; reflexivity).
  assert (Hp : polled (upstream_create_then_error 1) (JStr "ERROR")).
  { exists 200%Z, (inl (JObj {[ "status_code" := JStr "ERROR" ]})),
      {[ "status_code" := JStr "ERROR" ]}.
    repeat split. }
  split; [exact Hauth|]. split; [exact Hp|].
  destruct (publish_all_or_abort 5 payload_reels_https
              (world_authorized upstream_create_then_error clock_7)) as [_ Herr].
  apply (Herr "REELS" "https://x/v.mp4" "" 200%Z
           (inl (JObj {[ "id" := JStr "c1" ]})) {[ "id" := JStr "c1" ]}
           0%nat (JStr "ERROR"));
    try reflexivity; try exact Hauth; try exact Hp.
  - lia.
  - intros k Hk. lia.
  - left. reflexivity.
Defined.

(** The calls of the pipeline start with the container create, whose form
    is built from the arguments, and only step errors come out of it. *)
Lemma publish_steps_spec fuel mt url cap stf dw w :
  (∃ data rest,
     calls (publish_steps fuel mt url cap stf dw w).2
     = (calls w
        ++ Request "POST" (Media (ig_user_id (TOKENS w))) None (Some data) 60
           :: rest)%list
     ∧ data !! "media_type" = Some (JStr mt)
     ∧ data !! "video_url" = Some (JStr url)
     ∧ data !! "access_token" = Some (page_access_token (TOKENS w))
     ∧ data !! "caption" = (if nonempty cap then Some (JStr cap) else None)
     ∧ data !! "share_to_feed"
       = (if String.eqb mt "REELS"
          then Some (JStr (if stf then "true" else "false")) else None))
  ∧ (∀ e, (publish_steps fuel mt url cap stf dw w).1 = Raise e → step_exn e)
  ∧ TOKENS (publish_steps fuel mt url cap stf dw w).2 = TOKENS w.
Proof.
  rewrite publish_steps_eq. cbv zeta.
  set (ig := ig_user_id (TOKENS w)). set (tok := page_access_token (TOKENS w)).
  destruct (_create_container_eq ig tok mt url cap stf w)
    as (data & E & D1 & D2 & D3 & D4 & D5).
  destruct (create_container_result ig tok mt url cap stf w) as (_ & Hce & _).
  set (rq := Request "POST" (Media ig) None (Some data) 60) in *.
  assert (Hc2 : (_create_container ig tok mt url cap stf w).2 = log_call rq w)
    by (rewrite E; reflexivity).
  destruct ((_create_container ig tok mt url cap stf w).1) as [cid|e|] eqn:Hc1.
  2: { cbn [fst snd]. rewrite Hc2. split; [|split; [|reflexivity]].
       - exists data, []. repeat split; assumption.
       - intros e' H. inversion H. subst. apply Hce. reflexivity. }
  2: { cbn [fst snd]. rewrite Hc2. split; [|split; [discriminate | reflexivity]].
       exists data, []. repeat split; assumption. }
  rewrite Hc2.
  set (v := if dw
            then _wait_container fuel cid tok default_timeout_sec default_poll_sec
                   (log_call rq w)
            else (Ret tt, log_call rq w)).
  assert (Hv : frame w v.2
               ∧ (∃ polls, calls v.2 = (calls w ++ rq :: polls)%list)
               ∧ (∀ e, v.1 = Raise e → step_exn e)).
  { subst v. destruct dw.
    - destruct (wait_container_only_polls fuel cid tok default_timeout_sec
                  default_poll_sec (log_call rq w))
        as (Hf & (polls & Hcalls & _) & He).
      split; [eapply frame_trans; [apply frame_log_call | exact Hf]|].
      split; [|exact He].
      exists polls. rewrite Hcalls. cbn [calls log_call].
      rewrite <- app_assoc. reflexivity.
    - cbn [fst snd]. split; [apply frame_log_call|].
      split; [exists []; reflexivity | discriminate]. }
  destruct Hv as ((_ & _ & Htv) & (polls & Hcalls) & Hve).
  destruct (v.1) as [[]|e|] eqn:Hv1.
  - rewrite _publish_container_eq. cbn [fst snd].
    destruct (publish_container_result ig tok cid v.2) as (_ & Hpe & _).
    rewrite _publish_container_eq in Hpe. cbn [fst] in Hpe.
    set (rp := match answer (MediaPublish ig) (upstream v.2 (length (calls v.2))) with
               | Ret js => _ | Raise e => _ | OutOfFuel => _ end) in *.
    assert (Hcp : ∀ x : res response,
              ∃ data0 rest,
                calls (x, log_call (Request "POST" (MediaPublish ig) None
                         (Some {[ "creation_id" := cid; "access_token" := tok ]}) 60)
                         v.2).2
                = (calls w ++ Request "POST" (Media ig) None (Some data0) 60 :: rest)%list
                ∧ data0 !! "media_type" = Some (JStr mt)
                ∧ data0 !! "video_url" = Some (JStr url)
                ∧ data0 !! "access_token" = Some tok
                ∧ data0 !! "caption" = (if nonempty cap then Some (JStr cap) else None)
                ∧ data0 !! "share_to_feed"
                  = (if String.eqb mt "REELS"
                     then Some (JStr (if stf then "true" else "false")) else None)).
    { intros x. eexists data, _. cbn [snd calls log_call]. rewrite Hcalls.
      split; [rewrite <- app_assoc; reflexivity|]. repeat split; assumption. }
    destruct rp as [mid|e|]; cbn [fst snd].
    + split; [apply (Hcp (Ret (Dict ∅)))|]. split; [discriminate | exact Htv].
    + split; [apply (Hcp (Ret (Dict ∅)))|].
      split; [|exact Htv]. intros e' H. inversion H. subst. apply Hpe. reflexivity.
    + split; [apply (Hcp (Ret (Dict ∅)))|]. split; [discriminate | exact Htv].
  - cbn [fst snd]. split; [|split; [|exact Htv]].
    + exists data, polls. repeat split; assumption.
    + intros e' H. inversion H. subst. apply Hve. reflexivity.
  - cbn [fst snd]. split; [|split; [discriminate | exact Htv]].
    exists data, polls. repeat split; assumption.
Qed.


(** The first upstream call of an authorized [/publish] is the container
    create, built from the values read from the payload. *)
Lemma publish_first_call fuel payload w rq :
  authorized (TOKENS w) →
  new_calls w (publish fuel payload w).2 !! 0%nat = Some rq →
  ∃ m u c data,
    read_media_type payload = Ret m
    ∧ read_video_url payload = Ret u
    ∧ read_caption payload = Ret c
    ∧ valid_media_type m = true
    ∧ startswith u "https://" = true
    ∧ rq = Request "POST" (Media (ig_user_id (TOKENS w))) None (Some data) 60
    ∧ data !! "media_type" = Some (JStr m)
    ∧ data !! "video_url" = Some (JStr u)
    ∧ data !! "access_token" = Some (page_access_token (TOKENS w))
    ∧ data !! "caption" = (if nonempty c then Some (JStr c) else None)
    ∧ data !! "share_to_feed"
      = (if String.eqb m "REELS"
         then Some (JStr (if read_share_to_feed payload then "true" else "false"))
         else None).
Proof.
  intros Hauth. rewrite (publish_authorized fuel payload w Hauth).
  destruct (read_media_type payload) as [m| |];
    [|cbn [snd]; rewrite new_calls_same; discriminate..].
  destruct (read_video_url payload) as [u| |];
    [|cbn [snd]; rewrite new_calls_same; discriminate..].
  destruct (read_caption payload) as [c| |];
    [|cbn [snd]; rewrite new_calls_same; discriminate..].
  destruct (valid_media_type m) eqn:Hv; simpl negb; cbv iota;
    [|cbn [snd]; rewrite new_calls_same; discriminate].
  destruct (startswith u "https://") eqn:Hs; simpl negb; cbv iota;
    [|cbn [snd]; rewrite new_calls_same; discriminate].
  destruct (publish_steps_spec fuel m u c (read_share_to_feed payload)
              (read_wait payload) w)
    as ((data & rest & Hcalls & D1 & D2 & D3 & D4 & D5) & _).
  rewrite (new_calls_app _ _ _ Hcalls). cbn [lookup list_lookup].
  intros H. inversion H. subst rq.
  exists m, u, c, data. repeat split; assumption.
Qed.

(** ** The container form (C9) *)

(** C9.  [_create_container] makes one POST to the media URL of the
    account.  Its form always carries the media type, the video URL and the
    page token; it carries "caption" exactly when the caption is non-empty,
    and "share_to_feed", as "true" or "false", exactly when the media type
    is "REELS".  When the upstream answers a success without a non-empty
    "id", the call raises the 400 error "Sem container id"; a returned id
    is never empty.  In [/publish] the flag passed is the truth value of the
    payload entry, true when the entry is absent. *)
Theorem create_container_form
    (ig tok : json) (mt url cap : string) (stf : bool) (w : world) :
  let r := _create_container ig tok mt url cap stf w in
  (∃ data : gmap string json,
     new_calls w r.2 = [Request "POST" (Media ig) None (Some data) 60]
     ∧ data !! "media_type" = Some (JStr mt)
     ∧ data !! "video_url" = Some (JStr url)
     ∧ data !! "access_token" = Some tok
     ∧ (cap ≠ "" → data !! "caption" = Some (JStr cap))
     ∧ (cap = "" → data !! "caption" = None)
     ∧ (mt = "REELS" →
          data !! "share_to_feed" = Some (JStr (if stf then "true" else "false")))
     ∧ (mt ≠ "REELS" → data !! "share_to_feed" = None))
  ∧ (∀ st body o,
       upstream w (length (calls w)) = Response st body →
       (st < 400)%Z →
       body_json body = JObj o →
       truthy (dict_get "id" o) = false →
       r.1 = Raise (HTTPException 400 (ErrorResp "Sem container id" (JObj o))))
  ∧ (∀ cid, r.1 = Ret cid → truthy cid = true)
  ∧ (∀ payload : gmap string json,
       payload !! "share_to_feed" = None → read_share_to_feed payload = true)
  ∧ (∀ fuel payload w' rq,
       authorized (TOKENS w') →
       new_calls w' (publish fuel payload w').2 !! 0%nat = Some rq →
       ∃ m c data,
         read_media_type payload = Ret m
         ∧ read_caption payload = Ret c
         ∧ rq = Request "POST" (Media (ig_user_id (TOKENS w'))) None (Some data) 60
         ∧ (c ≠ "" → data !! "caption" = Some (JStr c))
         ∧ (c = "" → data !! "caption" = None)
         ∧ (m = "REELS" →
              data !! "share_to_feed"
              = Some (JStr (if read_share_to_feed payload then "true" else "false")))
         ∧ (m ≠ "REELS" → data !! "share_to_feed" = None)).
Proof.
  intros r. subst r.
  assert (Hif : ∀ (data : gmap string json) (c m : string) (b : bool),
            data !! "caption" = (if nonempty c then Some (JStr c) else None) →
            data !! "share_to_feed"
            = (if String.eqb m "REELS"
               then Some (JStr (if b then "true" else "false")) else None) →
            (c ≠ "" → data !! "caption" = Some (JStr c))
            ∧ (c = "" → data !! "caption" = None)
            ∧ (m = "REELS" →
                 data !! "share_to_feed" = Some (JStr (if b then "true" else "false")))
            ∧ (m ≠ "REELS" → data !! "share_to_feed" = None)).
  { intros data c m b H4 H5. repeat split.
    - intros Hc. apply nonempty_true in Hc. rewrite Hc in H4. exact H4.
    - intros Hc. apply nonempty_false in Hc. rewrite Hc in H4. exact H4.
    - intros ->. exact H5.
    - intros Hm. destruct (String.eqb_spec m "REELS"); [contradiction | exact H5]. }
  split; [|split; [|split; [|split]]].
  - destruct (_create_container_eq ig tok mt url cap stf w)
      as (data & E & D1 & D2 & D3 & D4 & D5).
    exists data. rewrite E. cbn [snd].
    split; [apply new_calls_app; reflexivity|].
    repeat (split; [assumption|]). apply Hif; assumption.
  - intros st body o Hup Hst Hb Hid.
    destruct (_create_container_eq ig tok mt url cap stf w) as (data & E & _).
    rewrite E, Hup. cbn [fst answer].
    destruct (Z.leb_spec 400 st); [lia|].
    rewrite Hb, py_get_obj, Hid. reflexivity.
  - apply create_container_result.
  - intros payload H. unfold read_share_to_feed. rewrite H. reflexivity.
  - intros fuel payload w' rq Hauth Hrq.
    destruct (publish_first_call fuel payload w' rq Hauth Hrq)
      as (m & u & c & data & Hm & _ & Hc & _ & _ & -> & _ & _ & _ & D4 & D5).
    exists m, c, data. repeat (split; [first [assumption | reflexivity]|]).
    apply Hif; assumption.
Qed.

Lemma create_container_form_witness :
  authorized (TOKENS (world_authorized upstream_ids clock_7))
  ∧ (∃ data : gmap string json,
       new_calls (world_authorized upstream_ids clock_7)
         (publish 5 payload_reels_https (world_authorized upstream_ids clock_7)).2
         !! 0%nat
       = Some (Request "POST" (Media (JStr "ig1")) None (Some data) 60)
       ∧ data !! "share_to_feed" = Some (JStr "true")
       ∧ data !! "caption" = None).
Proof.
  split; [split; reflexivity|].
  destruct (create_container_form JNull JNull "" "" "" true world_offline)
    as (_ & _ & _ & Hdef & Hpub).
  destruct (Hpub 5%nat payload_reels_https (world_authorized upstream_ids clock_7)
              (Request "POST" (Media (JStr "ig1")) None
                 (Some {[ "media_type" := JStr "REELS";
                          "video_url" := JStr "https://x/v.mp4";
                          "access_token" := JStr "P1";
                          "share_to_feed" := JStr "true" ]}) 60))
    as (m & c & data & Hm & Hc & Hrq & _ & Hcap & Hstf & _).
  - split; reflexivity.
  - vm_compute. reflexivity.
  - exists data. inversion Hm. inversion Hc. subst m c.
    split; [injection Hrq as <-; vm_compute; reflexivity|].
    split.
    + rewrite (Hstf eq_refl), (Hdef payload_reels_https eq_refl). reflexivity.
    + apply Hcap. reflexivity.
Defined.

(** ** The media type (C10) *)




(** ** The session record (C2) *)

Lemma put_TOKENS_same w : put_TOKENS (TOKENS w) w = w.
Proof. destruct w; reflexivity. Qed.

Lemma publish_TOKENS fuel payload w :
  TOKENS (publish fuel payload w).2 = TOKENS w.
Proof.
  destruct (truthy (page_access_token (TOKENS w))) eqn:Hp;
    [destruct (truthy (ig_user_id (TOKENS w))) eqn:Hi|].
  2, 3: rewrite (publish_unauthorized fuel payload w); [reflexivity | auto].
  rewrite (publish_authorized fuel payload w (conj Hp Hi)).
  destruct (read_media_type payload) as [m| |]; try reflexivity.
  destruct (read_video_url payload) as [u| |]; try reflexivity.
  destruct (read_caption payload) as [c| |]; try reflexivity.
  destruct (negb (valid_media_type m)); [reflexivity|].
  destruct (negb (startswith u "https://")); [reflexivity|].
  apply publish_steps_spec.
Qed.

(** What a callback does to the session: nothing, unless it answers with
    the authorized page, and then all five entries are new. *)
Lemma oauth_callback_session cfg code state error error_description w :
  ((∀ h, (oauth_callback cfg code state error error_description w).1
         ≠ Ret (HTMLResponse h))
   ∧ TOKENS (oauth_callback cfg code state error error_description w).2 = TOKENS w)
  ∨ ∃ user_token pages chosen,
      exchange_result (upstream w (length (calls w))) = Ret user_token
      ∧ accounts_result (upstream w (S (length (calls w)))) = Ret pages
      ∧ _pick_first_valid_page pages = Ret chosen
      ∧ (oauth_callback cfg code state error error_description w).1
        = Ret (HTMLResponse (AuthorizedPage (page_id_of chosen)
                               (linked_account_id chosen)))
      ∧ ∀ t, TOKENS (oauth_callback cfg code state error error_description
                       (put_TOKENS t w)).2
             = {| user_access_token := user_token;
                  page_access_token := page_token chosen;
                  ig_user_id := linked_account_id chosen;
                  page_id := page_id_of chosen;
                  token_obtained_at :=
                    JNum (py_int (wall_clock w (clock_reads w))) |}.
Proof.
  rewrite oauth_callback_eq.
  destruct (_require_env cfg) as [[]| |] eqn:Henv;
    [|left; split; [discriminate | reflexivity]..].
  destruct (opt_truthy error) eqn:Herr; [left; split; [discriminate | reflexivity]|].
  destruct (negb (opt_truthy code)) eqn:Hcode;
    [left; split; [discriminate | reflexivity]|].
  destruct (negb (bool_decide (state = Some (STATE_NONCE cfg)))) eqn:Hst;
    [left; split; [discriminate | reflexivity]|].
  cbv zeta.
  destruct (exchange_result (upstream w (length (calls w)))) as [user_token| |] eqn:Hx;
    [|left; split; [discriminate | reflexivity]..].
  destruct (accounts_result (upstream w (S (length (calls w))))) as [pages| |] eqn:Hacc;
    [|left; split; [discriminate | reflexivity]..].
  destruct (_pick_first_valid_page pages) as [chosen| |] eqn:Hpick;
    [|left; split; [discriminate | reflexivity]..].
  right. exists user_token, pages, chosen.
  split; [reflexivity|]. split; [reflexivity|]. split; [exact Hpick|].
  split; [reflexivity|].
  intros t. rewrite oauth_callback_eq, Henv, Herr, Hcode, Hst. cbv zeta.
  cbn [upstream calls clock_reads wall_clock put_TOKENS].
  rewrite Hx, Hacc, Hpick. reflexivity.
Qed.

Lemma exchange_result_truthy r user_token :
  exchange_result r = Ret user_token → truthy user_token = true.
Proof.
  unfold exchange_result.
  destruct (answer OAuthAccessToken r) as [js| |]; simpl; try discriminate.
  destruct (py_get "access_token" js) as [token| |]; simpl; try discriminate.
  destruct (truthy token) eqn:Ht; [|discriminate].
  intros [= <-]. exact Ht.
Qed.

Lemma run_session_inv cfg op w :
  session_inv (TOKENS w) → session_inv (TOKENS (run cfg op w).2).
Proof.
  intros Hinv.
  destruct op as [| | |code state error error_description| |fuel payload];
    cbn [run].
  - exact Hinv.
  - unfold home. rewrite bind_lift.
    destruct (_require_env cfg) as [[]| |]; exact Hinv.
  - unfold login. rewrite bind_lift.
    destruct (_require_env cfg) as [[]| |]; exact Hinv.
  - destruct (oauth_callback_session cfg code state error error_description w)
      as [[_ ->] | (user_token & pages & chosen & _ & _ & Hpick & _ & Hnew)];
      [exact Hinv|].
    specialize (Hnew (TOKENS w)). rewrite put_TOKENS_same in Hnew.
    rewrite Hnew. right. cbn [page_access_token ig_user_id].
    pose proof (page_ok_qualifies _ (pick_ret _ _ Hpick)) as Hq.
    unfold qualifies in Hq. apply andb_true_iff in Hq as [Hig Htok]. auto.
  - exact Hinv.
  - rewrite publish_TOKENS. exact Hinv.
Qed.

(** C2.  A callback that succeeds, that is, answers with the authorized
    page, leaves a session whose five entries are all new: the user token
    returned by the exchange, the token, the id and the linked account id
    of the chosen page, and the time of the call.  The record is the same
    whatever the session held before, and the three tokens in it are
    non-empty.  Page token and publishing-account id are both absent at
    process start, and every operation of the service keeps them both
    absent or both present; so they are in every reachable world. *)
Theorem session_replaced_and_paired (cfg : settings) :
  (∀ code state error error_description w h,
     (oauth_callback cfg code state error error_description w).1
     = Ret (HTMLResponse h) →
     ∃ user_token pages chosen,
       (_exchange_code_for_user_token cfg (opt_json code) w).1 = Ret user_token
       ∧ (_get_pages_and_ig user_token
            (_exchange_code_for_user_token cfg (opt_json code) w).2).1 = Ret pages
       ∧ _pick_first_valid_page pages = Ret chosen
       ∧ (∀ t, TOKENS (oauth_callback cfg code state error error_description
                         (put_TOKENS t w)).2
               = {| user_access_token := user_token;
                    page_access_token := page_token chosen;
                    ig_user_id := linked_account_id chosen;
                    page_id := page_id_of chosen;
                    token_obtained_at :=
                      JNum (py_int (wall_clock w (clock_reads w))) |})
       ∧ TOKENS (oauth_callback cfg code state error error_description w).2
         = {| user_access_token := user_token;
              page_access_token := page_token chosen;
              ig_user_id := linked_account_id chosen;
              page_id := page_id_of chosen;
              token_obtained_at :=
                JNum (py_int (wall_clock w (clock_reads w))) |}
       ∧ truthy user_token = true
       ∧ truthy (page_token chosen) = true
       ∧ truthy (linked_account_id chosen) = true)
  ∧ session_inv TOKENS_init
  ∧ (∀ op w, session_inv (TOKENS w) → session_inv (TOKENS (run cfg op w).2))
  ∧ (∀ w, reachable cfg w → session_inv (TOKENS w)).
Proof.
  split; [|split; [|split]].
  - intros code state error error_description w h Hok.
    destruct (oauth_callback_session cfg code state error error_description w)
      as [[Hno _] | (user_token & pages & chosen & Hx & Hacc & Hpick & _ & Hnew)].
    { exfalso. exact (Hno h Hok). }
    exists user_token, pages, chosen.
    split; [rewrite _exchange_code_for_user_token_eq; exact Hx|].
    split.
    { rewrite _get_pages_and_ig_result, _exchange_code_for_user_token_eq.
      cbn [fst snd upstream calls log_call].
      rewrite length_app, Nat.add_1_r. exact Hacc. }
    split; [exact Hpick|].
    split; [exact Hnew|].
    split; [rewrite <- (Hnew (TOKENS w)), put_TOKENS_same; reflexivity|].
    split; [eapply exchange_result_truthy; exact Hx|].
    pose proof (page_ok_qualifies _ (pick_ret _ _ Hpick)) as Hq.
    unfold qualifies in Hq. apply andb_true_iff in Hq as [Hig Htok]. auto.
  - left. split; reflexivity.
  - intros op w. apply run_session_inv.
  - intros w Hreach. induction Hreach as [up clk | w op _ IH].
    + left. split; reflexivity.
    + apply run_session_inv. exact IH.
Qed.

Lemma session_replaced_and_paired_witness :
  (oauth_callback settings_demo (Some "abc") (Some "nonce") None None
     (world_authorized upstream_oauth clock_7)).1
  = Ret (HTMLResponse (AuthorizedPage (JStr "pg1") (JStr "ig1")))
  ∧ TOKENS (oauth_callback settings_demo (Some "abc") (Some "nonce") None None
              (world_start upstream_oauth clock_7)).2
    = {| user_access_token := JStr "U1";
         page_access_token := JStr "P1";
         ig_user_id := JStr "ig1";
         page_id := JStr "pg1";
         token_obtained_at := JNum 0 |}
  ∧ session_inv
      (TOKENS (run settings_demo (PostPublish 3 payload_reels_https)
                 (run settings_demo
                    (GetOAuthCallback (Some "abc") (Some "nonce") None None)
                    (world_start upstream_oauth clock_7)).2).2).
Proof.
  destruct (session_replaced_and_paired settings_demo) as (Hcb & _ & _ & Hreach).
  assert (Hok : (oauth_callback settings_demo (Some "abc") (Some "nonce") None None
                   (world_authorized upstream_oauth clock_7)).1
                = Ret (HTMLResponse (AuthorizedPage (JStr "pg1") (JStr "ig1"))))
    by (vm_compute; reflexivity).
  split; [exact Hok|]. split.
  - destruct (Hcb _ _ _ _ _ _ Hok)
      as (user_token & pages & chosen & Hx & Hacc & Hpick & Hnew & _).
    vm_compute in Hx. injection Hx as <-.
    assert (Hp : _pick_first_valid_page
                   (JArr [page_unlinked; page_no_token; page_linked])
                 = Ret chosen).
    { rewrite <- Hpick. f_equal. vm_compute in Hacc. injection Hacc as <-.
      vm_compute. reflexivity. }
    vm_compute in Hp. injection Hp as <-.
    exact (Hnew TOKENS_init).
  - apply Hreach. do 2 apply reachable_step. apply reachable_start.
Defined.

(** * Further properties *)

(** ** The configuration check, continued *)

(** X1.  The names that [_require_env] reports come in the order of the
    four checks, each at most once; the redirect URI is never reported
    missing alone: when it is, the base URL is reported as well and no
    override is set.  A base URL that is set always gives a redirect URI. *)
Theorem missing_settings_ordered (cfg : settings) :
  sublist (missing_settings cfg)
    ["META_APP_ID"; "META_APP_SECRET";
     "META_REDIRECT_URI ou PUBLIC_BASE_URL"; "PUBLIC_BASE_URL"]
  ∧ ("META_REDIRECT_URI ou PUBLIC_BASE_URL" ∈ missing_settings cfg →
       "PUBLIC_BASE_URL" ∈ missing_settings cfg ∧ META_REDIRECT_URI cfg = "")
  ∧ (PUBLIC_BASE_URL cfg ≠ "" → _get_redirect_uri cfg ≠ "").
Proof.
  split; [|split].
  - unfold missing_settings.
    destruct (nonempty (META_APP_ID cfg)), (nonempty (META_APP_SECRET cfg)),
      (nonempty (_get_redirect_uri cfg)), (nonempty (PUBLIC_BASE_URL cfg));
      cbn [negb app];
      repeat first [apply sublist_nil | apply sublist_skip | apply sublist_cons].
  - intros H.
    destruct (missing_settings_spec cfg) as (_ & _ & H3 & H4 & _).
    apply H3 in H. apply redirect_uri_empty in H as [Hr Hp].
    split; [apply H4; exact Hp | exact Hr].
  - intros Hp Hr. apply redirect_uri_empty in Hr as [_ Hr]. contradiction.
Qed.

Lemma missing_settings_ordered_witness :
  PUBLIC_BASE_URL settings_unset ≠ ""
  ∧ _get_redirect_uri settings_unset ≠ "".
Proof.
  assert (H : PUBLIC_BASE_URL settings_unset ≠ "") by (vm_compute; discriminate).
  split; [exact H|].
  destruct (missing_settings_ordered settings_unset) as (_ & _ & Hb).
  apply Hb. exact H.
Defined.

(** ** The token exchange and the callback, continued *)

(** X2.  [_exchange_code_for_user_token] makes exactly one call, a GET of
    the token URL with the client id, the client secret, the effective
    redirect URI and the code.  A token it returns is never empty.  A
    success whose JSON object has no non-empty "access_token" raises the
    400 error that carries the object; an upstream status of 400 or more
    raises the 400 error that carries the URL and the body; a call that
    gets no response raises the exception of [requests]. *)
Theorem exchange_code_contract (cfg : settings) (code : json) (w : world) :
  let r := _exchange_code_for_user_token cfg code w in
  (∃ params : gmap string json,
     r.2 = log_call (Request "GET" OAuthAccessToken (Some params) None 60) w
     ∧ params !! "client_id" = Some (JStr (META_APP_ID cfg))
     ∧ params !! "client_secret" = Some (JStr (META_APP_SECRET cfg))
     ∧ params !! "redirect_uri" = Some (JStr (_get_redirect_uri cfg))
     ∧ params !! "code" = Some code)
  ∧ (∀ token, r.1 = Ret token → truthy token = true)
  ∧ (∀ st body o,
       upstream w (length (calls w)) = Response st body →
       (st < 400)%Z →
       body_json body = JObj o →
       r.1 = if truthy (dict_get "access_token" o)
             then Ret (dict_get "access_token" o)
             else Raise (HTTPException 400 (ErrorResp "Sem access_token" (JObj o))))
  ∧ (∀ st body,
       upstream w (length (calls w)) = Response st body →
       (400 <= st)%Z →
       r.1 = Raise (HTTPException 400 (UrlResp OAuthAccessToken (body_json body))))
  ∧ (upstream w (length (calls w)) = NoResponse → r.1 = Raise RequestException).
Proof.
  intros r. subst r. rewrite _exchange_code_for_user_token_eq. cbn [fst snd].
  split; [|split; [|split; [|split]]].
  - eexists. split; [reflexivity|]. repeat split; by simplify_map_eq.
  - apply exchange_result_truthy.
  - intros st body o -> Hst Hb. unfold exchange_result. cbn [answer].
    destruct (Z.leb_spec 400 st); [lia|].
    rewrite Hb. cbn [res_bind]. rewrite py_get_obj. reflexivity.
  - intros st body -> Hst. unfold exchange_result. cbn [answer].
    destruct (Z.leb_spec 400 st); [reflexivity | lia].
  - intros ->. reflexivity.
Qed.

Lemma exchange_code_contract_witness :
  upstream_oauth 0 = Response 200 (inl (JObj {[ "access_token" := JStr "U1" ]}))
  ∧ (_exchange_code_for_user_token settings_demo (JStr "abc")
       (world_start upstream_oauth clock_7)).1 = Ret (JStr "U1").
Proof.
  split; [reflexivity|].
  destruct (exchange_code_contract settings_demo (JStr "abc")
              (world_start upstream_oauth clock_7)) as (_ & _ & H & _).
  rewrite (H 200%Z (inl (JObj {[ "access_token" := JStr "U1" ]}))
             {[ "access_token" := JStr "U1" ]} eq_refl eq_refl eq_refl).
  reflexivity.
Defined.

(** The calls of a callback: none, the exchange, or the exchange followed
    by the accounts query made with the token that the exchange returned;
    the clock is read, once, only by a callback that answers with the
    authorized page. *)
Lemma oauth_callback_calls cfg code state error error_description w :
  let r := oauth_callback cfg code state error error_description w in
  let x := _exchange_code_for_user_token cfg (opt_json code) w in
  upstream r.2 = upstream w
  ∧ wall_clock r.2 = wall_clock w
  ∧ sleeps r.2 = sleeps w
  ∧ (((∀ h, r.1 ≠ Ret (HTMLResponse h))
      ∧ TOKENS r.2 = TOKENS w
      ∧ clock_reads r.2 = clock_reads w
      ∧ (new_calls w r.2 = []
         ∨ (new_calls w r.2 = [exchange_request cfg (opt_json code)]
            ∧ ∀ user_token, x.1 ≠ Ret user_token)
         ∨ ∃ user_token,
             x.1 = Ret user_token
             ∧ new_calls w r.2 = [exchange_request cfg (opt_json code);
                                  accounts_request user_token]))
     ∨ ((∃ h, r.1 = Ret (HTMLResponse h))
        ∧ clock_reads r.2 = S (clock_reads w)
        ∧ ∃ user_token,
            x.1 = Ret user_token
            ∧ user_access_token (TOKENS r.2) = user_token
            ∧ new_calls w r.2 = [exchange_request cfg (opt_json code);
                                 accounts_request user_token])).
Proof.
  intros r x. subst r x.
  rewrite oauth_callback_eq, _exchange_code_for_user_token_eq. cbn [fst].
  destruct (_require_env cfg) as [[]|e|];
    [|split; [reflexivity|]; split; [reflexivity|]; split; [reflexivity|]; left;
      split; [discriminate|]; split; [reflexivity|]; split; [reflexivity|];
      left; apply new_calls_same..].
  destruct (opt_truthy error);
    [split; [reflexivity|]; split; [reflexivity|]; split; [reflexivity|]; left;
     split; [discriminate|]; split; [reflexivity|]; split; [reflexivity|];
     left; apply new_calls_same|].
  destruct (negb (opt_truthy code));
    [split; [reflexivity|]; split; [reflexivity|]; split; [reflexivity|]; left;
     split; [discriminate|]; split; [reflexivity|]; split; [reflexivity|];
     left; apply new_calls_same|].
  destruct (negb (bool_decide (state = Some (STATE_NONCE cfg))));
    [split; [reflexivity|]; split; [reflexivity|]; split; [reflexivity|]; left;
     split; [discriminate|]; split; [reflexivity|]; split; [reflexivity|];
     left; apply new_calls_same|].
  cbv zeta.
  set (ex := exchange_request cfg (opt_json code)).
  assert (H1 : new_calls w (log_call ex w) = [ex])
    by (apply new_calls_app; reflexivity).
  destruct (exchange_result (upstream w (length (calls w)))) as [user_token|e|].
  2, 3: split; [reflexivity|]; split; [reflexivity|]; split; [reflexivity|]; left;
    split; [discriminate|]; split; [reflexivity|]; split; [reflexivity|];
    right; left; split; [exact H1 | discriminate].
  set (acc := accounts_request user_token).
  assert (H2 : new_calls w (log_call acc (log_call ex w)) = [ex; acc]).
  { apply new_calls_app. cbn [calls log_call]. rewrite <- app_assoc. reflexivity. }
  assert (Hfail : ∀ (a : res response),
            (∀ h, a ≠ Ret (HTMLResponse h)) →
            upstream (a, log_call acc (log_call ex w)).2 = upstream w
            ∧ wall_clock (a, log_call acc (log_call ex w)).2 = wall_clock w
            ∧ sleeps (a, log_call acc (log_call ex w)).2 = sleeps w
            ∧ (((∀ h, (a, log_call acc (log_call ex w)).1 ≠ Ret (HTMLResponse h))
                ∧ TOKENS (a, log_call acc (log_call ex w)).2 = TOKENS w
                ∧ clock_reads (a, log_call acc (log_call ex w)).2 = clock_reads w
                ∧ (new_calls w (a, log_call acc (log_call ex w)).2 = []
                   ∨ (new_calls w (a, log_call acc (log_call ex w)).2 = [ex]
                      ∧ ∀ ut, Ret user_token ≠ Ret ut)
                   ∨ ∃ ut, Ret user_token = Ret ut
                           ∧ new_calls w (a, log_call acc (log_call ex w)).2
                             = [ex; accounts_request ut]))
               ∨ ((∃ h, (a, log_call acc (log_call ex w)).1 = Ret (HTMLResponse h))
                  ∧ clock_reads (a, log_call acc (log_call ex w)).2
                    = S (clock_reads w)
                  ∧ ∃ ut, Ret user_token = Ret ut
                          ∧ user_access_token
                              (TOKENS (a, log_call acc (log_call ex w)).2) = ut
                          ∧ new_calls w (a, log_call acc (log_call ex w)).2
                            = [ex; accounts_request ut]))).
  { intros a Ha. cbn [fst snd].
    split; [reflexivity|]. split; [reflexivity|]. split; [reflexivity|].
    left. split; [exact Ha|]. split; [reflexivity|]. split; [reflexivity|].
    right. right. exists user_token. split; [reflexivity | exact H2]. }
  destruct (accounts_result (upstream w (S (length (calls w))))) as [pages|e|];
    [|apply Hfail; discriminate..].
  destruct (_pick_first_valid_page pages) as [chosen|e|];
    [|apply Hfail; discriminate..].
  cbn [fst snd].
  split; [reflexivity|]. split; [reflexivity|]. split; [reflexivity|].
  right. split; [eexists; reflexivity|]. split; [reflexivity|].
  exists user_token. split; [reflexivity|]. split; [reflexivity|].
  apply new_calls_app. cbn [calls put_TOKENS tick log_call].
  rewrite <- app_assoc. reflexivity.
Qed.

(** An upstream call is made only by a callback that passed the four
    checks. *)
Lemma oauth_callback_guarded cfg code state error error_description w :
  new_calls w (oauth_callback cfg code state error error_description w).2 ≠ [] →
  _require_env cfg = Ret tt
  ∧ opt_truthy error = false
  ∧ opt_truthy code = true
  ∧ state = Some (STATE_NONCE cfg).
Proof.
  rewrite oauth_callback_eq.
  destruct (_require_env cfg) as [[]|e|];
    [|cbn [snd]; rewrite new_calls_same; congruence..].
  destruct (opt_truthy error); [cbn [snd]; rewrite new_calls_same; congruence|].
  destruct (opt_truthy code); cbn [negb];
    [|cbn [snd]; rewrite new_calls_same; congruence].
  destruct (bool_decide (state = Some (STATE_NONCE cfg))) eqn:Hs; cbn [negb];
    [|cbn [snd]; rewrite new_calls_same; congruence].
  apply bool_decide_eq_true in Hs. auto.
Qed.

(** X3.  A callback is all or nothing.  It never sleeps and never changes
    what the upstream or the clock will say.  Unless it answers with the
    authorized page, the session and the clock counter are as before.  It
    makes at most two upstream calls: the token exchange with the code it
    received, made only when the configuration is complete, no error is
    reported, the code is present and the state is the anti-forgery token;
    and then the accounts query, made only with the token that the
    exchange returned. *)
Theorem callback_all_or_nothing
    (cfg : settings) (code state error error_description : option string) (w : world) :
  let r := oauth_callback cfg code state error error_description w in
  let x := _exchange_code_for_user_token cfg (opt_json code) w in
  upstream r.2 = upstream w
  ∧ wall_clock r.2 = wall_clock w
  ∧ sleeps r.2 = sleeps w
  ∧ (length (new_calls w r.2) ≤ 2)%nat
  ∧ ((∀ h, r.1 ≠ Ret (HTMLResponse h)) →
       TOKENS r.2 = TOKENS w ∧ clock_reads r.2 = clock_reads w)
  ∧ (∀ h, r.1 = Ret (HTMLResponse h) →
       clock_reads r.2 = S (clock_reads w)
       ∧ ∃ user_token,
           x.1 = Ret user_token
           ∧ user_access_token (TOKENS r.2) = user_token
           ∧ new_calls w r.2 = [exchange_request cfg (opt_json code);
                                accounts_request user_token])
  ∧ (∀ rq, new_calls w r.2 !! 0%nat = Some rq →
       rq = exchange_request cfg (opt_json code)
       ∧ _require_env cfg = Ret tt
       ∧ (error = None ∨ error = Some "")
       ∧ (∃ c, code = Some c ∧ c ≠ "")
       ∧ state = Some (STATE_NONCE cfg))
  ∧ (∀ rq, new_calls w r.2 !! 1%nat = Some rq →
       ∃ user_token, x.1 = Ret user_token ∧ rq = accounts_request user_token).
Proof.
  intros r x.
  destruct (oauth_callback_calls cfg code state error error_description w)
    as (Hup & Hclk & Hsl & Hcases).
  fold r in Hup, Hclk, Hsl, Hcases. fold x in Hcases.
  pose proof (oauth_callback_guarded cfg code state error error_description w)
    as Hguard. fold r in Hguard.
  split; [exact Hup|]. split; [exact Hclk|]. split; [exact Hsl|].
  assert (Hfirst : ∀ rq, new_calls w r.2 !! 0%nat = Some rq →
            _require_env cfg = Ret tt
            ∧ (error = None ∨ error = Some "")
            ∧ (∃ c, code = Some c ∧ c ≠ "")
            ∧ state = Some (STATE_NONCE cfg)).
  { intros rq Hrq.
    destruct Hguard as (He & Herr & Hcode & Hst);
      [intros Hnil; rewrite Hnil in Hrq; discriminate|].
    split; [exact He|]. split; [|split; [|exact Hst]].
    - destruct error as [e|]; [|auto]. right. f_equal.
      apply nonempty_false. exact Herr.
    - destruct code as [c|]; [|discriminate].
      exists c. split; [reflexivity|]. apply nonempty_true. exact Hcode. }
  destruct Hcases
    as [(Hno & Ht & Hc & [Hn | [[Hn Hx] | (ut & Hx & Hn)]])
       | ((h0 & Hok) & Hc & ut & Hx & Hu & Hn)].
  - rewrite Hn. cbn [length].
    split; [lia|]. split; [auto|].
    split; [intros h Hh; exfalso; exact (Hno h Hh)|].
    split; intros rq Hrq; discriminate.
  - rewrite Hn in Hfirst |- *. cbn [length].
    split; [lia|]. split; [auto|].
    split; [intros h Hh; exfalso; exact (Hno h Hh)|].
    split.
    + intros rq Hrq. split; [|exact (Hfirst rq Hrq)].
      cbn in Hrq. congruence.
    + intros rq Hrq. discriminate.
  - rewrite Hn in Hfirst |- *. cbn [length].
    split; [lia|]. split; [auto|].
    split; [intros h Hh; exfalso; exact (Hno h Hh)|].
    split.
    + intros rq Hrq. split; [|exact (Hfirst rq Hrq)].
      cbn in Hrq. congruence.
    + intros rq Hrq. exists ut. split; [exact Hx|]. cbn in Hrq. congruence.
  - rewrite Hn in Hfirst |- *. cbn [length].
    split; [lia|].
    split; [intros Hno; exfalso; exact (Hno h0 Hok)|].
    split; [intros h _; split; [exact Hc|]; exists ut; auto|].
    split.
    + intros rq Hrq. split; [|exact (Hfirst rq Hrq)].
      cbn in Hrq. congruence.
    + intros rq Hrq. exists ut. split; [exact Hx|]. cbn in Hrq. congruence.
Qed.

Lemma callback_all_or_nothing_witness :
  (∀ h, (oauth_callback settings_demo (Some "abc") (Some "nonce") None None
           (world_authorized upstream_ids clock_7)).1 ≠ Ret (HTMLResponse h))
  ∧ TOKENS (oauth_callback settings_demo (Some "abc") (Some "nonce") None None
              (world_authorized upstream_ids clock_7)).2 = session_demo.
Proof.
  assert (H : ∀ h, (oauth_callback settings_demo (Some "abc") (Some "nonce") None None
                      (world_authorized upstream_ids clock_7)).1
                   ≠ Ret (HTMLResponse h)).
  { intros h. vm_compute. discriminate. }
  split; [exact H|].
  destruct (callback_all_or_nothing settings_demo (Some "abc") (Some "nonce") None None
              (world_authorized upstream_ids clock_7))
    as (_ & _ & _ & _ & Hfail & _).
  exact (proj1 (Hfail H)).
Defined.

(** X4.  With the configuration complete, the callback rejects in this
    order, before any upstream call and without touching the world: a
    reported error is answered with a 400 JSON body that repeats the error
    and its description, whatever the code and the state, a valid state
    included; then a missing or empty code raises the 400 error "Callback
    sem 'code'.", whatever the state. *)
Theorem callback_rejections
    (cfg : settings) (code state error error_description : option string) (w : world) :
  _require_env cfg = Ret tt →
  (∀ e, error = Some e → e ≠ "" →
     ∃ content,
       oauth_callback cfg code state error error_description w
       = (Ret (JSONResponse content 400), w)
       ∧ content !! "error" = Some (JStr e)
       ∧ content !! "description" = Some (opt_json error_description))
  ∧ (error = None ∨ error = Some "" →
     code = None ∨ code = Some "" →
     oauth_callback cfg code state error error_description w
     = (Raise (HTTPException 400 (Message "Callback sem 'code'.")), w)).
Proof.
  intros Henv. rewrite oauth_callback_eq, Henv. split.
  - intros e -> He. apply nonempty_true in He. cbn [opt_truthy]. rewrite He.
    eexists. split; [reflexivity|]. split; reflexivity.
  - intros [-> | ->] [-> | ->]; reflexivity.
Qed.

Lemma callback_rejections_witness :
  _require_env settings_demo = Ret tt
  ∧ http_status (oauth_callback settings_demo (Some "abc") (Some "nonce")
                   (Some "access_denied") None world_offline).1 = Some 400
  ∧ oauth_callback settings_demo None (Some "nonce") None None world_offline
    = (Raise (HTTPException 400 (Message "Callback sem 'code'.")), world_offline).
Proof.
  assert (Henv : _require_env settings_demo = Ret tt) by reflexivity.
  split; [exact Henv|]. split.
  - destruct (callback_rejections settings_demo (Some "abc") (Some "nonce")
                (Some "access_denied") None world_offline Henv) as [Herr _].
    destruct (Herr "access_denied" eq_refl) as (content & E & _); [discriminate|].
    rewrite E. reflexivity.
  - destruct (callback_rejections settings_demo None (Some "nonce") None None
                world_offline Henv) as [_ Hcode].
    apply Hcode; left; reflexivity.
Defined.

(** ** [/login], continued *)

(** X5.  With the configuration complete, [/login] redirects, changing
    nothing, to the dialog with the client id, the effective redirect URI,
    the anti-forgery token as state, the scopes and the response type
    "code".  A callback that brings that state back with a code and no
    error passes the checks: its first upstream call is the token exchange,
    with that code and with the same client id and redirect URI as the
    dialog. *)
Theorem login_then_callback (cfg : settings) (w w' : world) (code : string) :
  _require_env cfg = Ret tt →
  code ≠ "" →
  ∃ url,
    login cfg w = (Ret (RedirectResponse url), w)
    ∧ q_client_id url = META_APP_ID cfg
    ∧ q_redirect_uri url = _get_redirect_uri cfg
    ∧ q_state url = STATE_NONCE cfg
    ∧ q_scope url = META_SCOPES cfg
    ∧ q_response_type url = "code"
    ∧ q_client_id url ≠ ""
    ∧ q_redirect_uri url ≠ ""
    ∧ ∃ params : gmap string json,
        new_calls w' (oauth_callback cfg (Some code) (Some (q_state url)) None None w').2
          !! 0%nat
        = Some (Request "GET" OAuthAccessToken (Some params) None 60)
        ∧ params !! "code" = Some (JStr code)
        ∧ params !! "client_id" = Some (JStr (q_client_id url))
        ∧ params !! "redirect_uri" = Some (JStr (q_redirect_uri url)).
Proof.
  intros Henv Hcode.
  eexists. split; [unfold login; rewrite bind_lift, Henv; reflexivity|].
  cbn [q_client_id q_redirect_uri q_state q_scope q_response_type].
  repeat (split; [reflexivity|]).
  destruct (missing_settings_spec cfg) as (H1 & _ & H3 & _).
  apply require_env_ok in Henv.
  split; [intros H; apply H1 in H; rewrite Henv in H; inversion H|].
  split; [intros H; apply H3 in H; rewrite Henv in H; inversion H|].
  eexists. split.
  - rewrite oauth_callback_eq.
    apply require_env_ok in Henv. rewrite Henv.
    apply nonempty_true in Hcode. cbn [opt_truthy negb]. rewrite Hcode. cbn [negb].
    rewrite bool_decide_eq_true_2 by reflexivity. cbn [negb]. cbv zeta.
    set (ex := exchange_request cfg (opt_json (Some code))).
    assert (H : ∀ w2 l, calls w2 = (calls w' ++ ex :: l)%list →
                        new_calls w' w2 !! 0%nat = Some ex).
    { intros w2 l Hc. rewrite (new_calls_app _ _ _ Hc). reflexivity. }
    destruct (exchange_result _) as [ut| |];
      [|apply (H _ []); reflexivity..].
    destruct (accounts_result _) as [pages| |];
      [|apply (H _ [accounts_request ut]); cbn [snd calls log_call];
        rewrite <- app_assoc; reflexivity..].
    destruct (_pick_first_valid_page pages) as [chosen| |];
      apply (H _ [accounts_request ut]); cbn [snd calls log_call put_TOKENS tick];
      rewrite <- app_assoc; reflexivity.
  - repeat split; by simplify_map_eq.
Qed.

Lemma login_then_callback_witness :
  _require_env settings_demo = Ret tt
  ∧ ∃ url, login settings_demo world_offline = (Ret (RedirectResponse url), world_offline)
           ∧ q_state url = "nonce".
Proof.
  assert (Henv : _require_env settings_demo = Ret tt) by reflexivity.
  split; [exact Henv|].
  destruct (login_then_callback settings_demo world_offline world_offline "abc" Henv)
    as (url & Hl & _ & _ & Hs & _); [discriminate|].
  exists url. split; [exact Hl | exact Hs].
Defined.

(** ** Page selection, continued *)

Lemma page_ok_sound p b : page_ok p = Ret b → qualifies p = b.
Proof.
  unfold page_ok, qualifies, linked_account_id, page_token.
  destruct p as [| | | | |o]; try discriminate.
  rewrite py_get_obj. cbn [res_bind].
  assert (Hl : match o !! "instagram_business_account" with
               | Some (JObj a) => dict_get "id" a
               | _ => JNull
               end
               = match dict_get "instagram_business_account" o with
                 | JObj a => dict_get "id" a
                 | _ => JNull
                 end).
  { unfold dict_get at 2.
    destruct (o !! "instagram_business_account") as [[| | | | |a]|]; reflexivity. }
  rewrite Hl. clear Hl.
  destruct (dict_get "instagram_business_account" o) as [|b0|n|s|l|a] eqn:Hacct;
    unfold py_or;
    try (cbn [truthy py_get res_bind]; unfold dict_get at 1; rewrite lookup_empty;
         cbn [default from_option truthy]; intros [= <-]; reflexivity).
  - destruct (truthy (JBool b0)); cbn [py_get res_bind]; [discriminate|].
    unfold dict_get at 1. rewrite lookup_empty. intros [= <-]. reflexivity.
  - destruct (truthy (JNum n)); cbn [py_get res_bind]; [discriminate|].
    unfold dict_get at 1. rewrite lookup_empty. intros [= <-]. reflexivity.
  - destruct (truthy (JStr s)); cbn [py_get res_bind]; [discriminate|].
    unfold dict_get at 1. rewrite lookup_empty. intros [= <-]. reflexivity.
  - destruct (truthy (JArr l)); cbn [py_get res_bind]; [discriminate|].
    unfold dict_get at 1. rewrite lookup_empty. intros [= <-]. reflexivity.
  - destruct (truthy (JObj a)) eqn:Ht; cbn [py_get res_bind].
    + destruct (truthy (dict_get "id" a)); intros [= <-]; reflexivity.
    + apply truthy_obj_false in Ht. subst a. unfold dict_get at 1 2.
      rewrite lookup_empty. intros [= <-]. reflexivity.
Qed.

Lemma page_ok_raise p e : page_ok p = Raise e → e = AttributeError.
Proof.
  unfold page_ok.
  destruct (py_get_cases "instagram_business_account" p) as [(o & -> & Hg) | Hg];
    rewrite Hg; cbn [res_bind]; [|congruence].
  destruct (py_get_cases "id" (py_or (dict_get "instagram_business_account" o) (JObj ∅)))
    as [(a & Ha & Hg') | Hg']; rewrite Hg'; cbn [res_bind]; [|congruence].
  destruct (truthy (dict_get "id" a)); [|discriminate].
  rewrite py_get_obj. discriminate.
Qed.

Lemma page_ok_never_out_of_fuel p : page_ok p ≠ OutOfFuel.
Proof.
  unfold page_ok.
  destruct (py_get_cases "instagram_business_account" p) as [(o & -> & Hg) | Hg];
    rewrite Hg; cbn [res_bind]; [|discriminate].
  destruct (py_get_cases "id" (py_or (dict_get "instagram_business_account" o) (JObj ∅)))
    as [(a & Ha & Hg') | Hg']; rewrite Hg'; cbn [res_bind]; [|discriminate].
  destruct (truthy (dict_get "id" a)); [|discriminate].
  rewrite py_get_obj. discriminate.
Qed.

Lemma pick_loop_sound pages :
  match pick_loop pages with
  | Ret p =>
      ∃ pre post, pages = (pre ++ p :: post)%list
                  ∧ qualifies p = true
                  ∧ Forall (λ q, qualifies q = false) pre
  | Raise (HTTPException st d) =>
      st = 400%Z ∧ d = Message msg_no_valid_page
      ∧ Forall (λ q, qualifies q = false) pages
  | Raise e =>
      e = AttributeError
      ∧ ∃ pre q post, pages = (pre ++ q :: post)%list
                      ∧ Forall (λ q, qualifies q = false) pre
                      ∧ page_ok q = Raise AttributeError
  | OutOfFuel => False
  end.
Proof.
  induction pages as [|q pages IH]; [cbn; auto|].
  cbn [pick_loop]. destruct (page_ok q) as [b|e|] eqn:Hq; cbn [res_bind].
  - apply page_ok_sound in Hq. destruct b.
    + exists [], pages. auto.
    + destruct (pick_loop pages) as [p|[st d| | |]|].
      * destruct IH as (pre & post & -> & Hp & Hpre).
        exists (q :: pre), post. auto.
      * destruct IH as (-> & -> & Hall). auto.
      * destruct IH as (_ & pre & q' & post & -> & Hpre & Hq').
        split; [reflexivity|]. exists (q :: pre), q', post. auto.
      * destruct IH as [IH _]. discriminate IH.
      * destruct IH as [IH _]. discriminate IH.
      * exact IH.
  - pose proof (page_ok_raise _ _ Hq) as ->.
    split; [reflexivity|]. exists [], q, pages. auto.
  - exfalso. exact (page_ok_never_out_of_fuel _ Hq).
Qed.

(** X6.  Whatever the entries of the list, a page that
    [_pick_first_valid_page] returns is an entry of the list that has both
    a non-empty linked account id and a non-empty token, and no entry
    before it has both.  The 400 error means that no entry has both.  The
    only other outcome is the [AttributeError] of an entry, reached before
    any qualifying one, that is not a dict or whose linked account is
    neither empty nor a dict. *)
Theorem pick_first_valid_page_sound (pages : list json) :
  (∀ p, _pick_first_valid_page (JArr pages) = Ret p →
     ∃ pre post, pages = (pre ++ p :: post)%list
                 ∧ qualifies p = true
                 ∧ Forall (λ q, qualifies q = false) pre)
  ∧ (∀ st d, _pick_first_valid_page (JArr pages) = Raise (HTTPException st d) →
       st = 400%Z ∧ d = Message msg_no_valid_page
       ∧ Forall (λ q, qualifies q = false) pages)
  ∧ (_pick_first_valid_page (JArr pages) = Raise AttributeError
     ∨ (∃ p, _pick_first_valid_page (JArr pages) = Ret p)
     ∨ _pick_first_valid_page (JArr pages)
       = Raise (HTTPException 400 (Message msg_no_valid_page)))
  ∧ (_pick_first_valid_page (JArr pages) = Raise AttributeError →
     ∃ pre q post, pages = (pre ++ q :: post)%list
                   ∧ Forall (λ q, qualifies q = false) pre
                   ∧ ¬ is_page q).
Proof.
  unfold _pick_first_valid_page. cbn [py_iter res_bind].
  pose proof (pick_loop_sound pages) as H.
  destruct (pick_loop pages) as [p|[st d| | |]|].
  - split; [intros p' [= <-]; exact H|]. split; [discriminate|].
    split; [eauto|discriminate].
  - destruct H as (-> & -> & Hall).
    split; [discriminate|]. split; [intros st d [= <- <-]; auto|].
    split; [auto|discriminate].
  - destruct H as (_ & pre & q & post & -> & Hpre & Hq).
    split; [discriminate|]. split; [discriminate|]. split; [auto|].
    intros _. exists pre, q, post. split; [reflexivity|]. split; [exact Hpre|].
    intros Hpage. rewrite (page_ok_page q Hpage) in Hq. discriminate.
  - destruct H as [H _]. discriminate H.
  - destruct H as [H _]. discriminate H.
  - contradiction.
Qed.

Lemma pick_first_valid_page_sound_witness :
  _pick_first_valid_page (JArr [page_unlinked; JStr "x"; page_linked])
  = Raise AttributeError
  ∧ ∃ pre q post,
      [page_unlinked; JStr "x"; page_linked] = (pre ++ q :: post)%list
      ∧ Forall (λ q, qualifies q = false) pre
      ∧ ¬ is_page q.
Proof.
  assert (H : _pick_first_valid_page (JArr [page_unlinked; JStr "x"; page_linked])
              = Raise AttributeError) by reflexivity.
  split; [exact H|].
  destruct (pick_first_valid_page_sound [page_unlinked; JStr "x"; page_linked])
    as (_ & _ & _ & Herr).
  exact (Herr H).
Defined.

(** ** The polling loop, continued *)

Lemma replicate_snoc {A} (n : nat) (x : A) :
  (replicate n x ++ [x])%list = replicate (S n) x.
Proof.
  change [x] with (replicate 1 x). rewrite <- replicate_add.
  f_equal. lia.
Qed.

(** The shape of every run of the loop: [k] identical polls, a sleep of
    [poll_sec] after each poll but the last, and at most one clock reading
    per poll. *)
Lemma wait_loop_shape fuel url params t0 timeout_sec poll_sec :
  ∀ w,
    let r := wait_loop fuel url params t0 timeout_sec poll_sec w in
    let rq := Request "GET" url (Some params) None 60 in
    ∃ k,
      (k ≤ fuel)%nat
      ∧ calls r.2 = (calls w ++ replicate k rq)%list
      ∧ (r.1 = OutOfFuel →
           k = fuel
           ∧ sleeps r.2 = (sleeps w ++ replicate k poll_sec)%list
           ∧ clock_reads r.2 = (clock_reads w + k)%nat)
      ∧ (r.1 ≠ OutOfFuel →
           (1 ≤ k)%nat
           ∧ sleeps r.2 = (sleeps w ++ replicate (k - 1) poll_sec)%list
           ∧ (clock_reads w + (k - 1) ≤ clock_reads r.2 ≤ clock_reads w + k)%nat).
Proof.
  induction fuel as [|fuel IH]; intros w r rq.
  - exists 0%nat. subst r. cbn. rewrite !app_nil_r.
    split; [lia|]. split; [reflexivity|].
    split; [intros _; split; [reflexivity|]; split; [reflexivity | lia]|].
    intros H. contradiction.
  - subst r. rewrite wait_loop_unfold. cbv zeta. fold rq.
    assert (Hone : ∀ (x : res unit) (w1 : world),
               x ≠ OutOfFuel →
               calls w1 = (calls w ++ [rq])%list →
               sleeps w1 = sleeps w →
               (clock_reads w ≤ clock_reads w1 ≤ clock_reads w + 1)%nat →
               ∃ k,
                 (k ≤ S fuel)%nat
                 ∧ calls (x, w1).2 = (calls w ++ replicate k rq)%list
                 ∧ ((x, w1).1 = OutOfFuel →
                      k = S fuel
                      ∧ sleeps (x, w1).2 = (sleeps w ++ replicate k poll_sec)%list
                      ∧ clock_reads (x, w1).2 = (clock_reads w + k)%nat)
                 ∧ ((x, w1).1 ≠ OutOfFuel →
                      (1 ≤ k)%nat
                      ∧ sleeps (x, w1).2
                        = (sleeps w ++ replicate (k - 1) poll_sec)%list
                      ∧ (clock_reads w + (k - 1) ≤ clock_reads (x, w1).2
                         ≤ clock_reads w + k)%nat)).
    { intros x w1 Hx Hc Hs Hr. exists 1%nat. cbn [fst snd].
      split; [lia|]. split; [exact Hc|].
      split; [intros H; contradiction|].
      intros _. split; [lia|]. cbn. rewrite app_nil_r. split; [exact Hs | lia]. }
    destruct (answer url (upstream w (length (calls w)))) as [js|e|] eqn:Ha.
    + destruct (py_get "status_code" js) as [sc|e|] eqn:Hg.
      * destruct (eq_str sc "FINISHED");
          [apply Hone; [discriminate | reflexivity | reflexivity | cbn; lia]|].
        destruct (eq_str sc "ERROR" || eq_str sc "EXPIRED");
          [apply Hone; [discriminate | reflexivity | reflexivity | cbn; lia]|].
        destruct (Qgtb _ _);
          [apply Hone; [discriminate | reflexivity | reflexivity | cbn; lia]|].
        destruct (IH (log_sleep poll_sec (tick (log_call rq w))))
          as (k & Hk & Hc & Hout & Hend).
        exists (S k). split; [lia|]. split.
        { rewrite Hc. cbn [calls log_sleep tick log_call].
          rewrite <- app_assoc. reflexivity. }
        split.
        { intros Ho. destruct (Hout Ho) as (-> & Hs & Hr).
          split; [reflexivity|]. split.
          - rewrite Hs. cbn [sleeps log_sleep tick log_call].
            rewrite <- app_assoc. reflexivity.
          - rewrite Hr. cbn [clock_reads log_sleep tick log_call]. lia. }
        { intros Hn. destruct (Hend Hn) as (H1 & Hs & Hr).
          split; [lia|]. split.
          - rewrite Hs. cbn [sleeps log_sleep tick log_call].
            rewrite <- app_assoc. f_equal.
            replace (S k - 1)%nat with (S (k - 1)) by lia. reflexivity.
          - cbn [clock_reads log_sleep tick log_call] in Hr. lia. }
      * apply Hone; [discriminate | reflexivity | reflexivity | cbn; lia].
      * destruct js; discriminate Hg.
    + apply Hone; [discriminate | reflexivity | reflexivity | cbn; lia].
    + exfalso. eapply answer_never_out_of_fuel; eassumption.
Qed.

(** X7.  Every run of [_wait_container], whatever the replies, the clock,
    the timeout and the interval: it makes [k] polls, all of them the same
    GET of the container URL asking for "status_code,status" with the page
    token, never more than the fuel allows and at least one when the run
    ends; it sleeps the poll interval after every poll but the last one,
    and never any other duration; it leaves the session alone. *)
Theorem wait_container_shape
    (fuel : nat) (container_id page_token : json) (timeout_sec poll_sec : Z)
    (w : world) :
  let r := _wait_container fuel container_id page_token timeout_sec poll_sec w in
  TOKENS r.2 = TOKENS w
  ∧ upstream r.2 = upstream w
  ∧ wall_clock r.2 = wall_clock w
  ∧ ∃ k,
      (k ≤ fuel)%nat
      ∧ calls r.2 = (calls w ++ replicate k (poll_request container_id page_token))%list
      ∧ (r.1 = OutOfFuel →
           k = fuel ∧ sleeps r.2 = (sleeps w ++ replicate k poll_sec)%list)
      ∧ (r.1 ≠ OutOfFuel →
           (1 ≤ k)%nat
           ∧ sleeps r.2 = (sleeps w ++ replicate (k - 1) poll_sec)%list
           ∧ (clock_reads r.2 ≤ clock_reads w + 1 + k)%nat).
Proof.
  intros r.
  destruct (wait_container_only_polls fuel container_id page_token
              timeout_sec poll_sec w) as ((Hup & Hclk & Ht) & _).
  fold r in Hup, Hclk, Ht.
  split; [exact Ht|]. split; [exact Hup|]. split; [exact Hclk|].
  subst r. rewrite _wait_container_eq.
  destruct (wait_loop_shape fuel (Container container_id)
              {[ "fields" := JStr "status_code,status";
                 "access_token" := page_token ]}
              (wall_clock w (clock_reads w)) timeout_sec poll_sec (tick w))
    as (k & Hk & Hc & Hout & Hend).
  exists k. split; [exact Hk|]. split; [exact Hc|]. split.
  - intros Ho. destruct (Hout Ho) as (-> & Hs & _). auto.
  - intros Hn. destruct (Hend Hn) as (H1 & Hs & Hr).
    split; [exact H1|]. split; [exact Hs|].
    cbn [clock_reads tick] in Hr. lia.
Qed.

Lemma wait_container_shape_witness :
  (_wait_container 5 (JStr "c1") (JStr "P1") 1200 5
     (world_authorized upstream_error_after_one clock_7)).1 ≠ OutOfFuel
  ∧ ∃ k, (1 ≤ k ≤ 5)%nat
         ∧ sleeps (_wait_container 5 (JStr "c1") (JStr "P1") 1200 5
                     (world_authorized upstream_error_after_one clock_7)).2
           = replicate (k - 1) 5%Z.
Proof.
  assert (H : (_wait_container 5 (JStr "c1") (JStr "P1") 1200 5
                 (world_authorized upstream_error_after_one clock_7)).1 ≠ OutOfFuel)
    by (vm_compute; discriminate).
  split; [exact H|].
  destruct (wait_container_shape 5 (JStr "c1") (JStr "P1") 1200 5
              (world_authorized upstream_error_after_one clock_7))
    as (_ & _ & _ & k & Hk & _ & _ & Hend).
  destruct (Hend H) as (H1 & Hs & _).
  exists k. split; [lia | exact Hs].
Defined.

(** The wait up to poll [n]: after [n] polls that see a non-terminal
    status within the time bound, the loop is where it started, [n] polls
    and [n] sleeps later. *)
Lemma wait_container_skip fuel n cid tok timeout_sec poll_sec w :
  (n ≤ fuel)%nat →
  (∀ k, (k < n)%nat →
     ∃ sck, polled (upstream w (length (calls w) + k)) sck
            ∧ nonterminal sck
            ∧ (wall_clock w (clock_reads w + 1 + k) - wall_clock w (clock_reads w)
               <= inject_Z timeout_sec)%Q) →
  _wait_container fuel cid tok timeout_sec poll_sec w
  = wait_loop (fuel - n) (Container cid)
      {[ "fields" := JStr "status_code,status"; "access_token" := tok ]}
      (wall_clock w (clock_reads w)) timeout_sec poll_sec
      (Nat.iter n (pass (poll_request cid tok) poll_sec) (tick w)).
Proof.
  intros Hn Hpend. rewrite _wait_container_eq.
  apply wait_loop_skip; [exact Hn|].
  intros k Hk. destruct (Hpend k Hk) as (sck & Hp & Hnt & Ht).
  exists sck. cbn [upstream calls clock_reads wall_clock tick].
  replace (S (clock_reads w) + k)%nat with (clock_reads w + 1 + k)%nat by lia.
  auto.
Qed.

(** X8.  A poll that fails ends the wait at once, with the failure of
    that poll.  After [n] polls that see a non-terminal status within the
    time bound: if the upstream does not answer poll [n], the wait raises
    the exception of the HTTP client; if it answers with a status of 400
    or more, the wait raises the 400 error that carries the container URL
    and the body; if it answers with a success whose body is JSON but not
    an object, the wait raises AttributeError.  In each case the run made
    [n + 1] polls and slept after the first [n] only.  The wait is the one
    of the service, with the default interval of 5 seconds between polls,
    and any timeout. *)
Theorem wait_container_poll_fails
    (fuel n : nat) (container_id page_token : json) (timeout_sec : Z) (w : world) :
  let t0 := wall_clock w (clock_reads w) in
  let r := _wait_container fuel container_id page_token timeout_sec
             default_poll_sec w in
  let reply := upstream w (length (calls w) + n) in
  let stopped :=
    calls r.2 = (calls w ++ replicate (S n) (poll_request container_id page_token))%list
    ∧ sleeps r.2 = (sleeps w ++ replicate n default_poll_sec)%list in
  (n < fuel)%nat →
  (∀ k, (k < n)%nat →
     ∃ sck, polled (upstream w (length (calls w) + k)) sck
            ∧ nonterminal sck
            ∧ (wall_clock w (clock_reads w + 1 + k) - t0 <= inject_Z timeout_sec)%Q) →
  (reply = NoResponse → r.1 = Raise RequestException ∧ stopped)
  ∧ (∀ st body, reply = Response st body → (400 ≤ st)%Z →
       r.1 = Raise (HTTPException 400
                      (UrlResp (Container container_id) (body_json body)))
       ∧ stopped)
  ∧ (∀ st body, reply = Response st body → (st < 400)%Z →
       (∀ o, body_json body ≠ JObj o) →
       r.1 = Raise AttributeError ∧ stopped).
Proof.
  intros t0 r reply stopped Hfuel Hpend.
  set (poll_sec := default_poll_sec) in *.
  set (rq := poll_request container_id page_token).
  set (wn := Nat.iter n (pass rq poll_sec) (tick w)).
  assert (Hr : r = wait_loop (fuel - n) (Container container_id)
                     {[ "fields" := JStr "status_code,status";
                        "access_token" := page_token ]}
                     t0 timeout_sec poll_sec wn)
    by (apply wait_container_skip; [lia | exact Hpend]).
  assert (Hfr : frame (tick w) wn) by apply iter_pass_frame.
  assert (Hlen : length (calls wn) = (length (calls w) + n)%nat)
    by (subst wn; rewrite iter_pass_length; reflexivity).
  assert (Hcalls : calls (log_call rq wn) = (calls w ++ replicate (S n) rq)%list).
  { subst wn. cbn [calls log_call]. rewrite iter_pass_calls. cbn [calls tick].
    rewrite <- app_assoc, replicate_snoc. reflexivity. }
  assert (Hsleeps : sleeps (log_call rq wn) = (sleeps w ++ replicate n poll_sec)%list)
    by (subst wn; cbn [sleeps log_call]; rewrite iter_pass_sleeps; reflexivity).
  replace (fuel - n)%nat with (S (fuel - S n)) in Hr by lia.
  rewrite wait_loop_unfold in Hr. cbv zeta in Hr.
  destruct Hfr as (Hup & _ & _). rewrite Hup, Hlen in Hr.
  cbn [upstream tick] in Hr. fold reply in Hr.
  change (Request "GET" (Container container_id)
            (Some {[ "fields" := JStr "status_code,status";
                     "access_token" := page_token ]}) None 60) with rq in Hr.
  subst stopped. split; [|split].
  - intros Hrep. rewrite Hrep in Hr. cbn [answer] in Hr.
    rewrite Hr. cbn [fst snd]. auto.
  - intros st body Hrep Hst. rewrite Hrep in Hr. cbn [answer] in Hr.
    apply Z.leb_le in Hst. rewrite Hst in Hr.
    rewrite Hr. cbn [fst snd]. auto.
  - intros st body Hrep Hst Hobj. rewrite Hrep in Hr. cbn [answer] in Hr.
    apply Z.leb_gt in Hst. rewrite Hst in Hr.
    destruct (body_json body) as [| | | | |o] eqn:Hb;
      [| | | | |exfalso; exact (Hobj o eq_refl)];
      cbn [py_get] in Hr; rewrite Hr; cbn [fst snd]; auto.
Qed.

Lemma wait_container_poll_fails_witness :
  (_wait_container 5 (JStr "c1") (JStr "P1") 1200 5
     (world_authorized upstream_drop_after_one clock_7)).1
  = Raise RequestException
  ∧ calls (_wait_container 5 (JStr "c1") (JStr "P1") 1200 5
             (world_authorized upstream_drop_after_one clock_7)).2
    = replicate 2 (poll_request (JStr "c1") (JStr "P1"))
  ∧ sleeps (_wait_container 5 (JStr "c1") (JStr "P1") 1200 5
              (world_authorized upstream_drop_after_one clock_7)).2
    = [5%Z].
Proof.
  assert (Hfuel : (1 < 5)%nat) by lia.
  assert (Hpend : ∀ k, (k < 1)%nat →
            ∃ sck,
              polled (upstream (world_authorized upstream_drop_after_one clock_7)
                        (length (calls (world_authorized upstream_drop_after_one
                                          clock_7)) + k)) sck
              ∧ nonterminal sck
              ∧ (wall_clock (world_authorized upstream_drop_after_one clock_7)
                   (clock_reads (world_authorized upstream_drop_after_one clock_7)
                    + 1 + k)
                 - wall_clock (world_authorized upstream_drop_after_one clock_7)
                     (clock_reads (world_authorized upstream_drop_after_one clock_7))
                 <= inject_Z 1200)%Q).
  { intros k Hk. assert (k = 0%nat) as -> by lia.
    exists (JStr "IN_PROGRESS"). split; [|split].
    - eexists 200%Z, _, _. split; [reflexivity|]. split; [lia|].
      split; reflexivity.
    - repeat split; discriminate.
    - vm_compute. discriminate. }
  destruct (wait_container_poll_fails 5 1 (JStr "c1") (JStr "P1") 1200
              (world_authorized upstream_drop_after_one clock_7) Hfuel Hpend)
    as (Hno & _ & _).
  destruct (Hno eq_refl) as (Hr & Hc & Hs).
  split; [exact Hr|]. split; [exact Hc | exact Hs].
Defined.

(** Once the clock has passed the deadline at the reading that follows
    poll [n], the loop has ended by then. *)
Lemma wait_loop_deadline url params t0 timeout_sec poll_sec :
  ∀ n fuel w,
    (n < fuel)%nat →
    Qgtb (wall_clock w (clock_reads w + n) - t0) (inject_Z timeout_sec) = true →
    (wait_loop fuel url params t0 timeout_sec poll_sec w).1 ≠ OutOfFuel
    ∧ (length (calls (wait_loop fuel url params t0 timeout_sec poll_sec w).2)
       ≤ length (calls w) + S n)%nat.
Proof.
  induction n as [|n IH]; intros fuel w Hfuel Hlate;
    (destruct fuel as [|fuel]; [lia|]);
    rewrite wait_loop_unfold; cbv zeta;
    (assert (Hone : ∀ (x : res unit) m,
               x ≠ OutOfFuel →
               (x, log_call (Request "GET" url (Some params) None 60) w).1 ≠ OutOfFuel
               ∧ (length (calls (x, log_call (Request "GET" url (Some params) None 60)
                                    w).2)
                  ≤ length (calls w) + S m)%nat)
       by (intros x m Hx; split; [exact Hx|];
           cbn [snd calls log_call]; rewrite length_app; cbn [length]; lia));
    (assert (Htick : ∀ (x : res unit) m,
               x ≠ OutOfFuel →
               (x, tick (log_call (Request "GET" url (Some params) None 60) w)).1
               ≠ OutOfFuel
               ∧ (length (calls (x, tick (log_call (Request "GET" url (Some params)
                                                      None 60) w)).2)
                  ≤ length (calls w) + S m)%nat)
       by (intros x m Hx; split; [exact Hx|];
           cbn [snd calls log_call tick]; rewrite length_app; cbn [length]; lia));
    (destruct (answer url (upstream w (length (calls w)))) as [js|e|] eqn:Ha;
     [|apply Hone; discriminate
      |exfalso; eapply answer_never_out_of_fuel; eassumption]);
    (destruct (py_get "status_code" js) as [sc|e|] eqn:Hg;
     [|apply Hone; discriminate | destruct js; discriminate Hg]);
    (destruct (eq_str sc "FINISHED"); [apply Hone; discriminate|]);
    (destruct (eq_str sc "ERROR" || eq_str sc "EXPIRED");
     [apply Hone; discriminate|]).
  - replace (clock_reads w + 0)%nat with (clock_reads w) in Hlate by lia.
    rewrite Hlate. apply Htick. discriminate.
  - destruct (Qgtb (wall_clock w (clock_reads w) - t0) (inject_Z timeout_sec));
      [apply Htick; discriminate|].
    set (w1 := log_sleep poll_sec
                 (tick (log_call (Request "GET" url (Some params) None 60) w))).
    destruct (IH fuel w1) as (Hne & Hlen); [lia | |].
    + subst w1. cbn [wall_clock clock_reads log_sleep tick log_call].
      replace (S (clock_reads w) + n)%nat with (clock_reads w + S n)%nat by lia.
      exact Hlate.
    + split; [exact Hne|].
      subst w1. cbn [calls log_sleep tick log_call] in Hlen.
      rewrite length_app in Hlen. cbn [length] in Hlen. lia.
Qed.

(** With readings that advance by at least the poll interval from one to
    the next, reading [n] is at least [n] intervals past the first. *)
Lemma clock_advances (clk : nat → Q) (c : nat) (step : Q) :
  (∀ k, clk (c + k)%nat + step <= clk (c + S k)%nat)%Q →
  ∀ n, (clk c + inject_Z (Z.of_nat n) * step <= clk (c + n)%nat)%Q.
Proof.
  intros Hadv n. induction n as [|n IH].
  - replace (c + 0)%nat with c by lia.
    change (inject_Z (Z.of_nat 0)) with 0%Q. lra.
  - specialize (Hadv n).
    rewrite Nat2Z.inj_succ. unfold Z.succ. rewrite inject_Z_plus.
    change (inject_Z 1) with 1%Q. lra.
Qed.

(** X9.  The wait ends.  If the clock reading that follows poll [n] is
    more than the timeout past the start, then with fuel for more than
    [n] polls the wait ends, by a return or an exception, after at most
    [n + 1] polls.  In particular, when the clock does not go back while
    the first poll is made and advances by at least the poll interval
    between one reading and the next (the sleep lies between them), and
    [n] intervals exceed the timeout, the wait makes at most [n + 1]
    polls: at most 242 with the defaults. *)
Theorem wait_container_ends
    (fuel n : nat) (container_id page_token : json) (timeout_sec poll_sec : Z)
    (w : world) :
  let t0 := wall_clock w (clock_reads w) in
  let r := _wait_container fuel container_id page_token timeout_sec poll_sec w in
  let ended :=
    r.1 ≠ OutOfFuel
    ∧ ∃ k, (1 ≤ k ≤ S n)%nat
           ∧ calls r.2
             = (calls w ++ replicate k (poll_request container_id page_token))%list
           ∧ sleeps r.2 = (sleeps w ++ replicate (k - 1) poll_sec)%list in
  (n < fuel)%nat →
  ((inject_Z timeout_sec < wall_clock w (clock_reads w + 1 + n) - t0)%Q → ended)
  ∧ ((t0 <= wall_clock w (clock_reads w + 1))%Q →
     (∀ k, wall_clock w (clock_reads w + 1 + k) + inject_Z poll_sec
           <= wall_clock w (clock_reads w + 1 + S k))%Q →
     (timeout_sec < Z.of_nat n * poll_sec)%Z →
     ended)
  ∧ (default_timeout_sec < 241 * default_poll_sec)%Z.
Proof.
  intros t0 r ended Hfuel.
  assert (Hfirst : (inject_Z timeout_sec
                    < wall_clock w (clock_reads w + 1 + n) - t0)%Q → ended).
  { intros Hlate. subst ended.
    destruct (wait_loop_deadline (Container container_id)
                {[ "fields" := JStr "status_code,status";
                   "access_token" := page_token ]}
                t0 timeout_sec poll_sec n fuel (tick w) Hfuel) as (Hne & Hlen).
    { apply Qgtb_true. cbn [wall_clock clock_reads tick].
      replace (S (clock_reads w) + n)%nat with (clock_reads w + 1 + n)%nat by lia.
      exact Hlate. }
    destruct (wait_loop_shape fuel (Container container_id)
                {[ "fields" := JStr "status_code,status";
                   "access_token" := page_token ]}
                t0 timeout_sec poll_sec (tick w)) as (k & _ & Hc & _ & Hend).
    change (wait_loop fuel (Container container_id)
              {[ "fields" := JStr "status_code,status";
                 "access_token" := page_token ]}
              t0 timeout_sec poll_sec (tick w)) with r in Hne, Hlen, Hc, Hend.
    split; [exact Hne|].
    destruct (Hend Hne) as (H1 & Hs & _).
    exists k. split; [|split; [exact Hc | exact Hs]].
    split; [exact H1|].
    rewrite Hc, length_app, length_replicate in Hlen.
    cbn [calls tick] in Hlen. lia. }
  split; [exact Hfirst|]. split; [|reflexivity].
  intros H0 Hadv Hn. apply Hfirst.
  pose proof (clock_advances (wall_clock w) (clock_reads w + 1) (inject_Z poll_sec))
    as Hclk.
  assert (Hadv' : ∀ k, (wall_clock w (clock_reads w + 1 + k) + inject_Z poll_sec
                        <= wall_clock w (clock_reads w + 1 + S k))%Q)
    by exact Hadv.
  specialize (Hclk Hadv' n).
  rewrite Zlt_Qlt, inject_Z_mult in Hn.
  subst t0. lra.
Qed.

Lemma wait_container_ends_witness :
  (_wait_container 200 (JStr "c1") (JStr "P1") 1200 5
     (world_authorized upstream_drop_after_one clock_7)).1 ≠ OutOfFuel.
Proof.
  assert (Hfuel : (171 < 200)%nat) by lia.
  destruct (wait_container_ends 200 171 (JStr "c1") (JStr "P1") 1200 5
              (world_authorized upstream_drop_after_one clock_7) Hfuel)
    as (Hlate & _ & _).
  apply Hlate. vm_compute. reflexivity.
Defined.

(** ** The processing wait, read backwards *)

Lemma polled_of_answer url r js sc :
  answer url r = Ret js → py_get "status_code" js = Ret sc → polled r sc.
Proof.
  destruct r as [|st body]; cbn [answer]; [discriminate|].
  destruct (400 <=? st)%Z eqn:Hst; [discriminate|].
  intros [= <-] Hg. apply Z.leb_gt in Hst.
  destruct (body_json body) as [| | | | |o] eqn:Hb; try discriminate Hg.
  cbn [py_get] in Hg. injection Hg as <-.
  exists st, body, o. auto.
Qed.

(** Every run of the loop that ends is a run of [n] polls that saw a
    non-terminal status within the time bound, followed by one that ended
    it. *)
Lemma wait_loop_trace fuel url params t0 timeout_sec poll_sec :
  ∀ w,
    let r := wait_loop fuel url params t0 timeout_sec poll_sec w in
    let rq := Request "GET" url (Some params) None 60 in
    r.1 ≠ OutOfFuel →
    ∃ n,
      (n < fuel)%nat
      ∧ (∀ k, (k < n)%nat →
           ∃ sc, polled (upstream w (length (calls w) + k)) sc
                 ∧ nonterminal sc
                 ∧ (wall_clock w (clock_reads w + k) - t0 <= inject_Z timeout_sec)%Q)
      ∧ calls r.2 = (calls w ++ replicate (S n) rq)%list
      ∧ sleeps r.2 = (sleeps w ++ replicate n poll_sec)%list
      ∧ ends_wait url t0 timeout_sec (upstream w (length (calls w) + n))
          (wall_clock w (clock_reads w + n)) r.1.
Proof.
  induction fuel as [|fuel IH]; intros w r rq; [intros H; contradiction|].
  subst r. rewrite wait_loop_unfold. cbv zeta. fold rq.
  assert (Hone : ∀ (x : res unit) (w1 : world),
             calls w1 = (calls w ++ [rq])%list →
             sleeps w1 = sleeps w →
             ends_wait url t0 timeout_sec (upstream w (length (calls w)))
               (wall_clock w (clock_reads w)) x →
             ∃ n,
               (n < S fuel)%nat
               ∧ (∀ k, (k < n)%nat →
                    ∃ sc, polled (upstream w (length (calls w) + k)) sc
                          ∧ nonterminal sc
                          ∧ (wall_clock w (clock_reads w + k) - t0
                             <= inject_Z timeout_sec)%Q)
               ∧ calls (x, w1).2 = (calls w ++ replicate (S n) rq)%list
               ∧ sleeps (x, w1).2 = (sleeps w ++ replicate n poll_sec)%list
               ∧ ends_wait url t0 timeout_sec (upstream w (length (calls w) + n))
                   (wall_clock w (clock_reads w + n)) (x, w1).1).
  { intros x w1 Hc Hs He. exists 0%nat.
    split; [lia|]. split; [intros k Hk; lia|].
    cbn [fst snd replicate]. rewrite app_nil_r, !Nat.add_0_r. auto. }
  destruct (answer url (upstream w (length (calls w)))) as [js|e|] eqn:Ha.
  - destruct (py_get "status_code" js) as [sc|e|] eqn:Hg.
    + pose proof (polled_of_answer _ _ _ _ Ha Hg) as Hp.
      destruct (eq_str sc "FINISHED") eqn:Hfin.
      { intros _. apply Hone; [reflexivity | reflexivity|].
        left. apply eq_str_true in Hfin. subst sc. auto. }
      destruct (eq_str sc "ERROR" || eq_str sc "EXPIRED") eqn:Herr.
      { intros _. apply Hone; [reflexivity | reflexivity|].
        right. left. exists js, sc. split; [reflexivity|].
        split; [exact Ha|]. split; [exact Hp|].
        apply orb_true_iff in Herr. rewrite !eq_str_true in Herr. exact Herr. }
      assert (Hnt : nonterminal sc).
      { apply orb_false_iff in Herr. destruct Herr as [He1 He2].
        apply eq_str_false in Hfin, He1, He2. repeat split; assumption. }
      destruct (Qgtb (wall_clock w (clock_reads w) - t0) (inject_Z timeout_sec))
        eqn:Hlate.
      { intros _. apply Hone; [reflexivity | reflexivity|].
        right. right. left. split; [reflexivity|].
        exists sc. apply Qgtb_true in Hlate. auto. }
      apply Qgtb_false in Hlate.
      set (w1 := log_sleep poll_sec (tick (log_call rq w))).
      intros Hne. destruct (IH w1 Hne) as (n & Hn & Hpend & Hc & Hs & He).
      assert (Hi : ∀ k, (length (calls w1) + k = length (calls w) + S k)%nat).
      { intros k. subst w1. cbn [calls log_sleep tick log_call].
        rewrite length_app. cbn [length]. lia. }
      assert (Hj : ∀ k, (clock_reads w1 + k = clock_reads w + S k)%nat).
      { intros k. subst w1. cbn [clock_reads log_sleep tick log_call]. lia. }
      change (upstream w1) with (upstream w) in Hpend, He.
      change (wall_clock w1) with (wall_clock w) in Hpend, He.
      exists (S n). split; [lia|]. split; [|split; [|split]].
      * intros [|k] Hk.
        { exists sc. rewrite !Nat.add_0_r. auto. }
        destruct (Hpend k) as (sck & H1 & H2 & H3); [lia|].
        rewrite Hi in H1. rewrite Hj in H3. eauto.
      * rewrite Hc. subst w1. cbn [calls log_sleep tick log_call].
        rewrite <- app_assoc. reflexivity.
      * rewrite Hs. subst w1. cbn [sleeps log_sleep tick log_call].
        rewrite <- app_assoc. reflexivity.
      * rewrite Hi, Hj in He. exact He.
    + intros _. apply Hone; [reflexivity | reflexivity|].
      right. right. right. exists e. split; [reflexivity|].
      rewrite Ha. cbn [res_bind]. exact Hg.
    + destruct js; discriminate Hg.
  - intros _. apply Hone; [reflexivity | reflexivity|].
    right. right. right. exists e. split; [reflexivity|].
    rewrite Ha. reflexivity.
  - exfalso. eapply answer_never_out_of_fuel; eassumption.
Qed.

Lemma wait_container_trace fuel cid tok timeout_sec poll_sec w :
  let r := _wait_container fuel cid tok timeout_sec poll_sec w in
  r.1 ≠ OutOfFuel →
  ∃ n,
    (n < fuel)%nat
    ∧ (∀ k, (k < n)%nat →
         ∃ sc, polled (upstream w (length (calls w) + k)) sc
               ∧ nonterminal sc
               ∧ (wall_clock w (clock_reads w + 1 + k) - wall_clock w (clock_reads w)
                  <= inject_Z timeout_sec)%Q)
    ∧ calls r.2 = (calls w ++ replicate (S n) (poll_request cid tok))%list
    ∧ sleeps r.2 = (sleeps w ++ replicate n poll_sec)%list
    ∧ ends_wait (Container cid) (wall_clock w (clock_reads w)) timeout_sec
        (upstream w (length (calls w) + n))
        (wall_clock w (clock_reads w + 1 + n)) r.1.
Proof.
  intros r Hne. subst r. rewrite _wait_container_eq in *.
  destruct (wait_loop_trace fuel (Container cid)
              {[ "fields" := JStr "status_code,status"; "access_token" := tok ]}
              (wall_clock w (clock_reads w)) timeout_sec poll_sec (tick w) Hne)
    as (n & Hn & Hpend & Hc & Hs & He).
  cbn [upstream wall_clock calls clock_reads sleeps tick] in Hpend, Hc, Hs, He.
  assert (Hj : ∀ k, (S (clock_reads w) + k = clock_reads w + 1 + k)%nat)
    by (intros; lia).
  exists n. split; [exact Hn|]. split; [|split; [exact Hc|split; [exact Hs|]]].
  - intros k Hk. destruct (Hpend k Hk) as (sc & H1 & H2 & H3).
    rewrite Hj in H3. eauto.
  - rewrite Hj in He. exact He.
Qed.

Lemma polled_functional r sc sc' : polled r sc → polled r sc' → sc = sc'.
Proof.
  intros (st & body & o & -> & _ & Hb & ->) (st' & body' & o' & [= <- <-] & _ & Hb' & ->).
  congruence.
Qed.

Lemma poll_raise_cases url reply e :
  (js <~ answer url reply;; py_get "status_code" js) = Raise e →
  e = RequestException ∨ e = AttributeError
  ∨ ∃ body, e = HTTPException 400 (UrlResp url body).
Proof.
  destruct reply as [|st body]; cbn [answer res_bind].
  - intros [= <-]. auto.
  - destruct (400 <=? st)%Z; cbn [res_bind].
    + intros [= <-]. eauto.
    + destruct (body_json body); cbn [py_get]; intros H;
        try discriminate H; injection H as <-; auto.
Qed.

(** X10.  Why a wait ended can be read off its result.  A wait that ends
    made [n + 1] polls, of which the first [n] saw a non-terminal status
    within the time bound and were each followed by a sleep.  If it
    returned, the last poll saw "FINISHED".  If it raised the processing
    error, the last poll saw "ERROR" or "EXPIRED", and the error carries
    that reply.  If it raised the 408 error, the last poll saw a
    non-terminal status and the clock reading after it was more than the
    timeout past the start.  Any other exception is the one that the last
    poll itself raised.  The wait is the one of the service, with the
    default interval of 5 seconds between polls, and any timeout. *)
Theorem wait_container_complete
    (fuel : nat) (container_id page_token : json) (timeout_sec : Z) (w : world) :
  let t0 := wall_clock w (clock_reads w) in
  let r := _wait_container fuel container_id page_token timeout_sec
             default_poll_sec w in
  r.1 ≠ OutOfFuel →
  ∃ n,
    let reply := upstream w (length (calls w) + n) in
    (n < fuel)%nat
    ∧ (∀ k, (k < n)%nat →
         ∃ sc, polled (upstream w (length (calls w) + k)) sc
               ∧ nonterminal sc
               ∧ (wall_clock w (clock_reads w + 1 + k) - t0 <= inject_Z timeout_sec)%Q)
    ∧ calls r.2 = (calls w ++ replicate (S n) (poll_request container_id page_token))%list
    ∧ sleeps r.2 = (sleeps w ++ replicate n default_poll_sec)%list
    ∧ (r.1 = Ret tt → polled reply (JStr "FINISHED"))
    ∧ (∀ js, r.1 = Raise (HTTPException 400 (ErrorResp "Processamento falhou" js)) →
         answer (Container container_id) reply = Ret js
         ∧ (polled reply (JStr "ERROR") ∨ polled reply (JStr "EXPIRED")))
    ∧ (∀ s, r.1 = Raise (HTTPException 408 (Message s)) →
         s = "Timeout esperando processamento do video."
         ∧ (inject_Z timeout_sec < wall_clock w (clock_reads w + 1 + n) - t0)%Q
         ∧ ∃ sc, polled reply sc ∧ nonterminal sc)
    ∧ (∀ e, r.1 = Raise e →
         (∀ js, e ≠ HTTPException 400 (ErrorResp "Processamento falhou" js)) →
         (∀ s, e ≠ HTTPException 408 (Message s)) →
         (js <~ answer (Container container_id) reply;; py_get "status_code" js)
         = Raise e).
Proof.
  intros t0 r Hne.
  destruct (wait_container_trace fuel container_id page_token timeout_sec
              default_poll_sec w Hne) as (n & Hn & Hpend & Hc & Hs & He).
  fold r in Hc, Hs, He. fold t0 in Hpend, He.
  exists n. cbv zeta.
  split; [exact Hn|]. split; [exact Hpend|]. split; [exact Hc|].
  split; [exact Hs|].
  set (reply := upstream w (length (calls w) + n)) in *.
  destruct He as [[Hr Hp]
                 |[(js & sc & Hr & Ha & Hp & Hsc)
                  |[(Hr & sc & Hp & Hnt & Hl) | (e & Hr & Hx)]]];
    rewrite Hr.
  - split; [intros _; exact Hp|]. repeat split; discriminate.
  - split; [discriminate|]. split; [|split].
    + intros js' [= <-]. split; [exact Ha|].
      destruct Hsc as [-> | ->]; auto.
    + discriminate.
    + intros e [= <-] H _. exfalso. exact (H js eq_refl).
  - split; [discriminate|]. split; [discriminate|]. split.
    + intros s [= <-]. split; [reflexivity|]. split; [exact Hl|]. eauto.
    + intros e [= <-] _ H. exfalso. exact (H _ eq_refl).
  - destruct (poll_raise_cases _ _ _ Hx) as [-> | [-> | (body & ->)]];
      (split; [discriminate|]); (split; [discriminate|]);
      (split; [discriminate|]); intros e' [= <-] _ _; exact Hx.
Qed.

Lemma wait_container_complete_witness :
  (_wait_container 5 (JStr "c1") (JStr "P1") 1200 5
     (world_authorized upstream_error_after_one clock_7)).1 ≠ OutOfFuel
  ∧ ∃ n, (n < 5)%nat
         ∧ sleeps (_wait_container 5 (JStr "c1") (JStr "P1") 1200 5
                     (world_authorized upstream_error_after_one clock_7)).2
           = replicate n 5%Z.
Proof.
  assert (H : (_wait_container 5 (JStr "c1") (JStr "P1") 1200 5
                 (world_authorized upstream_error_after_one clock_7)).1 ≠ OutOfFuel)
    by (vm_compute; discriminate).
  split; [exact H|].
  destruct (wait_container_complete 5 (JStr "c1") (JStr "P1") 1200
              (world_authorized upstream_error_after_one clock_7) H)
    as (n & Hn & _ & _ & Hs & _).
  exists n. split; [exact Hn | exact Hs].
Defined.

(** ** [/publish], continued *)

(** X11.  What a successful [/publish] did.  It answers 200 only for an
    authorized session, and then its upstream calls were, in this order:
    the container create; when the wait is on, [k] polls of the container
    whose id the create returned, the last of which saw "FINISHED"; and
    one publish-commit POST to the media_publish URL of the account,
    whose form holds exactly that container id as "creation_id" and the
    page token.  The response repeats the normalized media type and
    carries the id from the create reply and the id from the commit
    reply.  With the wait off there is no poll, no sleep and no clock
    reading. *)
Theorem publish_success_log
    (fuel : nat) (payload : gmap string json) (w : world) (resp : response) :
  let r := publish fuel payload w in
  let t := TOKENS w in
  r.1 = Ret resp →
  authorized t
  ∧ ∃ mt data cid mid k,
      read_media_type payload = Ret mt
      ∧ valid_media_type mt = true
      ∧ resp = Dict {[ "ok" := JBool true; "media_type" := JStr mt;
                       "container_id" := cid; "media_id" := mid ]}
      ∧ new_calls w r.2
        = (Request "POST" (Media (ig_user_id t)) None (Some data) 60
           :: replicate k (poll_request cid (page_access_token t))
           ++ [Request "POST" (MediaPublish (ig_user_id t)) None
                 (Some {[ "creation_id" := cid;
                          "access_token" := page_access_token t ]}) 60])%list
      ∧ (js <~ answer (Media (ig_user_id t)) (upstream w (length (calls w)));;
         py_get "id" js) = Ret cid
      ∧ (js <~ answer (MediaPublish (ig_user_id t))
                 (upstream w (length (calls w) + 1 + k));;
         py_get "id" js) = Ret mid
      ∧ (read_wait payload = false →
           k = 0%nat ∧ sleeps r.2 = sleeps w ∧ clock_reads r.2 = clock_reads w)
      ∧ (read_wait payload = true →
           (1 ≤ k ≤ fuel)%nat
           ∧ polled (upstream w (length (calls w) + k)) (JStr "FINISHED")
           ∧ sleeps r.2 = (sleeps w ++ replicate (k - 1) default_poll_sec)%list).
Proof.
  intros r t Hret.
  assert (Hauth : authorized t).
  { destruct (truthy (page_access_token t)) eqn:Hp;
      [destruct (truthy (ig_user_id t)) eqn:Hi|]; [split; assumption| |];
      exfalso; subst r;
      rewrite (publish_unauthorized fuel payload w) in Hret by auto;
      discriminate. }
  split; [exact Hauth|]. subst r.
  rewrite (publish_authorized fuel payload w Hauth) in *.
  destruct (read_media_type payload) as [mt| |]; try discriminate Hret.
  destruct (read_video_url payload) as [u| |]; try discriminate Hret.
  destruct (read_caption payload) as [c| |]; try discriminate Hret.
  destruct (valid_media_type mt) eqn:Hv; cbn [negb] in *; try discriminate Hret.
  destruct (startswith u "https://"); cbn [negb] in *; try discriminate Hret.
  rewrite publish_steps_eq in *. cbv zeta in *. fold t in Hret |- *.
  set (ig := ig_user_id t) in *. set (tok := page_access_token t) in *.
  destruct (_create_container_eq ig tok mt u c (read_share_to_feed payload) w)
    as (data & E & _).
  rewrite E in *. cbn [fst snd] in *.
  set (rq := Request "POST" (Media ig) None (Some data) 60) in *.
  destruct (answer (Media ig) (upstream w (length (calls w)))) as [js| |] eqn:Ha;
    try discriminate Hret.
  destruct (py_get "id" js) as [cid| |] eqn:Hg; try discriminate Hret.
  destruct (truthy cid); try discriminate Hret.
  cbv beta iota in *.
  set (v := if read_wait payload
            then _wait_container fuel cid tok default_timeout_sec default_poll_sec
                   (log_call rq w)
            else (Ret tt, log_call rq w)) in *.
  destruct (v.1) as [[]|e|] eqn:Hv1; try discriminate Hret.
  assert (Hk : ∃ k,
            calls v.2 = (calls w ++ rq :: replicate k (poll_request cid tok))%list
            ∧ upstream v.2 = upstream w
            ∧ (read_wait payload = false →
                 k = 0%nat ∧ sleeps v.2 = sleeps w ∧ clock_reads v.2 = clock_reads w)
            ∧ (read_wait payload = true →
                 (1 ≤ k ≤ fuel)%nat
                 ∧ polled (upstream w (length (calls w) + k)) (JStr "FINISHED")
                 ∧ sleeps v.2 = (sleeps w ++ replicate (k - 1) default_poll_sec)%list)).
  { subst v. destruct (read_wait payload).
    - destruct (wait_container_trace fuel cid tok default_timeout_sec
                  default_poll_sec (log_call rq w))
        as (n & Hn & _ & Hc & Hs & He); [rewrite Hv1; discriminate|].
      destruct (wait_container_only_polls fuel cid tok default_timeout_sec
                  default_poll_sec (log_call rq w)) as ((Hup & _ & _) & _).
      exists (S n). split; [|split; [exact Hup|split; [discriminate|]]].
      + rewrite Hc. cbn [calls log_call]. rewrite <- app_assoc. reflexivity.
      + intros _. split; [lia|]. split.
        * rewrite Hv1 in He.
          destruct He as [[_ Hp] | [(? & ? & H & _) | [[H _] | (? & H & _)]]];
            try discriminate H.
          cbn [upstream calls log_call] in Hp. rewrite length_app in Hp.
          cbn [length] in Hp.
          replace (length (calls w) + S n)%nat
            with (length (calls w) + 1 + n)%nat by lia.
          exact Hp.
        * rewrite Hs. cbn [sleeps log_call].
          replace (S n - 1)%nat with n by lia. reflexivity.
    - exists 0%nat. cbn [fst snd replicate].
      split; [reflexivity|]. split; [reflexivity|].
      split; [auto | discriminate]. }
  destruct Hk as (k & Hc & Hup & Hoff & Hon).
  rewrite _publish_container_eq in *. cbn [fst snd] in *.
  assert (Hlen : length (calls v.2) = (length (calls w) + 1 + k)%nat).
  { rewrite Hc, length_app. cbn [length]. rewrite length_replicate. lia. }
  rewrite Hup, Hlen in *.
  destruct (answer (MediaPublish ig) (upstream w (length (calls w) + 1 + k)))
    as [js'| |] eqn:Ha'; try discriminate Hret.
  destruct (py_get "id" js') as [mid| |] eqn:Hg'; try discriminate Hret.
  destruct (truthy mid); try discriminate Hret.
  cbn [fst snd] in *. injection Hret as <-.
  exists mt, data, cid, mid, k.
  split; [reflexivity|]. split; [exact Hv|]. split; [reflexivity|].
  split.
  { apply new_calls_app. cbn [calls log_call]. rewrite Hc.
    rewrite <- app_assoc. reflexivity. }
  split; [exact Hg|]. split; [rewrite Ha'; exact Hg'|].
  split; [exact Hoff | exact Hon].
Qed.

Lemma publish_success_log_witness :
  (publish 0 payload_no_wait (world_authorized upstream_ids clock_7)).1
  = Ret (Dict {[ "ok" := JBool true; "media_type" := JStr "REELS";
                 "container_id" := JStr "x1"; "media_id" := JStr "x1" ]})
  ∧ authorized session_demo.
Proof.
  assert (H : (publish 0 payload_no_wait (world_authorized upstream_ids clock_7)).1
              = Ret (Dict {[ "ok" := JBool true; "media_type" := JStr "REELS";
                             "container_id" := JStr "x1";
                             "media_id" := JStr "x1" ]}))
    by reflexivity.
  split; [exact H|].
  exact (proj1 (publish_success_log 0 payload_no_wait
                  (world_authorized upstream_ids clock_7) _ H)).
Defined.

(** The steps with the wait off. *)
Lemma publish_steps_no_wait fuel fuel' mt url cap stf w :
  let r := publish_steps fuel mt url cap stf false w in
  r = publish_steps fuel' mt url cap stf false w
  ∧ r.1 ≠ OutOfFuel
  ∧ sleeps r.2 = sleeps w
  ∧ clock_reads r.2 = clock_reads w
  ∧ (1 ≤ length (new_calls w r.2) ≤ 2)%nat
  ∧ Forall (λ rq, is_poll rq = false) (new_calls w r.2).
Proof.
  cbv zeta. rewrite !publish_steps_eq. cbv zeta.
  set (ig := ig_user_id (TOKENS w)). set (tok := page_access_token (TOKENS w)).
  destruct (_create_container_eq ig tok mt url cap stf w) as (data & E & _).
  rewrite E. cbn [fst snd].
  set (rq := Request "POST" (Media ig) None (Some data) 60).
  assert (H1 : ∀ x : res response,
            x ≠ OutOfFuel →
            (x, log_call rq w) = (x, log_call rq w)
            ∧ (x, log_call rq w).1 ≠ OutOfFuel
            ∧ sleeps (x, log_call rq w).2 = sleeps w
            ∧ clock_reads (x, log_call rq w).2 = clock_reads w
            ∧ (1 ≤ length (new_calls w (x, log_call rq w).2) ≤ 2)%nat
            ∧ Forall (λ rq, is_poll rq = false) (new_calls w (x, log_call rq w).2)).
  { intros x Hx. cbn [fst snd].
    rewrite (new_calls_app w (log_call rq w) [rq]) by reflexivity.
    repeat split; try assumption; cbn [length]; try lia.
    repeat constructor. }
  destruct (answer (Media ig) (upstream w (length (calls w)))) as [js|e|] eqn:Ha;
    [|apply H1; discriminate
     |exfalso; eapply answer_never_out_of_fuel; eassumption].
  destruct (py_get "id" js) as [cid|e|] eqn:Hg;
    [|apply H1; discriminate | destruct js; discriminate Hg].
  destruct (truthy cid); [|apply H1; discriminate].
  cbv beta iota. cbn [fst snd].
  rewrite _publish_container_eq. cbn [fst snd].
  set (rq2 := Request "POST" (MediaPublish ig) None
                (Some {[ "creation_id" := cid; "access_token" := tok ]}) 60).
  assert (H2 : ∀ x : res response,
            x ≠ OutOfFuel →
            (x, log_call rq2 (log_call rq w)) = (x, log_call rq2 (log_call rq w))
            ∧ (x, log_call rq2 (log_call rq w)).1 ≠ OutOfFuel
            ∧ sleeps (x, log_call rq2 (log_call rq w)).2 = sleeps w
            ∧ clock_reads (x, log_call rq2 (log_call rq w)).2 = clock_reads w
            ∧ (1 ≤ length (new_calls w (x, log_call rq2 (log_call rq w)).2) ≤ 2)%nat
            ∧ Forall (λ rq, is_poll rq = false)
                (new_calls w (x, log_call rq2 (log_call rq w)).2)).
  { intros x Hx. cbn [fst snd].
    rewrite (new_calls_app w (log_call rq2 (log_call rq w)) [rq; rq2])
      by (cbn [calls log_call]; rewrite <- app_assoc; reflexivity).
    repeat split; try assumption; cbn [length]; try lia.
    repeat constructor. }
  destruct (answer (MediaPublish ig) _) as [js'|e|] eqn:Ha';
    [|apply H2; discriminate
     |exfalso; eapply answer_never_out_of_fuel; eassumption].
  destruct (py_get "id" js') as [mid|e|] eqn:Hg';
    [|apply H2; discriminate | destruct js'; discriminate Hg'].
  destruct (truthy mid); apply H2; discriminate.
Qed.

(** X12.  The wait can be turned off, and a null counts as off.  When the
    payload holds under "wait" a value that Python takes for false (false,
    null, 0, an empty string, list or dict), [/publish] commits right
    after the create: it makes no poll, does not sleep, does not read the
    clock, makes at most two upstream calls and always ends, with the same
    result whatever the fuel.  Only a payload without the key, or with a
    value taken for true, waits. *)
Theorem publish_without_wait
    (fuel fuel' : nat) (payload : gmap string json) (w : world) (v : json) :
  let r := publish fuel payload w in
  payload !! "wait" = Some v →
  truthy v = false →
  read_wait payload = false
  ∧ r = publish fuel' payload w
  ∧ r.1 ≠ OutOfFuel
  ∧ sleeps r.2 = sleeps w
  ∧ clock_reads r.2 = clock_reads w
  ∧ (length (new_calls w r.2) ≤ 2)%nat
  ∧ Forall (λ rq, is_poll rq = false) (new_calls w r.2)
  ∧ read_wait (delete "wait" payload) = true.
Proof.
  intros r Hw Hv.
  assert (Hoff : read_wait payload = false)
    by (unfold read_wait; rewrite Hw; exact Hv).
  split; [exact Hoff|].
  assert (Hdel : read_wait (delete "wait" payload) = true)
    by (unfold read_wait; rewrite lookup_delete_eq; reflexivity).
  assert (Hsame : ∀ x : res response,
            x ≠ OutOfFuel →
            (x, w) = (x, w)
            ∧ (x, w).1 ≠ OutOfFuel
            ∧ sleeps (x, w).2 = sleeps w
            ∧ clock_reads (x, w).2 = clock_reads w
            ∧ (length (new_calls w (x, w).2) ≤ 2)%nat
            ∧ Forall (λ rq, is_poll rq = false) (new_calls w (x, w).2)
            ∧ read_wait (delete "wait" payload) = true).
  { intros x Hx. cbn [fst snd]. rewrite new_calls_same.
    repeat split; try assumption; cbn [length]; try lia. constructor. }
  subst r.
  destruct (truthy (page_access_token (TOKENS w))) eqn:Hp;
    [destruct (truthy (ig_user_id (TOKENS w))) eqn:Hi|].
  2, 3: rewrite !(publish_unauthorized _ payload w) by auto;
        apply Hsame; discriminate.
  rewrite !(publish_authorized _ payload w (conj Hp Hi)).
  destruct (read_media_type_cases payload) as [[m ->] | ->];
    [|apply Hsame; discriminate].
  destruct (py_strip_cases (py_or (dict_get "video_url" payload) (JStr "")))
    as [(u & _ & Hu) | Hu];
    change (py_strip _) with (read_video_url payload) in Hu; rewrite Hu;
    [|apply Hsame; discriminate].
  destruct (py_strip_cases (py_or (dict_get "caption" payload) (JStr "")))
    as [(c & _ & Hc) | Hc];
    change (py_strip _) with (read_caption payload) in Hc; rewrite Hc;
    [|apply Hsame; discriminate].
  destruct (negb (valid_media_type m)); [apply Hsame; discriminate|].
  destruct (negb (startswith (strip u) "https://")); [apply Hsame; discriminate|].
  rewrite Hoff.
  destruct (publish_steps_no_wait fuel fuel' m (strip u) (strip c)
              (read_share_to_feed payload) w) as (H1 & H2 & H3 & H4 & H5 & H6).
  split; [exact H1|]. split; [exact H2|]. split; [exact H3|].
  split; [exact H4|]. split; [lia|]. split; [exact H6 | exact Hdel].
Qed.

Lemma publish_without_wait_witness :
  read_wait payload_no_wait = false
  ∧ publish 0 payload_no_wait (world_authorized upstream_ids clock_7)
    = publish 7 payload_no_wait (world_authorized upstream_ids clock_7).
Proof.
  destruct (publish_without_wait 0 7 payload_no_wait
              (world_authorized upstream_ids clock_7) (JBool false))
    as (H1 & H2 & _); [reflexivity | reflexivity|].
  split; [exact H1 | exact H2].
Defined.

(** ** The status codes of [/publish] *)

Lemma id_step_cases url r (msg : string) :
  let x := match answer url r with
           | Ret js =>
               match py_get "id" js with
               | Ret v =>
                   if truthy v then Ret v
                   else Raise (HTTPException 400 (ErrorResp msg js))
               | Raise e => Raise e
               | OutOfFuel => OutOfFuel
               end
           | Raise e => Raise e
           | OutOfFuel => OutOfFuel
           end in
  (∃ v, x = Ret v)
  ∨ x = Raise RequestException
  ∨ x = Raise AttributeError
  ∨ ∃ d, x = Raise (HTTPException 400 d).
Proof.
  cbv zeta. destruct r as [|st body]; cbn [answer]; [auto|].
  destruct (400 <=? st)%Z; [eauto 6|].
  destruct (body_json body); cbn [py_get]; auto.
  destruct (truthy _); eauto 6.
Qed.

Lemma create_container_cases ig tok mt url cap stf w :
  let c := _create_container ig tok mt url cap stf w in
  (∃ cid, c.1 = Ret cid)
  ∨ c.1 = Raise RequestException
  ∨ c.1 = Raise AttributeError
  ∨ ∃ d, c.1 = Raise (HTTPException 400 d).
Proof.
  cbv zeta. destruct (_create_container_eq ig tok mt url cap stf w) as (data & E & _).
  rewrite E. cbn [fst]. apply id_step_cases.
Qed.

Lemma publish_container_cases ig tok cid w :
  let p := _publish_container ig tok cid w in
  (∃ mid, p.1 = Ret mid)
  ∨ p.1 = Raise RequestException
  ∨ p.1 = Raise AttributeError
  ∨ ∃ d, p.1 = Raise (HTTPException 400 d).
Proof.
  cbv zeta. rewrite _publish_container_eq. cbn [fst]. apply id_step_cases.
Qed.

Lemma wait_container_cases fuel cid tok timeout_sec poll_sec w :
  let v := _wait_container fuel cid tok timeout_sec poll_sec w in
  v.1 = Ret tt
  ∨ v.1 = Raise RequestException
  ∨ v.1 = Raise AttributeError
  ∨ (∃ d, v.1 = Raise (HTTPException 400 d))
  ∨ v.1 = Raise (HTTPException 408
                   (Message "Timeout esperando processamento do video."))
  ∨ v.1 = OutOfFuel.
Proof.
  cbv zeta.
  destruct ((_wait_container fuel cid tok timeout_sec poll_sec w).1)
    as [[]|e|] eqn:Hv; [auto | | auto 7].
  destruct (wait_container_trace fuel cid tok timeout_sec poll_sec w)
    as (n & _ & _ & _ & _ & He); [rewrite Hv; discriminate|].
  rewrite Hv in He.
  destruct He as [[H _] | [(js & sc & H & _) | [[H _] | (e' & H & Hx)]]];
    try discriminate H; injection H as ->; eauto 7.
  destruct (poll_raise_cases _ _ _ Hx) as [-> | [-> | (body & ->)]]; eauto 7.
Qed.

(** How the three steps can end. *)
Lemma publish_steps_cases fuel mt url cap stf dw w :
  let r := publish_steps fuel mt url cap stf dw w in
  (∃ content, r.1 = Ret (Dict content))
  ∨ r.1 = Raise RequestException
  ∨ r.1 = Raise AttributeError
  ∨ (∃ d, r.1 = Raise (HTTPException 400 d))
  ∨ (dw = true
     ∧ r.1 = Raise (HTTPException 408
                      (Message "Timeout esperando processamento do video.")))
  ∨ (dw = true ∧ r.1 = OutOfFuel).
Proof.
  cbv zeta. rewrite publish_steps_eq. cbv zeta.
  set (ig := ig_user_id (TOKENS w)). set (tok := page_access_token (TOKENS w)).
  destruct (create_container_cases ig tok mt url cap stf w)
    as [(cid & ->) | [-> | [-> | (d & ->)]]]; [|eauto 7..].
  cbv beta iota.
  set (c := _create_container ig tok mt url cap stf w).
  destruct dw.
  - destruct (wait_container_cases fuel cid tok default_timeout_sec
                default_poll_sec c.2) as [-> | [-> | [-> | [(d & ->) | [-> | ->]]]]];
      [|eauto 7..].
    destruct (publish_container_cases ig tok cid
                (_wait_container fuel cid tok default_timeout_sec
                   default_poll_sec c.2).2)
      as [(mid & ->) | [-> | [-> | (d & ->)]]]; eauto 7.
  - cbn [fst snd].
    destruct (publish_container_cases ig tok cid c.2)
      as [(mid & ->) | [-> | [-> | (d & ->)]]]; eauto 7.
Qed.

Lemma publish_cases fuel payload w :
  let r := publish fuel payload w in
  (¬ authorized (TOKENS w)
   ∧ r = (Raise (HTTPException 401 (Message "Sem tokens. Acesse /login primeiro.")), w))
  ∨ (authorized (TOKENS w)
     ∧ ((∃ content, r.1 = Ret (Dict content))
        ∨ r.1 = Raise RequestException
        ∨ r.1 = Raise AttributeError
        ∨ (∃ d, r.1 = Raise (HTTPException 400 d))
        ∨ (read_wait payload = true
           ∧ r.1 = Raise (HTTPException 408
                            (Message "Timeout esperando processamento do video.")))
        ∨ (read_wait payload = true ∧ r.1 = OutOfFuel))).
Proof.
  cbv zeta.
  destruct (truthy (page_access_token (TOKENS w))) eqn:Hp;
    [destruct (truthy (ig_user_id (TOKENS w))) eqn:Hi|].
  2, 3: left; split;
        [intros [H1 H2]; congruence | apply publish_unauthorized; auto].
  right. split; [split; assumption|].
  rewrite (publish_authorized fuel payload w (conj Hp Hi)).
  destruct (read_media_type_cases payload) as [[m ->] | ->]; [|auto].
  destruct (py_strip_cases (py_or (dict_get "video_url" payload) (JStr "")))
    as [(u & _ & Hu) | Hu];
    change (py_strip _) with (read_video_url payload) in Hu; rewrite Hu; [|auto].
  destruct (py_strip_cases (py_or (dict_get "caption" payload) (JStr "")))
    as [(c & _ & Hc) | Hc];
    change (py_strip _) with (read_caption payload) in Hc; rewrite Hc; [|auto].
  destruct (negb (valid_media_type m)); [cbn [fst]; eauto 7|].
  destruct (negb (startswith (strip u) "https://")); [cbn [fst]; eauto 7|].
  apply publish_steps_cases.
Qed.

(** X13.  The status codes of [/publish].  A request that ends is
    answered with 200, 400, 401, 408 or 500 and no other status.  It is
    401 exactly when the session lacks the page token or the account id;
    it is 200 exactly when the route returns its result dict; it is 408
    only when the wait is on, and then with the timeout message; it is 500
    only for an AttributeError (a value of the payload or of an upstream
    reply that is not of the expected type) or for the exception of the
    HTTP client. *)
Theorem publish_status_codes (fuel : nat) (payload : gmap string json) (w : world) :
  let r := publish fuel payload w in
  (r.1 = OutOfFuel
   ∨ ∃ st, http_status r.1 = Some st ∧ st ∈ [200; 400; 401; 408; 500]%Z)
  ∧ (http_status r.1 = Some 401%Z ↔ ¬ authorized (TOKENS w))
  ∧ (http_status r.1 = Some 200%Z ↔ ∃ content, r.1 = Ret (Dict content))
  ∧ (http_status r.1 = Some 408%Z →
       read_wait payload = true
       ∧ r.1 = Raise (HTTPException 408
                        (Message "Timeout esperando processamento do video.")))
  ∧ (http_status r.1 = Some 500%Z →
       r.1 = Raise AttributeError ∨ r.1 = Raise RequestException).
Proof.
  intros r.
  destruct (publish_cases fuel payload w)
    as [[Hno Hr] | [Hauth [(content & Hr) | [Hr | [Hr | [(d & Hr) | [[Hw Hr] | [Hw Hr]]]]]]]];
    fold r in Hr; rewrite Hr; cbn [fst http_status].
  all: split;
    [first [left; reflexivity
           |right; eexists; split; [reflexivity|];
            rewrite !elem_of_cons; auto 10]|].
  all: split;
    [split; [intros H; first [discriminate H | assumption]
            |intros Hn; first [contradiction | reflexivity]]|].
  all: split;
    [split; [intros H; first [discriminate H | eauto]
            |intros (? & H); first [discriminate H | reflexivity]]|].
  all: split; intros H; first [discriminate H | auto].
Qed.

Lemma publish_status_codes_witness :
  http_status (publish 0 ∅ world_offline).1 = Some 401%Z
  ∧ ¬ authorized (TOKENS world_offline).
Proof.
  assert (H : http_status (publish 0 ∅ world_offline).1 = Some 401%Z) by reflexivity.
  split; [exact H|].
  exact (proj1 (proj1 (proj2 (publish_status_codes 0 ∅ world_offline))) H).
Defined.

(** ** The session over the life of the process *)

Lemma home_world cfg w : (home cfg w).2 = w.
Proof.
  unfold home. rewrite bind_lift. destruct (_require_env cfg) as [[]| |]; reflexivity.
Qed.

Lemma login_world cfg w : (login cfg w).2 = w.
Proof.
  unfold login. rewrite bind_lift. destruct (_require_env cfg) as [[]| |]; reflexivity.
Qed.

Lemma status_of_session cfg w1 w2 :
  TOKENS w1 = TOKENS w2 →
  (status cfg w1).1 = (status cfg w2).1 ∧ (health w1).1 = (health w2).1.
Proof.
  intros H. unfold status, health, get_TOKENS, bind, ret. rewrite H. auto.
Qed.

(** X14.  The session changes only through a callback that carries the
    anti-forgery state.  If an operation leaves a session other than the
    one it found, then it is a callback that answered with the authorized
    page, made with the configuration complete, with no error reported,
    with a code, and with a state equal to the token drawn at process
    start.  [/health], [/], [/login] and [/status] leave everything as it
    is, and as long as the session is the same [/status] and [/health]
    report the same. *)
Theorem session_changes_only_by_callback
    (cfg : settings) (op : operation) (w : world) :
  let r := run cfg op w in
  (TOKENS r.2 ≠ TOKENS w →
   ∃ code state error error_description p i,
     op = GetOAuthCallback code state error error_description
     ∧ r.1 = Ret (HTMLResponse (AuthorizedPage p i))
     ∧ _require_env cfg = Ret tt
     ∧ state = Some (STATE_NONCE cfg)
     ∧ opt_truthy code = true
     ∧ opt_truthy error = false)
  ∧ (health w).2 = w ∧ (home cfg w).2 = w ∧ (login cfg w).2 = w
  ∧ (status cfg w).2 = w
  ∧ (TOKENS r.2 = TOKENS w →
       (status cfg r.2).1 = (status cfg w).1 ∧ (health r.2).1 = (health w).1).
Proof.
  intros r. split; [|split; [reflexivity|split; [apply home_world|
                     split; [apply login_world|split; [reflexivity|
                     apply status_of_session]]]]].
  intros Hch. subst r. destruct op as [| | |code state error ed| |fuel payload];
    cbn [run] in *.
  - exfalso. apply Hch. reflexivity.
  - exfalso. apply Hch. rewrite home_world. reflexivity.
  - exfalso. apply Hch. rewrite login_world. reflexivity.
  - destruct (oauth_callback_session cfg code state error ed w)
      as [[_ Hsame] | (user_token & pages & chosen & _ & _ & _ & Hr & _)];
      [exfalso; exact (Hch Hsame)|].
    destruct (oauth_callback_guarded cfg code state error ed w)
      as (Henv & Herr & Hcode & Hst).
    { destruct (oauth_callback_calls cfg code state error ed w)
        as (_ & _ & _ & [(Hno & _) | (_ & _ & ut & _ & _ & Hc)]).
      - exfalso. exact (Hno _ Hr).
      - rewrite Hc. discriminate. }
    exists code, state, error, ed, (page_id_of chosen), (linked_account_id chosen).
    auto 7.
  - exfalso. apply Hch. reflexivity.
  - exfalso. apply Hch. apply publish_TOKENS.
Qed.

Lemma session_changes_only_by_callback_witness :
  TOKENS (run settings_demo (GetOAuthCallback (Some "abc") (Some "nonce") None None)
            (world_start upstream_oauth clock_7)).2
  ≠ TOKENS (world_start upstream_oauth clock_7)
  ∧ ∃ code error error_description,
      GetOAuthCallback (Some "abc") (Some "nonce") None None
      = GetOAuthCallback code (Some (STATE_NONCE settings_demo)) error error_description.
Proof.
  assert (H : TOKENS (run settings_demo
                        (GetOAuthCallback (Some "abc") (Some "nonce") None None)
                        (world_start upstream_oauth clock_7)).2
              ≠ TOKENS (world_start upstream_oauth clock_7)).
  { intros H. apply (f_equal user_access_token) in H. vm_compute in H.
    discriminate H. }
  split; [exact H|].
  destruct (proj1 (session_changes_only_by_callback settings_demo
                     (GetOAuthCallback (Some "abc") (Some "nonce") None None)
                     (world_start upstream_oauth clock_7)) H)
    as (code & state & error & ed & p & i & Hop & _ & _ & Hst & _).
  exists code, error, ed. rewrite Hop, Hst. reflexivity.
Defined.

Lemma run_logged_in cfg op w :
  logged_in (TOKENS w) → logged_in (TOKENS (run cfg op w).2).
Proof.
  intros Hin. destruct op as [| | |code state error ed| |fuel payload]; cbn [run].
  - exact Hin.
  - rewrite home_world. exact Hin.
  - rewrite login_world. exact Hin.
  - destruct (oauth_callback_session cfg code state error ed w)
      as [[_ ->] | (user_token & pages & chosen & Hx & _ & Hpick & _ & Hnew)];
      [exact Hin|].
    specialize (Hnew (TOKENS w)). rewrite put_TOKENS_same in Hnew.
    pose proof (page_ok_qualifies _ (pick_ret _ _ Hpick)) as Hq.
    unfold qualifies in Hq. apply andb_true_iff in Hq as [Hq1 Hq2].
    rewrite Hnew. split; [|split]; cbn.
    + exact (exchange_result_truthy _ _ Hx).
    + exact Hq2.
    + exact Hq1.
  - exact Hin.
  - rewrite publish_TOKENS. exact Hin.
Qed.

Lemma run_all_logged_in cfg ops :
  ∀ w, logged_in (TOKENS w) → logged_in (TOKENS (run_all cfg ops w)).
Proof.
  induction ops as [|op ops IH]; intros w Hin; [exact Hin|].
  cbn [run_all foldl]. apply IH. apply run_logged_in. exact Hin.
Qed.

(** X15.  A login lasts as long as the process.  A callback that answers
    with the authorized page leaves a session that holds the user token,
    the page token and the account id, all non-empty.  No operation takes
    them away: after any sequence of operations on such a session,
    whatever their inputs and outcomes, the three are still there,
    [/health] reports a token and [/publish] does not answer 401. *)
Theorem login_is_kept
    (cfg : settings) (ops : list operation) (w : world)
    (fuel : nat) (payload : gmap string json) :
  let w' := run_all cfg ops w in
  (∀ code state error error_description h,
     (oauth_callback cfg code state error error_description w).1
     = Ret (HTMLResponse h) →
     logged_in (TOKENS (oauth_callback cfg code state error error_description w).2))
  ∧ (logged_in (TOKENS w) →
     logged_in (TOKENS w')
     ∧ http_status (publish fuel payload w').1 ≠ Some 401%Z
     ∧ (health w').1
       = Ret (Dict {[ "ok" := JBool true; "has_token" := JBool true ]})).
Proof.
  intros w'. split.
  - intros code state error ed h Hr.
    destruct (oauth_callback_session cfg code state error ed w)
      as [[Hno _] | (user_token & pages & chosen & Hx & _ & Hpick & _ & Hnew)];
      [exfalso; exact (Hno _ Hr)|].
    specialize (Hnew (TOKENS w)). rewrite put_TOKENS_same in Hnew.
    pose proof (page_ok_qualifies _ (pick_ret _ _ Hpick)) as Hq.
    unfold qualifies in Hq. apply andb_true_iff in Hq as [Hq1 Hq2].
    rewrite Hnew. split; [|split]; cbn.
    + exact (exchange_result_truthy _ _ Hx).
    + exact Hq2.
    + exact Hq1.
  - intros Hin.
    pose proof (run_all_logged_in cfg ops w Hin) as Hin'. fold w' in Hin'.
    split; [exact Hin'|]. destruct Hin' as [Hu Hauth]. split.
    + destruct (publish_cases fuel payload w')
        as [[Hno _] | [_ [(content & Hr) | [Hr | [Hr | [(d & Hr) | [[_ Hr] | [_ Hr]]]]]]]];
        [contradiction|rewrite Hr; discriminate..].
    + unfold health, get_TOKENS, bind, ret. cbn [fst]. rewrite Hu. reflexivity.
Qed.

Lemma login_is_kept_witness :
  logged_in (TOKENS (world_authorized upstream_ids clock_7))
  ∧ http_status
      (publish 3 ∅
         (run_all settings_demo
            [GetOAuthCallback None None None None; PostPublish 0 payload_no_wait;
             GetStatus]
            (world_authorized upstream_ids clock_7))).1
    ≠ Some 401%Z.
Proof.
  assert (H : logged_in (TOKENS (world_authorized upstream_ids clock_7)))
    by (repeat split).
  split; [exact H|].
  exact (proj1 (proj2 (proj2 (login_is_kept settings_demo
                                [GetOAuthCallback None None None None;
                                 PostPublish 0 payload_no_wait; GetStatus]
                                (world_authorized upstream_ids clock_7) 3 ∅) H))).
Defined.

(** ** The calls of the process *)

Lemma exchange_request_ok cfg code : call_ok (exchange_request cfg code).
Proof.
  split; [|split].
  - split; [reflexivity|]. cbn. eauto.
  - reflexivity.
  - intros H. contradiction.
Qed.

Lemma accounts_request_ok user_token : call_ok (accounts_request user_token).
Proof.
  split; [|split].
  - split; [reflexivity|]. cbn. eauto.
  - intros [(p & [= <-] & Hs) | (d & H & _)]; [|discriminate H].
    exfalso. destruct Hs as [v Hv]. by simplify_map_eq.
  - intros _. left. eexists. split; [reflexivity|]. eexists. by simplify_map_eq.
Qed.

Lemma poll_request_ok cid tok : call_ok (poll_request cid tok).
Proof.
  split; [|split].
  - split; [reflexivity|]. cbn. eauto.
  - intros [(p & [= <-] & Hs) | (d & H & _)]; [|discriminate H].
    exfalso. destruct Hs as [v Hv]. by simplify_map_eq.
  - intros _. left. eexists. split; [reflexivity|]. eexists. by simplify_map_eq.
Qed.

Lemma commit_request_ok ig tok cid :
  call_ok (Request "POST" (MediaPublish ig) None
             (Some {[ "creation_id" := cid; "access_token" := tok ]}) 60).
Proof.
  split; [|split].
  - split; [reflexivity|]. cbn. eauto.
  - intros [(p & H & _) | (d & [= <-] & Hs)]; [discriminate H|].
    exfalso. destruct Hs as [v Hv]. by simplify_map_eq.
  - intros _. right. eexists. split; [reflexivity|]. eexists. by simplify_map_eq.
Qed.

(** The call of [_create_container]. *)
Lemma create_request_ok ig tok mt url cap stf w :
  ∃ rq, (_create_container ig tok mt url cap stf w).2 = log_call rq w ∧ call_ok rq.
Proof.
  unfold _create_container. cbv zeta.
  match goal with
  | |- context [_req "POST" (Media ig) None (Some ?d) 60] =>
      exists (Request "POST" (Media ig) None (Some d) 60)
  end.
  split.
  - rewrite bind_eq, _req_eq.
    destruct (answer (Media ig) (upstream w (length (calls w)))) as [js| |];
      try reflexivity.
    rewrite bind_lift. destruct (py_get "id" js) as [cid| |]; try reflexivity.
    destruct (truthy cid); reflexivity.
  - split; [|split].
    + split; [reflexivity|]. cbn. eauto.
    + intros [(p & H & _) | (d & [= <-] & Hs)]; [discriminate H|].
      exfalso. destruct Hs as [v Hv].
      destruct (nonempty cap), (String.eqb mt "REELS"); by simplify_map_eq.
    + intros _. right. eexists. split; [reflexivity|]. exists tok.
      destruct (nonempty cap), (String.eqb mt "REELS"); by simplify_map_eq.
Qed.

Lemma wait_container_log fuel cid tok timeout_sec poll_sec w :
  ∃ k, calls (_wait_container fuel cid tok timeout_sec poll_sec w).2
       = (calls w ++ replicate k (poll_request cid tok))%list.
Proof.
  rewrite _wait_container_eq.
  destruct (wait_loop_shape fuel (Container cid)
              {[ "fields" := JStr "status_code,status"; "access_token" := tok ]}
              (wall_clock w (clock_reads w)) timeout_sec poll_sec (tick w))
    as (k & _ & Hc & _).
  exists k. exact Hc.
Qed.

Lemma publish_steps_log fuel mt url cap stf dw w :
  ∃ l, calls (publish_steps fuel mt url cap stf dw w).2 = (calls w ++ l)%list
       ∧ Forall call_ok l.
Proof.
  rewrite publish_steps_eq. cbv zeta.
  set (ig := ig_user_id (TOKENS w)). set (tok := page_access_token (TOKENS w)).
  destruct (create_request_ok ig tok mt url cap stf w) as (rq & Ew & Hrq).
  rewrite Ew.
  destruct ((_create_container ig tok mt url cap stf w).1) as [cid|e|];
    [|exists [rq]; split; [reflexivity | constructor; [exact Hrq | constructor]]..].
  set (v := if dw
            then _wait_container fuel cid tok default_timeout_sec default_poll_sec
                   (log_call rq w)
            else (Ret tt, log_call rq w)).
  assert (Hv : ∃ k, calls v.2
                    = (calls w ++ rq :: replicate k (poll_request cid tok))%list).
  { subst v. destruct dw.
    - destruct (wait_container_log fuel cid tok default_timeout_sec
                  default_poll_sec (log_call rq w)) as (k & Hk).
      exists k. rewrite Hk. cbn [calls log_call]. rewrite <- app_assoc. reflexivity.
    - exists 0%nat. reflexivity. }
  destruct Hv as (k & Hk).
  assert (Hpolls : Forall call_ok (rq :: replicate k (poll_request cid tok))).
  { constructor; [exact Hrq|]. apply Forall_replicate, poll_request_ok. }
  destruct (v.1) as [[]|e|];
    [|exists (rq :: replicate k (poll_request cid tok)); split; assumption..].
  rewrite _publish_container_eq. cbn [fst snd].
  set (rq2 := Request "POST" (MediaPublish ig) None
                (Some {[ "creation_id" := cid; "access_token" := tok ]}) 60).
  assert (Hall : calls (log_call rq2 v.2)
                 = (calls w ++ (rq :: replicate k (poll_request cid tok)) ++ [rq2])%list
                 ∧ Forall call_ok ((rq :: replicate k (poll_request cid tok)) ++ [rq2])).
  { split.
    - cbn [calls log_call]. rewrite Hk, <- app_assoc. reflexivity.
    - apply Forall_app. split; [exact Hpolls|].
      constructor; [apply commit_request_ok | constructor]. }
  destruct (match answer (MediaPublish ig) (upstream v.2 (length (calls v.2))) with
            | Ret js =>
                match py_get "id" js with
                | Ret mid =>
                    if truthy mid then Ret mid
                    else Raise (HTTPException 400 (ErrorResp "Sem media id" js))
                | Raise e => Raise e
                | OutOfFuel => OutOfFuel
                end
            | Raise e => Raise e
            | OutOfFuel => OutOfFuel
            end) as [mid|e|];
    eexists; exact Hall.
Qed.

Lemma publish_log fuel payload w :
  ∃ l, calls (publish fuel payload w).2 = (calls w ++ l)%list ∧ Forall call_ok l.
Proof.
  assert (Hsame : ∀ x : res response,
            ∃ l, calls (x, w).2 = (calls w ++ l)%list ∧ Forall call_ok l).
  { intros x. exists []. rewrite app_nil_r. split; [reflexivity | constructor]. }
  destruct (truthy (page_access_token (TOKENS w))) eqn:Hp;
    [destruct (truthy (ig_user_id (TOKENS w))) eqn:Hi|].
  2, 3: rewrite (publish_unauthorized _ payload w) by auto; apply Hsame.
  rewrite (publish_authorized _ payload w (conj Hp Hi)).
  destruct (read_media_type payload) as [m|e|]; [|apply Hsame..].
  destruct (read_video_url payload) as [u|e|]; [|apply Hsame..].
  destruct (read_caption payload) as [c|e|]; [|apply Hsame..].
  destruct (negb (valid_media_type m)); [apply Hsame|].
  destruct (negb (startswith u "https://")); [apply Hsame|].
  apply publish_steps_log.
Qed.

Lemma oauth_callback_log cfg code state error error_description w :
  ∃ l, calls (oauth_callback cfg code state error error_description w).2
       = (calls w ++ l)%list
       ∧ Forall call_ok l.
Proof.
  assert (H0 : ∀ w1, calls w1 = calls w →
            ∃ l, calls w1 = (calls w ++ l)%list ∧ Forall call_ok l).
  { intros w1 H. exists []. rewrite app_nil_r. split; [exact H | constructor]. }
  assert (H1 : ∀ w1, calls w1 = (calls w ++ [exchange_request cfg (opt_json code)])%list →
            ∃ l, calls w1 = (calls w ++ l)%list ∧ Forall call_ok l).
  { intros w1 H. eexists. split; [exact H|].
    constructor; [apply exchange_request_ok | constructor]. }
  assert (H2 : ∀ w1 ut,
            calls w1 = ((calls w ++ [exchange_request cfg (opt_json code)])
                        ++ [accounts_request ut])%list →
            ∃ l, calls w1 = (calls w ++ l)%list ∧ Forall call_ok l).
  { intros w1 ut H. exists [exchange_request cfg (opt_json code); accounts_request ut].
    split; [rewrite H, <- app_assoc; reflexivity|].
    constructor; [apply exchange_request_ok|].
    constructor; [apply accounts_request_ok | constructor]. }
  rewrite oauth_callback_eq.
  destruct (_require_env cfg) as [[]|e|]; [|apply H0; reflexivity..].
  destruct (opt_truthy error); [apply H0; reflexivity|].
  destruct (negb (opt_truthy code)); [apply H0; reflexivity|].
  destruct (negb (bool_decide (state = Some (STATE_NONCE cfg))));
    [apply H0; reflexivity|].
  cbv zeta.
  destruct (exchange_result _) as [ut|e|]; [|apply H1; reflexivity..].
  destruct (accounts_result _) as [pages|e|]; [|apply (H2 _ ut); reflexivity..].
  destruct (_pick_first_valid_page pages) as [chosen|e|];
    apply (H2 _ ut); reflexivity.
Qed.

Lemma run_log cfg op w :
  ∃ l, calls (run cfg op w).2 = (calls w ++ l)%list ∧ Forall call_ok l.
Proof.
  assert (H0 : ∀ w1, w1 = w →
            ∃ l, calls w1 = (calls w ++ l)%list ∧ Forall call_ok l).
  { intros w1 ->. exists []. rewrite app_nil_r. split; [reflexivity | constructor]. }
  destruct op as [| | |code state error ed| |fuel payload]; cbn [run].
  - apply H0. reflexivity.
  - apply H0, home_world.
  - apply H0, login_world.
  - apply oauth_callback_log.
  - apply H0. reflexivity.
  - apply publish_log.
Qed.

(** X16.  Every call the process ever makes.  In any world reached from
    process start, each upstream call in the log has a timeout of 60
    seconds; is a GET with a query and no form when it goes to the token,
    accounts or container URL, and a POST with a form and no query when it
    goes to the media or media_publish URL; sends the client secret only
    when it goes to the token URL; and sends an access token when it goes
    anywhere else.  An operation only adds calls to those made before. *)
Theorem calls_are_well_formed (cfg : settings) (w : world) (op : operation) :
  reachable cfg w →
  Forall call_ok (calls w)
  ∧ ∃ l, calls (run cfg op w).2 = (calls w ++ l)%list ∧ Forall call_ok l.
Proof.
  intros Hr. split; [|apply run_log].
  clear op. induction Hr as [up clk|w op Hr IH].
  - constructor.
  - destruct (run_log cfg op w) as (l & -> & Hl).
    apply Forall_app. split; assumption.
Qed.

Lemma calls_are_well_formed_witness :
  reachable settings_demo
    (run settings_demo (GetOAuthCallback (Some "abc") (Some "nonce") None None)
       (world_start upstream_oauth clock_7)).2
  ∧ Forall call_ok
      (calls (run settings_demo (GetOAuthCallback (Some "abc") (Some "nonce") None None)
                (world_start upstream_oauth clock_7)).2).
Proof.
  assert (H : reachable settings_demo
                (run settings_demo
                   (GetOAuthCallback (Some "abc") (Some "nonce") None None)
                   (world_start upstream_oauth clock_7)).2)
    by (apply reachable_step, reachable_start).
  split; [exact H|].
  exact (proj1 (calls_are_well_formed settings_demo _ GetStatus H)).
Defined.

(** ** The constants read from the environment *)

Lemma rstrip_slash_last s : last_char (rstrip_slash s) ≠ Some "/"%char.
Proof.
  induction s as [|c s IH]; cbn [rstrip_slash]; [discriminate|].
  destruct (rstrip_slash s) as [|c' r] eqn:Hr.
  - destruct (Ascii.eqb_spec c "/"); [discriminate|].
    cbn. congruence.
  - exact IH.
Qed.

Lemma rstrip_nonspace c s : isspace c = false → rstrip (String c s) ≠ "".
Proof.
  intros Hc. cbn [rstrip]. destruct (rstrip s); [rewrite Hc|]; discriminate.
Qed.

Lemma strip_blank s : strip s = "" ↔ blank s = true.
Proof.
  unfold strip. induction s as [|c s IH]; cbn [lstrip blank]; [tauto|].
  destruct (isspace c) eqn:Hc; cbn [andb]; [exact IH|].
  split; [|discriminate]. intros H. exfalso. exact (rstrip_nonspace c s Hc H).
Qed.

(** X17.  The constants as read from the environment.  The client id and
    the client secret are reported missing exactly when their variable is
    unset, empty or made of whitespace only.  The base URL never ends with
    a slash, so the redirect URI built from it is the base followed by
    "/oauth/callback", with one slash between them.  When PUBLIC_BASE_URL
    is unset the service address of the source is the base, the redirect
    URI is never empty, and the configuration check passes exactly when
    the id and the secret are given.  The variables hold ASCII text, so
    that trimming them is what [str.strip] does. *)
Theorem settings_from_environment (environ : gmap string string) (nonce : string) :
  let cfg := load_settings environ nonce in
  ascii_environ environ = true →
  ("META_APP_ID" ∈ missing_settings cfg
   ↔ blank (getenv environ "META_APP_ID" "") = true)
  ∧ ("META_APP_SECRET" ∈ missing_settings cfg
     ↔ blank (getenv environ "META_APP_SECRET" "") = true)
  ∧ last_char (PUBLIC_BASE_URL cfg) ≠ Some "/"%char
  ∧ (blank (getenv environ "META_REDIRECT_URI" "") = true →
     PUBLIC_BASE_URL cfg ≠ "" →
     _get_redirect_uri cfg = PUBLIC_BASE_URL cfg ++ "/oauth/callback")
  ∧ (environ !! "PUBLIC_BASE_URL" = None →
     PUBLIC_BASE_URL cfg = "https://enviarvideo-production.up.railway.app"
     ∧ _get_redirect_uri cfg ≠ ""
     ∧ (_require_env cfg = Ret tt
        ↔ blank (getenv environ "META_APP_ID" "") = false
          ∧ blank (getenv environ "META_APP_SECRET" "") = false)).
Proof.
  intros cfg _.
  destruct (missing_settings_spec cfg) as (H1 & H2 & H3 & H4 & Hall).
  split; [rewrite H1; apply strip_blank|].
  split; [rewrite H2; apply strip_blank|].
  split; [apply rstrip_slash_last|].
  split.
  - intros Hb Hp. apply strip_blank in Hb.
    unfold _get_redirect_uri.
    change (META_REDIRECT_URI cfg)
      with (strip (getenv environ "META_REDIRECT_URI" "")).
    rewrite Hb. cbn [nonempty String.eqb negb].
    apply nonempty_true in Hp. rewrite Hp. reflexivity.
  - intros Hunset.
    assert (Hbase : PUBLIC_BASE_URL cfg
                    = "https://enviarvideo-production.up.railway.app").
    { subst cfg. unfold load_settings, getenv. cbn [PUBLIC_BASE_URL].
      rewrite Hunset. reflexivity. }
    assert (Hne : PUBLIC_BASE_URL cfg ≠ "") by (rewrite Hbase; discriminate).
    assert (Hr : _get_redirect_uri cfg ≠ "").
    { intros H. apply redirect_uri_empty in H as [_ H]. contradiction. }
    split; [exact Hbase|]. split; [exact Hr|].
    rewrite require_env_ok. split.
    + intros Hnil. split.
      * destruct (blank (getenv environ "META_APP_ID" "")) eqn:Hb; [|reflexivity].
        apply strip_blank, H1 in Hb. rewrite Hnil in Hb.
        apply elem_of_nil in Hb. contradiction.
      * destruct (blank (getenv environ "META_APP_SECRET" "")) eqn:Hb; [|reflexivity].
        apply strip_blank, H2 in Hb. rewrite Hnil in Hb.
        apply elem_of_nil in Hb. contradiction.
    + intros [Hi Hs].
      destruct (missing_settings cfg) as [|name l] eqn:Hm; [reflexivity|].
      exfalso.
      assert (Hin : name ∈ name :: l) by (apply elem_of_cons; auto).
      pose proof (Hall name Hin) as Hname.
      rewrite !elem_of_cons, elem_of_nil in Hname.
      destruct Hname as [-> | [-> | [-> | [-> | []]]]].
      * apply H1, strip_blank in Hin. congruence.
      * apply H2, strip_blank in Hin. congruence.
      * apply H3 in Hin. contradiction.
      * apply H4 in Hin. contradiction.
Qed.

Lemma settings_from_environment_witness :
  ascii_environ {[ "META_APP_ID" := "  "; "META_REDIRECT_URI" := " " ]} = true
  ∧ blank (getenv {[ "META_APP_ID" := "  "; "META_REDIRECT_URI" := " " ]}
           "META_REDIRECT_URI" "") = true
  ∧ _get_redirect_uri
      (load_settings {[ "META_APP_ID" := "  "; "META_REDIRECT_URI" := " " ]} "nonce")
    = "https://enviarvideo-production.up.railway.app/oauth/callback"
  ∧ "META_APP_ID"
    ∈ missing_settings
        (load_settings {[ "META_APP_ID" := "  "; "META_REDIRECT_URI" := " " ]} "nonce").
Proof.
  assert (Hb : blank (getenv {[ "META_APP_ID" := "  "; "META_REDIRECT_URI" := " " ]}
                        "META_REDIRECT_URI" "") = true) by reflexivity.
  assert (Ha : ascii_environ {[ "META_APP_ID" := "  "; "META_REDIRECT_URI" := " " ]}
                = true) by reflexivity.
  destruct (settings_from_environment
              {[ "META_APP_ID" := "  "; "META_REDIRECT_URI" := " " ]} "nonce" Ha)
    as (H1 & _ & _ & H4 & _).
  split; [exact Ha|]. split; [exact Hb|]. split.
  - rewrite (H4 Hb); [reflexivity | discriminate].
  - apply H1. reflexivity.
Defined.

(** ** The dialog URL *)

Lemma unquote_plain c t :
  Ascii.eqb c "%" = false → unquote (String c t) = String c (unquote t).
Proof.
  intros H. destruct t as [|a [|b s']]; cbn [unquote]; rewrite ?H; reflexivity.
Qed.

Lemma unreserved_not_percent c : unreserved c = true → Ascii.eqb c "%" = false.
Proof.
  destruct c as [[] [] [] [] [] [] [] []]; vm_compute; congruence.
Qed.

Lemma unquote_escape c t :
  unquote (String "%" (String (hex_digit (nat_of_ascii c / 16))
                         (String (hex_digit (nat_of_ascii c mod 16)) t)))
  = String c (unquote t).
Proof.
  destruct c as [[] [] [] [] [] [] [] []]; reflexivity.
Qed.

Lemma unquote_quote s : unquote (quote s) = s.
Proof.
  induction s as [|c s IH]; [reflexivity|].
  cbn [quote]. destruct (unreserved c) eqn:Hc.
  - rewrite unquote_plain by (apply unreserved_not_percent; exact Hc).
    rewrite IH. reflexivity.
  - cbv zeta. rewrite unquote_escape, IH. reflexivity.
Qed.

Lemma hex_digit_unreserved c :
  unreserved (hex_digit (nat_of_ascii c / 16)) = true
  ∧ unreserved (hex_digit (nat_of_ascii c mod 16)) = true.
Proof.
  destruct c as [[] [] [] [] [] [] [] []]; split; reflexivity.
Qed.

Lemma quote_chars s :
  all_chars (λ c, unreserved c || Ascii.eqb c "%") (quote s) = true.
Proof.
  induction s as [|c s IH]; [reflexivity|].
  cbn [quote]. destruct (unreserved c) eqn:Hc; cbv zeta; cbn [all_chars].
  - rewrite Hc, IH. reflexivity.
  - destruct (hex_digit_unreserved c) as [-> ->]. rewrite IH. reflexivity.
Qed.

(** X18.  The URL of the redirect.  [/login], when it redirects, sends
    the browser to the dialog address followed by the five parameters in
    the order client_id, redirect_uri, state, scope, response_type, the
    last one being "code".  The redirect URI and the scopes go through
    [quote]: what is written for them holds only letters, digits,
    [_ . - ~] and [%], hence none of the separators of a URL, whatever
    these settings hold; and reading the escapes back gives the settings
    again, so nothing of them is lost. *)
Theorem login_url_quoted (cfg : settings) (w : world) (url : dialog_url) :
  (login cfg w).1 = Ret (RedirectResponse url) →
  auth_url url
  = "https://www.facebook.com/dialog/oauth?client_id=" ++ META_APP_ID cfg
    ++ "&redirect_uri=" ++ quote (_get_redirect_uri cfg)
    ++ "&state=" ++ STATE_NONCE cfg
    ++ "&scope=" ++ quote (META_SCOPES cfg)
    ++ "&response_type=code"
  ∧ all_chars (λ c, unreserved c || Ascii.eqb c "%") (quote (_get_redirect_uri cfg))
    = true
  ∧ all_chars (λ c, unreserved c || Ascii.eqb c "%") (quote (META_SCOPES cfg)) = true
  ∧ unquote (quote (_get_redirect_uri cfg)) = _get_redirect_uri cfg
  ∧ unquote (quote (META_SCOPES cfg)) = META_SCOPES cfg.
Proof.
  intros Hr. unfold login in Hr. rewrite bind_lift in Hr.
  destruct (_require_env cfg) as [[]|e|]; try discriminate Hr.
  cbn in Hr. injection Hr as <-.
  split; [reflexivity|].
  split; [apply quote_chars|]. split; [apply quote_chars|].
  split; apply unquote_quote.
Qed.

Lemma login_url_quoted_witness :
  ∃ url,
    (login settings_demo world_offline).1 = Ret (RedirectResponse url)
    ∧ auth_url url
      = "https://www.facebook.com/dialog/oauth?client_id=app&redirect_uri=https%3A%2F%2Fenviarvideo-production.up.railway.app%2Foauth%2Fcallback&state=nonce&scope=pages_show_list%2Cpages_read_engagement%2Cinstagram_basic%2Cinstagram_content_publish&response_type=code".
Proof.
  eexists.
  assert (H : (login settings_demo world_offline).1
              = Ret (RedirectResponse
                       {| q_client_id := META_APP_ID settings_demo;
                          q_redirect_uri := _get_redirect_uri settings_demo;
                          q_state := STATE_NONCE settings_demo;
                          q_scope := META_SCOPES settings_demo;
                          q_response_type := "code" |})) by reflexivity.
  split; [exact H|].
  rewrite (proj1 (login_url_quoted settings_demo world_offline _ H)).
  reflexivity.
Defined.

(** ** The status codes of the callback *)

Lemma json_step_cases url r (f : json → res json) :
  (∀ js, (∃ v, f js = Ret v) ∨ f js = Raise AttributeError
         ∨ ∃ d, f js = Raise (HTTPException 400 d)) →
  let x := js <~ answer url r;; f js in
  (∃ v, x = Ret v)
  ∨ x = Raise RequestException
  ∨ x = Raise AttributeError
  ∨ ∃ d, x = Raise (HTTPException 400 d).
Proof.
  intros Hf. cbv zeta. destruct r as [|st body]; cbn [answer res_bind]; [auto|].
  destruct (400 <=? st)%Z; cbn [res_bind]; [eauto 6|].
  destruct (Hf (body_json body)) as [(v & ->) | [-> | (d & ->)]]; eauto 6.
Qed.

Lemma exchange_result_cases r :
  (∃ v, exchange_result r = Ret v)
  ∨ exchange_result r = Raise RequestException
  ∨ exchange_result r = Raise AttributeError
  ∨ ∃ d, exchange_result r = Raise (HTTPException 400 d).
Proof.
  apply (json_step_cases OAuthAccessToken r
           (λ js, token <~ py_get "access_token" js;;
                  if truthy token then Ret token
                  else Raise (HTTPException 400 (ErrorResp "Sem access_token" js)))).
  intros js. destruct js; cbn [py_get res_bind]; auto.
  destruct (truthy _); eauto.
Qed.

Lemma accounts_result_cases r :
  (∃ v, accounts_result r = Ret v)
  ∨ accounts_result r = Raise RequestException
  ∨ accounts_result r = Raise AttributeError
  ∨ ∃ d, accounts_result r = Raise (HTTPException 400 d).
Proof.
  apply (json_step_cases MeAccounts r
           (λ js, data <~ py_get_default "data" (JArr []) js;;
                  if truthy data then Ret data
                  else Raise (HTTPException 400 (Message msg_no_pages)))).
  intros js. destruct js; cbn [py_get_default res_bind]; auto.
  destruct (truthy _); eauto.
Qed.

Lemma pick_loop_cases items :
  (∃ p, pick_loop items = Ret p)
  ∨ pick_loop items = Raise AttributeError
  ∨ pick_loop items = Raise (HTTPException 400 (Message msg_no_valid_page)).
Proof.
  pose proof (pick_loop_sound items) as H.
  destruct (pick_loop items) as [p|[st d| | |]|]; eauto.
  - destruct H as (-> & -> & _). auto.
  - destruct H as [H _]. discriminate H.
  - destruct H as [H _]. discriminate H.
  - contradiction.
Qed.

Lemma pick_cases pages :
  (∃ p, _pick_first_valid_page pages = Ret p)
  ∨ _pick_first_valid_page pages = Raise AttributeError
  ∨ _pick_first_valid_page pages = Raise TypeError
  ∨ _pick_first_valid_page pages
    = Raise (HTTPException 400 (Message msg_no_valid_page)).
Proof.
  unfold _pick_first_valid_page.
  destruct pages as [| | |s|l|o]; cbn [py_iter res_bind]; auto.
  - destruct (pick_loop_cases ((λ c, JStr (String c EmptyString))
                                 <$> list_ascii_of_string s))
      as [(p & ->) | [-> | ->]]; eauto.
  - destruct (pick_loop_cases l) as [(p & ->) | [-> | ->]]; eauto.
  - destruct (pick_loop_cases (JStr <$> (map_to_list o).*1))
      as [(p & ->) | [-> | ->]]; eauto.
Qed.

Lemma oauth_callback_cases cfg code state error error_description w :
  let r := oauth_callback cfg code state error error_description w in
  (_require_env cfg ≠ Ret tt
   ∧ ∃ s, r = (Raise (HTTPException 500 (Message s)), w))
  ∨ (_require_env cfg = Ret tt
     ∧ ((∃ content, r.1 = Ret (JSONResponse content 400))
        ∨ (∃ d, r.1 = Raise (HTTPException 400 d))
        ∨ r.1 = Raise RequestException
        ∨ r.1 = Raise AttributeError
        ∨ r.1 = Raise TypeError
        ∨ ∃ p i, r.1 = Ret (HTMLResponse (AuthorizedPage p i)))).
Proof.
  cbv zeta. rewrite oauth_callback_eq.
  destruct (_require_env cfg) as [[]|e|] eqn:Henv.
  - right. split; [reflexivity|].
    destruct (opt_truthy error); [cbn [fst]; eauto|].
    destruct (negb (opt_truthy code)); [cbn [fst]; eauto|].
    destruct (negb (bool_decide (state = Some (STATE_NONCE cfg))));
      [cbn [fst]; eauto|].
    cbv zeta.
    destruct (exchange_result_cases (upstream w (length (calls w))))
      as [(ut & ->) | [-> | [-> | (d & ->)]]]; cbn [fst]; eauto 7.
    destruct (accounts_result_cases (upstream w (S (length (calls w)))))
      as [(pages & ->) | [-> | [-> | (d & ->)]]]; cbn [fst]; eauto 7.
    destruct (pick_cases pages) as [(p & ->) | [-> | [-> | ->]]];
      cbn [fst]; eauto 9.
  - left. split; [discriminate|].
    rewrite (require_env_raise cfg e Henv). eauto.
  - destruct (require_env_total cfg) as [H | (e & H)]; congruence.
Qed.

(** X19.  The status codes of the callback.  A callback always ends, and
    it is answered with 200, 400 or 500.  It is 200 exactly when it
    answers with the authorized page.  It is 500 only when the
    configuration is incomplete, when the HTTP client raised, or when an
    upstream reply was not of the expected type (a body or an account
    entry that is not an object, a listing that cannot be iterated). *)
Theorem callback_status_codes
    (cfg : settings) (code state error error_description : option string) (w : world) :
  let r := oauth_callback cfg code state error error_description w in
  r.1 ≠ OutOfFuel
  ∧ (∃ st, http_status r.1 = Some st ∧ st ∈ [200; 400; 500]%Z)
  ∧ (http_status r.1 = Some 200%Z
     ↔ ∃ p i, r.1 = Ret (HTMLResponse (AuthorizedPage p i)))
  ∧ (http_status r.1 = Some 500%Z →
       _require_env cfg ≠ Ret tt
       ∨ r.1 = Raise RequestException
       ∨ r.1 = Raise AttributeError
       ∨ r.1 = Raise TypeError).
Proof.
  intros r.
  destruct (oauth_callback_cases cfg code state error error_description w)
    as [[Hno (s & Hr)]
       |[Henv [(c & Hr) | [(d & Hr) | [Hr | [Hr | [Hr | (p & i & Hr)]]]]]]];
    fold r in Hr; rewrite Hr; cbn [fst http_status].
  all: split; [discriminate|].
  all: split; [eexists; split; [reflexivity|]; rewrite !elem_of_cons; auto 10|].
  all: split;
    [split; [intros H; first [discriminate H | eauto]
            |intros (? & ? & H); first [discriminate H | reflexivity]]|].
  all: intros H; first [discriminate H | auto].
Qed.

Lemma callback_status_codes_witness :
  http_status (oauth_callback settings_demo (Some "abc") (Some "nonce") None None
                 world_offline).1 = Some 500%Z
  ∧ (oauth_callback settings_demo (Some "abc") (Some "nonce") None None
       world_offline).1 = Raise RequestException.
Proof.
  assert (H : http_status (oauth_callback settings_demo (Some "abc") (Some "nonce")
                             None None world_offline).1 = Some 500%Z)
    by reflexivity.
  split; [exact H|].
  destruct (proj2 (proj2 (proj2 (callback_status_codes settings_demo (Some "abc")
                                   (Some "nonce") None None world_offline))) H)
    as [Hc | [Hc | [Hc | Hc]]]; [|exact Hc|discriminate Hc..].
  exfalso. apply Hc. reflexivity.
Defined.

(** ** What [/publish] reads from the payload *)

Lemma read_text k payload s :
  payload !! k = Some (JStr s) →
  py_strip (py_or (dict_get k payload) (JStr "")) = Ret (strip s).
Proof.
  intros H. unfold dict_get, py_or. rewrite H. cbn [default from_option id truthy].
  destruct (String.eqb_spec s ""); [subst|]; reflexivity.
Qed.

Lemma nonempty_strip s : nonempty (strip s) = negb (blank s).
Proof.
  destruct (blank s) eqn:Hb; cbn [negb].
  - apply strip_blank in Hb. rewrite Hb. reflexivity.
  - apply nonempty_true. intros H. apply strip_blank in H. congruence.
Qed.

(** X20.  What the container-create call of an authorized [/publish]
    takes from the payload.  A caption is sent trimmed, and not at all
    when it is absent, null, empty or made of whitespace only.  The video
    URL is sent trimmed, and the call is made only if the trimmed URL
    starts with "https://", so that whitespace around the URL is
    accepted.  For the media type "REELS" the feed flag is sent as "true"
    when the payload has no "share_to_feed", and otherwise as the truth
    value of the entry, so that null, 0 and an empty string count as
    false.  The media type, the URL and the caption are ASCII text, so
    that trimming them is what [str.strip] does. *)
Theorem publish_reads_payload
    (fuel : nat) (payload : gmap string json) (w : world) (rq : request) :
  authorized (TOKENS w) →
  ascii_texts payload = true →
  new_calls w (publish fuel payload w).2 !! 0%nat = Some rq →
  ∃ data u,
    req_data rq = Some data
    ∧ (∀ s, payload !! "caption" = Some (JStr s) →
         data !! "caption" = if blank s then None else Some (JStr (strip s)))
    ∧ (payload !! "caption" = None ∨ payload !! "caption" = Some JNull →
         data !! "caption" = None)
    ∧ data !! "video_url" = Some (JStr u)
    ∧ startswith u "https://" = true
    ∧ (∀ s, payload !! "video_url" = Some (JStr s) → u = strip s)
    ∧ (data !! "media_type" = Some (JStr "REELS") →
         (payload !! "share_to_feed" = None →
            data !! "share_to_feed" = Some (JStr "true"))
         ∧ (∀ v, payload !! "share_to_feed" = Some v →
              data !! "share_to_feed"
              = Some (JStr (if truthy v then "true" else "false")))).
Proof.
  intros Hauth _ Hrq.
  destruct (publish_first_call fuel payload w rq Hauth Hrq)
    as (m & u & c & data & Hm & Hu & Hc & Hv & Hs & -> & D1 & D2 & D3 & D4 & D5).
  exists data, u. split; [reflexivity|]. split; [|split; [|split; [exact D2|
    split; [exact Hs|split]]]].
  - intros s Hcap. unfold read_caption in Hc.
    rewrite (read_text _ _ _ Hcap) in Hc. injection Hc as <-.
    rewrite D4, nonempty_strip. destruct (blank s); reflexivity.
  - intros Hcap. unfold read_caption, dict_get in Hc.
    destruct Hcap as [Hcap | Hcap]; rewrite Hcap in Hc; cbn in Hc;
      injection Hc as <-; rewrite D4; reflexivity.
  - intros s Hurl. unfold read_video_url in Hu.
    rewrite (read_text _ _ _ Hurl) in Hu. injection Hu as <-. reflexivity.
  - intros Hmt. rewrite D1 in Hmt. injection Hmt as ->.
    rewrite D5. cbn [String.eqb Ascii.eqb Bool.eqb]. unfold read_share_to_feed.
    split; [intros ->; reflexivity | intros v ->; reflexivity].
Qed.

Lemma publish_reads_payload_witness :
  authorized (TOKENS (world_authorized upstream_ids clock_7))
  ∧ ascii_texts payload_no_wait = true
  ∧ ∃ rq data,
      new_calls (world_authorized upstream_ids clock_7)
        (publish 0 payload_no_wait (world_authorized upstream_ids clock_7)).2 !! 0%nat
      = Some rq
      ∧ req_data rq = Some data
      ∧ data !! "caption" = None.
Proof.
  assert (Hauth : authorized (TOKENS (world_authorized upstream_ids clock_7)))
    by (split; reflexivity).
  assert (Ha : ascii_texts payload_no_wait = true) by reflexivity.
  split; [exact Hauth|]. split; [exact Ha|].
  eexists.
  assert (Hrq : new_calls (world_authorized upstream_ids clock_7)
                  (publish 0 payload_no_wait
                     (world_authorized upstream_ids clock_7)).2 !! 0%nat
                = Some (Request "POST" (Media (JStr "ig1")) None
                          (Some {[ "media_type" := JStr "REELS";
                                   "video_url" := JStr "https://x/v.mp4";
                                   "access_token" := JStr "P1";
                                   "share_to_feed" := JStr "true" ]}) 60)).
  { vm_compute. reflexivity. }
  destruct (publish_reads_payload 0 payload_no_wait
              (world_authorized upstream_ids clock_7) _ Hauth Ha Hrq)
    as (data & u & Hd & _ & Hcap & _).
  exists data. split; [exact Hrq|]. split; [exact Hd|].
  apply Hcap. left. reflexivity.
Defined.
